(** * Travel concierge backend: intent router, profile store, fallback
      synthesis and feedback learner

    A shallow embedding of

    - [TravelAgentOrchestrator.detect_intent]          (backend/api/main.py)
    - [PersonalizedTravelAI]                           (backend/api/personalized_ai.py)
    - the [/api/user-stats], [/api/user-profile] and [/api/user-feedback]
      handlers                                         (backend/api/main.py)

    Python values are modelled as follows.

    - [str] is [string]; [str.lower] and [str.title] act on the ASCII
      letters, every other byte is kept.  All keyword tables of the
      program are ASCII.
    - [float] is modelled twice.  Module [Binary64] has the personalization
      score in IEEE 754 binary64, the arithmetic of the program (Rocq's
      primitive floats, specified by [FloatAxioms]).  Everywhere else
      ratings, scores and averages are exact rationals ([Q]), an
      idealisation without rounding: of such a value only its presence and
      order facts are stated, never its exact digits.
    - [datetime] is a number of microseconds ([Z]); every operation takes
      the clock reading [now] as an argument.
    - [self.user_profiles] is a [gmap string UserProfile]; the [logger]
      calls of the modelled methods are appended to a log that is part of
      the state.  The records the persistence helpers write
      ([_save_user_profile], [_save_user_profiles]: debug on success,
      error on a failed write) depend on the file system and are left out
      of that log.
    - request payloads are typed records ([Updates], [FeedbackData]): they
      describe the payloads whose values have the types the program
      expects.
    - an operation that can raise returns a [result]; the state reached
      before the exception is kept, as in Python. *)

From Stdlib Require Import Ascii ZArith QArith Qminmax Lqa Lia List.
From Stdlib Require String DecimalString.
From Stdlib Require PrimFloat SpecFloat FloatOps FloatAxioms Uint63.
From stdpp Require Import base option list gmap strings.

Import ListNotations.

(** ** Python string operations *)

Module Py.

Definition nl : string := String (ascii_of_nat 10) EmptyString.

Definition lower_ascii (c : ascii) : ascii :=
  let n := nat_of_ascii c in
  if (65 <=? n)%nat && (n <=? 90)%nat then ascii_of_nat (n + 32) else c.

Definition upper_ascii (c : ascii) : ascii :=
  let n := nat_of_ascii c in
  if (97 <=? n)%nat && (n <=? 122)%nat then ascii_of_nat (n - 32) else c.

Definition is_cased (c : ascii) : bool :=
  let n := nat_of_ascii c in
  ((65 <=? n)%nat && (n <=? 90)%nat) || ((97 <=? n)%nat && (n <=? 122)%nat).

(** [s.lower()] *)
Fixpoint lower (s : string) : string :=
  match s with
  | EmptyString => EmptyString
  | String c s' => String (lower_ascii c) (lower s')
  end.

(** [s.title()]: a cased letter that follows an uncased character is
    upper-cased, one that follows a cased letter is lower-cased. *)
Fixpoint title_from (prev_cased : bool) (s : string) : string :=
  match s with
  | EmptyString => EmptyString
  | String c s' =>
      String (if prev_cased then lower_ascii c else upper_ascii c)
             (title_from (is_cased c) s')
  end.

Definition title (s : string) : string := title_from false s.

(** [needle in hay] on strings *)
Fixpoint str_in (needle hay : string) : bool :=
  match hay with
  | EmptyString => String.prefix needle EmptyString
  | String _ hay' => String.prefix needle hay || str_in needle hay'
  end.

(** [any(w in s for w in words)] *)
Definition any_in (words : list string) (s : string) : bool :=
  existsb (fun w => str_in w s) words.

(** [x in xs] on a list of strings *)
Definition list_in (x : string) (xs : list string) : bool :=
  bool_decide (x ∈ xs).

(** [sep.join(xs)] *)
Fixpoint join (sep : string) (xs : list string) : string :=
  match xs with
  | [] => EmptyString
  | [x] => x
  | x :: xs' => x +:+ sep +:+ join sep xs'
  end.

(** [xs[-n:]] *)
Definition last_n {A} (n : nat) (xs : list A) : list A :=
  drop (length xs - n) xs.

(** [str(i)] for a non-negative integer *)
Definition str_of_nat (n : nat) : string :=
  DecimalString.NilEmpty.string_of_uint (Nat.to_uint n).

(** truthiness of an [Optional[str]] *)
Definition truthy (o : option string) : bool :=
  match o with
  | Some (String _ _) => true
  | _ => false
  end.

End Py.

(** ** Intent classifier ([TravelAgentOrchestrator.detect_intent]) *)

Module Orchestrator.

Definition locations : list string :=
  ["goa"; "kerala"; "rajasthan"; "himachal"; "kashmir"; "delhi"; "mumbai";
   "bangalore"].

Definition date_words : list string :=
  ["26th"; "27th"; "28th"; "29th"; "30th"; "31st"; "january"; "february";
   "march"; "april"; "may"; "june"; "july"; "august"; "september";
   "october"; "november"; "december"; "today"; "tomorrow"; "next week";
   "next month"].

Definition durations : list string :=
  ["days"; "day"; "weeks"; "week"; "months"; "month"; "10 days"; "7 days";
   "5 days"; "3 days"].

Definition planning_words : list string :=
  ["plan"; "itinerary"; "schedule"; "trip"; "vacation"; "days"; "week"].

Definition booking_words : list string :=
  ["book"; "reserve"; "flight"; "hotel"; "ticket"; "accommodation"].

Definition poi_words : list string :=
  ["attraction"; "visit"; "see"; "activity"; "things to do"; "sightseeing";
   "temple"; "fort"].

Definition trip_monitor_words : list string :=
  ["status"; "update"; "weather"; "delay"; "cancel"; "alert"; "monitor"].

Definition day_of_words : list string :=
  ["navigate"; "direction"; "where"; "help"; "emergency"; "now"; "current"].

Definition detect_intent (message : string) : string :=
  let message_lower := Py.lower message in
  let has_location := Py.any_in locations message_lower in
  let has_dates := Py.any_in date_words message_lower in
  let has_duration := Py.any_in durations message_lower in
  if has_location && (has_dates || has_duration) then "multi_agent"
  else if has_location then "place"
  else if Py.any_in planning_words message_lower then "planning"
  else if Py.any_in booking_words message_lower then "booking"
  else if Py.any_in poi_words message_lower then "poi"
  else if Py.any_in trip_monitor_words message_lower then "trip_monitor"
  else if Py.any_in day_of_words message_lower then "day_of"
  else "inspiration".

(** The classifier as the specification words it: a table of
    (predicate, label) rules read top to bottom, with a default. *)
Definition rule : Type := (string -> bool) * string.

Definition spec_rules : list rule :=
  [ (fun m => Py.any_in locations m
              && (Py.any_in date_words m || Py.any_in durations m),
     "multi_agent");
    (fun m => Py.any_in locations m, "place");
    (fun m => Py.any_in planning_words m, "planning");
    (fun m => Py.any_in booking_words m, "booking");
    (fun m => Py.any_in poi_words m, "poi");
    (fun m => Py.any_in trip_monitor_words m, "trip_monitor");
    (fun m => Py.any_in day_of_words m, "day_of") ].

Fixpoint first_match (rules : list rule) (default m : string) : string :=
  match rules with
  | [] => default
  | (p, label) :: rules' => if p m then label else first_match rules' default m
  end.

Definition spec_classify (message : string) : string :=
  first_match spec_rules "inspiration" (Py.lower message).

End Orchestrator.

(** ** Data model (personalized_ai.py) *)

Inductive PersonalityType :=
  | ADVENTUROUS | LUXURY | BUDGET | CULTURAL | RELAXED | FAMILY
  | BUSINESS | FOODIE | PHOTOGRAPHER | WELLNESS | BACKPACKER | ROMANTIC.

Inductive CommunicationStyle :=
  | FORMAL | CASUAL | ENTHUSIASTIC | PROFESSIONAL | FRIENDLY | HUMOROUS
  | DETAILED | CONCISE.

Definition PersonalityType_members : list PersonalityType :=
  [ADVENTUROUS; LUXURY; BUDGET; CULTURAL; RELAXED; FAMILY; BUSINESS; FOODIE;
   PHOTOGRAPHER; WELLNESS; BACKPACKER; ROMANTIC].

Definition CommunicationStyle_members : list CommunicationStyle :=
  [FORMAL; CASUAL; ENTHUSIASTIC; PROFESSIONAL; FRIENDLY; HUMOROUS; DETAILED;
   CONCISE].

(** [member.value] *)
Definition personality_value (p : PersonalityType) : string :=
  match p with
  | ADVENTUROUS => "adventurous" | LUXURY => "luxury" | BUDGET => "budget"
  | CULTURAL => "cultural" | RELAXED => "relaxed" | FAMILY => "family"
  | BUSINESS => "business" | FOODIE => "foodie"
  | PHOTOGRAPHER => "photographer" | WELLNESS => "wellness"
  | BACKPACKER => "backpacker" | ROMANTIC => "romantic"
  end.

Definition style_value (c : CommunicationStyle) : string :=
  match c with
  | FORMAL => "formal" | CASUAL => "casual" | ENTHUSIASTIC => "enthusiastic"
  | PROFESSIONAL => "professional" | FRIENDLY => "friendly"
  | HUMOROUS => "humorous" | DETAILED => "detailed" | CONCISE => "concise"
  end.

#[global] Instance PersonalityType_eq_dec : EqDecision PersonalityType.
Proof. solve_decision. Defined.

#[global] Instance CommunicationStyle_eq_dec : EqDecision CommunicationStyle.
Proof. solve_decision. Defined.

(** Exceptions the modelled code raises.  [UpstreamError msg] is whatever
    the call to the generative endpoint raised, [msg] being its [str(e)]. *)
Inductive exn :=
  | ValueError (msg : string)
  | KeyError (key : string)
  | IndexError (msg : string)
  | UnboundLocalError (msg : string)
  | HTTPException (status_code : nat) (detail : string)
  | UpstreamError (msg : string).

Inductive result (A : Type) :=
  | Ok (a : A)
  | Raise (e : exn).

Arguments Ok {A} a.
Arguments Raise {A} e.

(** [str(e)] *)
Definition str_of_exn (e : exn) : string :=
  match e with
  | ValueError msg => msg
  | KeyError key => "'" +:+ key +:+ "'"
  | IndexError msg => msg
  | UnboundLocalError msg => msg
  | HTTPException code detail => Py.str_of_nat code +:+ ": " +:+ detail
  | UpstreamError msg => msg
  end.

(** [PersonalityType(value)]: the member with that value, [ValueError]
    when there is none. *)
Definition PersonalityType_call (value : string) : result PersonalityType :=
  match find (fun p => String.eqb (personality_value p) value)
             PersonalityType_members with
  | Some p => Ok p
  | None => Raise (ValueError ("'" +:+ value +:+ "' is not a valid PersonalityType"))
  end.

Definition CommunicationStyle_call (value : string) : result CommunicationStyle :=
  match find (fun c => String.eqb (style_value c) value)
             CommunicationStyle_members with
  | Some c => Ok c
  | None => Raise (ValueError ("'" +:+ value +:+ "' is not a valid CommunicationStyle"))
  end.

(** What [analyze_user_intent_and_personality] returns.  In the program
    [updated_interests] is a reference to the profile's list; it is kept
    here as the value at the time of the call. *)
Record Analysis := {
  updated_interests : list string;
  budget_preference : option string;
  analysis_communication_style : string
}.

(** An entry of [conversation_history] *)
Record ConversationEntry := {
  ce_timestamp : Z;
  ce_message : string;
  ce_type : string;
  ce_personalization_used : option Analysis
}.

(** The [feedback_data] dictionary, by the keys the program reads.  A key
    that is absent is [None].  The record describes the well-typed
    payloads: a numeric rating, strings for the tone, the thumbs and the
    texts, a list of strings for the liked suggestions.  On a value of
    another type (a null or a non-numeric rating, a text that is no
    string) the program raises in [float()] or [.lower()]; such payloads
    are outside this model. *)
Record FeedbackData := {
  fd_rating : option Q;
  fd_liked_suggestions : option (list string);
  fd_disliked_tone : option string;
  fd_thumbs : option string;
  fd_feedback_text : option string;
  fd_original_suggestion : option string;
  fd_corrected_suggestion : option string
}.

(** An entry of [feedback_history] *)
Record FeedbackEntry := {
  fe_timestamp : Z;
  fe_type : string;
  fe_data : FeedbackData;
  fe_response_id : option string
}.

(** Entries of the lists kept under [learning_insights] *)
Record Pattern := {
  pat_timestamp : Z;
  pat_personality_type : string;
  pat_communication_style : string;
  pat_interests : option (list string);
  pat_feedback : FeedbackData
}.

Record Correction := {
  cor_timestamp : Z;
  cor_original : string;
  cor_corrected : string;
  cor_learned_preference : string
}.

Record SatisfactionTrend := {
  trend_average : Q;
  trend_improving : bool;
  trend_total_feedback_count : nat
}.

Record Milestone := {
  ms_feedback_count : nat;
  ms_reached_at : Z;
  ms_personalization_score : Q
}.

(** The [learning_insights] dictionary by its keys; a list key that is
    absent is the empty list (the program creates such a key only to
    append to it at once). *)
Record LearningInsights := {
  successful_patterns : list Pattern;
  unsuccessful_patterns : list Pattern;
  corrections : list Correction;
  satisfaction_trend : option SatisfactionTrend;
  milestone : option Milestone;
  budget_adjusted : option string;
  removed_interest : option string
}.

Definition no_insights : LearningInsights :=
  {| successful_patterns := []; unsuccessful_patterns := [];
     corrections := []; satisfaction_trend := None; milestone := None;
     budget_adjusted := None; removed_interest := None |}.

Record UserProfile := {
  user_id : string;
  name : option string;
  age_group : option string;
  personality_type : PersonalityType;
  communication_style : CommunicationStyle;
  budget_range : option string;
  interests : list string;
  travel_history : list string;
  conversation_history : list ConversationEntry;
  last_interaction : option Z;
  preferred_language : string;
  voice_enabled : bool;
  accessibility_needs : list string;
  feedback_history : list FeedbackEntry;
  satisfaction_scores : list Q;
  learning_insights : LearningInsights
}.

(** Attribute assignments [profile.f = v] *)
Definition set_name v p :=
  Build_UserProfile (user_id p) v (age_group p) (personality_type p)
    (communication_style p) (budget_range p) (interests p) (travel_history p)
    (conversation_history p) (last_interaction p) (preferred_language p)
    (voice_enabled p) (accessibility_needs p) (feedback_history p)
    (satisfaction_scores p) (learning_insights p).

Definition set_age_group v p :=
  Build_UserProfile (user_id p) (name p) v (personality_type p)
    (communication_style p) (budget_range p) (interests p) (travel_history p)
    (conversation_history p) (last_interaction p) (preferred_language p)
    (voice_enabled p) (accessibility_needs p) (feedback_history p)
    (satisfaction_scores p) (learning_insights p).

Definition set_personality_type v p :=
  Build_UserProfile (user_id p) (name p) (age_group p) v
    (communication_style p) (budget_range p) (interests p) (travel_history p)
    (conversation_history p) (last_interaction p) (preferred_language p)
    (voice_enabled p) (accessibility_needs p) (feedback_history p)
    (satisfaction_scores p) (learning_insights p).

Definition set_communication_style v p :=
  Build_UserProfile (user_id p) (name p) (age_group p) (personality_type p)
    v (budget_range p) (interests p) (travel_history p)
    (conversation_history p) (last_interaction p) (preferred_language p)
    (voice_enabled p) (accessibility_needs p) (feedback_history p)
    (satisfaction_scores p) (learning_insights p).

Definition set_budget_range v p :=
  Build_UserProfile (user_id p) (name p) (age_group p) (personality_type p)
    (communication_style p) v (interests p) (travel_history p)
    (conversation_history p) (last_interaction p) (preferred_language p)
    (voice_enabled p) (accessibility_needs p) (feedback_history p)
    (satisfaction_scores p) (learning_insights p).

Definition set_interests v p :=
  Build_UserProfile (user_id p) (name p) (age_group p) (personality_type p)
    (communication_style p) (budget_range p) v (travel_history p)
    (conversation_history p) (last_interaction p) (preferred_language p)
    (voice_enabled p) (accessibility_needs p) (feedback_history p)
    (satisfaction_scores p) (learning_insights p).

Definition set_conversation_history v p :=
  Build_UserProfile (user_id p) (name p) (age_group p) (personality_type p)
    (communication_style p) (budget_range p) (interests p) (travel_history p)
    v (last_interaction p) (preferred_language p)
    (voice_enabled p) (accessibility_needs p) (feedback_history p)
    (satisfaction_scores p) (learning_insights p).

Definition set_last_interaction v p :=
  Build_UserProfile (user_id p) (name p) (age_group p) (personality_type p)
    (communication_style p) (budget_range p) (interests p) (travel_history p)
    (conversation_history p) v (preferred_language p)
    (voice_enabled p) (accessibility_needs p) (feedback_history p)
    (satisfaction_scores p) (learning_insights p).

Definition set_preferred_language v p :=
  Build_UserProfile (user_id p) (name p) (age_group p) (personality_type p)
    (communication_style p) (budget_range p) (interests p) (travel_history p)
    (conversation_history p) (last_interaction p) v
    (voice_enabled p) (accessibility_needs p) (feedback_history p)
    (satisfaction_scores p) (learning_insights p).

Definition set_voice_enabled v p :=
  Build_UserProfile (user_id p) (name p) (age_group p) (personality_type p)
    (communication_style p) (budget_range p) (interests p) (travel_history p)
    (conversation_history p) (last_interaction p) (preferred_language p)
    v (accessibility_needs p) (feedback_history p)
    (satisfaction_scores p) (learning_insights p).

Definition set_feedback_history v p :=
  Build_UserProfile (user_id p) (name p) (age_group p) (personality_type p)
    (communication_style p) (budget_range p) (interests p) (travel_history p)
    (conversation_history p) (last_interaction p) (preferred_language p)
    (voice_enabled p) (accessibility_needs p) v
    (satisfaction_scores p) (learning_insights p).

Definition set_satisfaction_scores v p :=
  Build_UserProfile (user_id p) (name p) (age_group p) (personality_type p)
    (communication_style p) (budget_range p) (interests p) (travel_history p)
    (conversation_history p) (last_interaction p) (preferred_language p)
    (voice_enabled p) (accessibility_needs p) (feedback_history p)
    v (learning_insights p).

Definition set_learning_insights v p :=
  Build_UserProfile (user_id p) (name p) (age_group p) (personality_type p)
    (communication_style p) (budget_range p) (interests p) (travel_history p)
    (conversation_history p) (last_interaction p) (preferred_language p)
    (voice_enabled p) (accessibility_needs p) (feedback_history p)
    (satisfaction_scores p) v.

(** The [updates] dictionary of a profile update, as the
    [/api/user-profile] handler builds it from a [UserProfileUpdate]
    request: a key is present ([Some]) when the request field is not
    [None]; the keys are in the order of the request fields. *)
Record Updates := {
  upd_name : option string;
  upd_age_group : option string;
  upd_personality_type : option string;
  upd_communication_style : option string;
  upd_budget_range : option string;
  upd_interests : option (list string);
  upd_preferred_language : option string;
  upd_voice_enabled : option bool
}.

Definition no_updates : Updates :=
  {| upd_name := None; upd_age_group := None; upd_personality_type := None;
     upd_communication_style := None; upd_budget_range := None;
     upd_interests := None; upd_preferred_language := None;
     upd_voice_enabled := None |}.

(** ** State of a [PersonalizedTravelAI] and the monad of its methods *)

Inductive Level := DEBUG | INFO | WARNING | ERROR.

Record AI := {
  user_profiles : gmap string UserProfile;
  log : list (Level * string)
}.

Definition M (A : Type) : Type := AI -> result A * AI.

#[global] Instance M_ret : MRet M := fun A a s => (Ok a, s).

#[global] Instance M_bind : MBind M := fun A B f c s =>
  match c s with
  | (Ok a, s') => f a s'
  | (Raise e, s') => (Raise e, s')
  end.

Definition raise {A} (e : exn) : M A := fun s => (Raise e, s).

(** [try: c  except Exception as e: h e] *)
Definition try_except {A} (c : M A) (h : exn -> M A) : M A := fun s =>
  match c s with
  | (Ok a, s') => (Ok a, s')
  | (Raise e, s') => h e s'
  end.

Definition lift {A} (r : result A) : M A := fun s => (r, s).

Definition logger (l : Level) (msg : string) : M unit := fun s =>
  (Ok tt, {| user_profiles := user_profiles s; log := log s ++ [(l, msg)] |}).

(** [self.user_profiles.get(user_id)] *)
Definition profile_of (uid : string) : M (option UserProfile) := fun s =>
  (Ok (user_profiles s !! uid), s).

(** [self.user_profiles[user_id] = p]; also the effect of mutating in
    place the object stored under [user_id]. *)
Definition store_profile (uid : string) (p : UserProfile) : M unit := fun s =>
  (Ok tt, {| user_profiles := <[uid := p]> (user_profiles s); log := log s |}).

#[global] Instance result_ret : MRet result := fun A a => Ok a.

#[global] Instance result_bind : MBind result := fun A B f r =>
  match r with
  | Ok a => f a
  | Raise e => Raise e
  end.

(** ** Profile store *)

(** The [UserProfile(...)] call of [get_or_create_user_profile]; the two
    enum constructors are evaluated in argument order and may raise. *)
Definition new_profile (uid : string) (profile_data : Updates)
  : result UserProfile :=
  pt ← PersonalityType_call
         (default "adventurous" (upd_personality_type profile_data));
  cs ← CommunicationStyle_call
         (default "friendly" (upd_communication_style profile_data));
  mret {| user_id := uid;
          name := upd_name profile_data;
          age_group := upd_age_group profile_data;
          personality_type := pt;
          communication_style := cs;
          budget_range := upd_budget_range profile_data;
          interests := default [] (upd_interests profile_data);
          travel_history := [];
          conversation_history := [];
          last_interaction := None;
          preferred_language :=
            default "en" (upd_preferred_language profile_data);
          voice_enabled := default false (upd_voice_enabled profile_data);
          accessibility_needs := [];
          feedback_history := [];
          satisfaction_scores := [];
          learning_insights := no_insights |}.

Definition get_or_create_user_profile (uid : string)
    (initial_data : option Updates) : M UserProfile :=
  existing ← profile_of uid;
  match existing with
  | Some p => mret p
  | None =>
      let profile_data := default no_updates initial_data in
      p ← lift (new_profile uid profile_data);
      store_profile uid p;;
      logger INFO ("Created new user profile for " +:+ uid);;
      mret p
  end.

Definition interest_keywords : list (string * list string) :=
  [ ("adventure", ["adventure"; "hiking"; "trekking"; "extreme"; "thrill";
                   "adrenaline"; "climbing"; "rafting"]);
    ("luxury", ["luxury"; "5-star"; "premium"; "spa"; "resort";
                "fine dining"; "exclusive"; "VIP"]);
    ("culture", ["culture"; "history"; "museum"; "heritage"; "traditional";
                 "art"; "architecture"; "monument"]);
    ("food", ["food"; "cuisine"; "restaurant"; "local food"; "street food";
              "cooking"; "taste"; "flavor"]);
    ("nightlife", ["nightlife"; "party"; "club"; "bar"; "entertainment";
                   "dance"; "music"; "drinks"]);
    ("nature", ["nature"; "wildlife"; "safari"; "beach"; "mountain";
                "forest"; "lake"; "river"]);
    ("photography", ["photography"; "photos"; "instagram"; "scenic";
                     "camera"; "shoot"; "capture"; "golden hour"]);
    ("family", ["family"; "kids"; "children"; "family-friendly";
                "playground"; "educational"; "safe"]);
    ("wellness", ["wellness"; "yoga"; "meditation"; "spa"; "massage";
                  "detox"; "health"; "fitness"]);
    ("backpacking", ["backpack"; "hostel"; "budget travel"; "local";
                     "authentic"; "independence"; "solo"]);
    ("romance", ["romantic"; "couple"; "honeymoon"; "sunset"; "intimate";
                 "cozy"; "together"; "love"]);
    ("business", ["business"; "conference"; "meeting"; "networking"; "work";
                  "corporate"; "professional"]) ].

(** One turn of the loop over [interest_keywords.items()] *)
Definition detect_interest (message_lower : string)
    (ints : list string) (kw : string * list string) : list string :=
  if Py.any_in kw.2 message_lower then
    if Py.list_in kw.1 ints then ints else ints ++ [kw.1]
  else ints.

(** The append to [conversation_history] followed by the cut to the last
    20 entries. *)
Definition record_user_message (now : Z) (message : string)
    (hist : list ConversationEntry) : list ConversationEntry :=
  let hist := hist ++ [ {| ce_timestamp := now; ce_message := message;
                           ce_type := "user";
                           ce_personalization_used := None |} ] in
  if (20 <? length hist)%nat then Py.last_n 20 hist else hist.

Definition analyze_user_intent_and_personality (now : Z) (message : string)
    (p : UserProfile) : UserProfile * Analysis :=
  let p := set_conversation_history
             (record_user_message now message (conversation_history p)) p in
  let message_lower := Py.lower message in
  let p := set_interests
             (fold_left (detect_interest message_lower) interest_keywords
                        (interests p)) p in
  let p :=
    if Py.any_in ["budget"; "cheap"; "affordable"; "low cost"] message_lower
    then set_budget_range (Some "budget") p
    else if Py.any_in ["luxury"; "premium"; "expensive"; "high-end"]
                      message_lower
    then set_budget_range (Some "luxury") p
    else if Py.any_in ["mid-range"; "moderate"; "reasonable"] message_lower
    then set_budget_range (Some "mid-range") p
    else p in
  let p :=
    if Py.any_in ["please"; "kindly"; "would you"; "could you"] message_lower
    then set_communication_style FORMAL p
    else if Py.any_in ["awesome"; "cool"; "amazing"; "wow"] message_lower
    then set_communication_style ENTHUSIASTIC p
    else p in
  (p, {| updated_interests := interests p;
         budget_preference := budget_range p;
         analysis_communication_style :=
           style_value (communication_style p) |}).

(** ** Destination knowledge base *)

Record DestinationRecord := {
  best_time : string;
  weather_now : string;
  signature_experiences : list string;
  hidden_gems : list string;
  personality_matches : list (string * list string);
  local_tips : list string
}.

Definition destination_intelligence : list (string * DestinationRecord) :=
  [ ("goa",
     {| best_time := "November to March";
        weather_now := "Pleasant and sunny";
        signature_experiences :=
          ["Beach hopping in North Goa";
           "Portuguese heritage tour in Old Goa";
           "Spice plantation visits";
           "Sunset cruises on Mandovi River";
           "Night markets in Anjuna"];
        hidden_gems :=
          ["Butterfly Beach accessible only by boat";
           "Chorla Ghats waterfalls";
           "Divar Island bicycle tours";
           "Traditional Goan cooking classes"];
        personality_matches :=
          [("adventurous", ["Parasailing at Calangute";
                            "Scuba diving at Grande Island"]);
           ("luxury", ["Park Hyatt Goa Resort"; "Taj Exotica Goa"]);
           ("cultural", ["Basilica of Bom Jesus"; "Goa State Museum"]);
           ("foodie", ["Beach shacks for seafood"; "Feni tasting tours"]);
           ("romantic", ["Sunset at Chapora Fort";
                         "Candlelight dinner on beach"])];
        local_tips :=
          ["Rent a scooter for easy transportation";
           "Try Goan fish curry and rice";
           "Bargain at local markets";
           "Respect local customs at religious sites"] |});
    ("kerala",
     {| best_time := "October to March";
        weather_now := "Cool and comfortable";
        signature_experiences :=
          ["Houseboat cruise in Alleppey backwaters";
           "Tea plantation tours in Munnar";
           "Ayurveda treatments in Kovalam";
           "Kathakali dance performances";
           "Wildlife safari in Thekkady"];
        hidden_gems :=
          ["Varkala cliff beaches";
           "Chinese fishing nets in Fort Kochi";
           "Bamboo rafting in Periyar";
           "Village stay in Kumarakom"];
        personality_matches :=
          [("wellness", ["Ayurveda retreats"; "Yoga centers in Rishikesh"]);
           ("nature", ["Periyar Wildlife Sanctuary";
                       "Silent Valley National Park"]);
           ("luxury", ["Kumarakom Lake Resort"; "Taj Malabar Resort"]);
           ("cultural", ["Jewish Synagogue in Kochi"; "Mattancherry Palace"]);
           ("romantic", ["Houseboat honeymoon"; "Hill station retreats"])];
        local_tips :=
          ["Book houseboats in advance";
           "Try Kerala sadya (traditional meal)";
           "Carry light cotton clothes";
           "Learn basic Malayalam phrases"] |});
    ("chennai",
     {| best_time := "November to February";
        weather_now := "Hot and humid";
        signature_experiences :=
          ["Marina Beach sunrise walks";
           "Kapaleeshwarar Temple visits";
           "Classical music concerts in December";
           "Traditional South Indian breakfast tours";
           "Government Museum explorations"];
        hidden_gems :=
          ["Crocodile Bank conservation center";
           "DakshinaChitra cultural village";
           "Pulicat Lake bird sanctuary";
           "Mahabalipuram stone carvings day trip"];
        personality_matches :=
          [("cultural", ["Bharatanatyam performances";
                         "Temple architecture tours"]);
           ("foodie", ["Chettinad cuisine"; "Filter coffee culture"]);
           ("business", ["IT corridor networking"; "Conference venues"]);
           ("family", ["Birla Planetarium"; "Guindy National Park"]);
           ("photographer", ["Marina Beach sunsets";
                             "Colonial architecture"])];
        local_tips :=
          ["Use Chennai Metro for easy travel";
           "Try authentic Tamil meals on banana leaf";
           "Respect temple dress codes";
           "Learn a few Tamil greetings"] |}) ].

(** What [get_destination_intelligence] returns; the empty dictionary
    under ["intelligence"] is [None]. *)
Record DestinationIntel := {
  destination : string;
  intelligence : option DestinationRecord;
  has_specific_data : bool
}.

(** [d[k]] on an association list: [KeyError] when the key is absent *)
Definition subscript {V} (d : list (string * V)) (k : string) : result V :=
  match find (fun kv => String.eqb kv.1 k) d with
  | Some kv => Ok kv.2
  | None => Raise (KeyError k)
  end.

(** [d.get(k, default)] *)
Definition dict_get {V} (d : list (string * V)) (k : string) (dflt : V) : V :=
  match find (fun kv => String.eqb kv.1 k) d with
  | Some kv => kv.2
  | None => dflt
  end.

(** [xs[i]]: [IndexError] when out of range *)
Definition index {A} (xs : list A) (i : nat) : result A :=
  match xs !! i with
  | Some x => Ok x
  | None => Raise (IndexError "list index out of range")
  end.

Definition get_destination_intelligence (message : string)
  : result DestinationIntel :=
  let message_lower := Py.lower message in
  let detected_destination :=
    find (fun dest => Py.str_in dest message_lower)
         (map fst destination_intelligence) in
  match detected_destination with
  | Some dest =>
      intel ← subscript destination_intelligence dest;
      mret {| destination := dest; intelligence := Some intel;
              has_specific_data := true |}
  | None =>
      mret {| destination := "general"; intelligence := None;
              has_specific_data := false |}
  end.

(** ** Response synthesizer *)

Definition _select_travel_agent_persona (user_profile : UserProfile)
    (message_lower : string) : string :=
  if Py.any_in ["inspire"; "suggest"; "idea"; "where"; "destination"]
               message_lower then "inspiration"
  else if Py.any_in ["plan"; "itinerary"; "schedule"; "organize"]
                    message_lower then "planning"
  else if Py.any_in ["luxury"; "premium"; "5-star"; "exclusive"]
                    message_lower then "luxury"
  else if Py.any_in ["adventure"; "thrill"; "extreme"; "outdoor"]
                    message_lower then "adventure"
  else if Py.any_in ["culture"; "history"; "heritage"; "traditional"]
                    message_lower then "cultural"
  else if bool_decide (personality_type user_profile = LUXURY) then "luxury"
  else if bool_decide (personality_type user_profile = ADVENTUROUS)
  then "adventure"
  else if bool_decide (personality_type user_profile = CULTURAL)
  then "cultural"
  else "general".

(** [enumerate(xs, start)] *)
Fixpoint enumerate {A} (start : nat) (xs : list A) : list (nat * A) :=
  match xs with
  | [] => []
  | x :: xs' => (start, x) :: enumerate (S start) xs'
  end.

(** truthiness of a list *)
Definition nonempty {A} (xs : list A) : bool :=
  match xs with [] => false | _ :: _ => true end.

(** The opening paragraph, by persona *)
Definition persona_opener (agent_persona name destination : string) : string :=
  if String.eqb agent_persona "inspiration" then
    "âœ¨ **Travel Inspiration Agent here!** âœ¨" +:+ Py.nl +:+ Py.nl +:+ "Hey "
    +:+ name +:+ "! I'm absolutely excited to help you discover the magic of "
    +:+ destination +:+ "! "
  else if String.eqb agent_persona "planning" then
    "ðŸ“‹ **Travel Planning Agent at your service!** ðŸ“‹" +:+ Py.nl +:+ Py.nl
    +:+ "Hi " +:+ name +:+ "! Let's turn your " +:+ destination
    +:+ " dreams into a concrete plan! "
  else if String.eqb agent_persona "luxury" then
    "ðŸ’Ž **Luxury Travel Specialist here!** ðŸ’Ž" +:+ Py.nl +:+ Py.nl
    +:+ "Welcome " +:+ name +:+ "! I specialize in creating extraordinary "
    +:+ destination +:+ " experiences that exceed expectations. "
  else if String.eqb agent_persona "adventure" then
    "ðŸ”ï¸ **Adventure Travel Expert ready!** ðŸ”ï¸" +:+ Py.nl +:+ Py.nl
    +:+ "Hey there " +:+ name +:+ "! Ready for some epic " +:+ destination
    +:+ " adventures? "
  else if String.eqb agent_persona "cultural" then
    "ðŸ›ï¸ **Cultural Experience Curator here!** ðŸ›ï¸" +:+ Py.nl +:+ Py.nl
    +:+ "Greetings " +:+ name
    +:+ "! Let me unveil the rich cultural tapestry of " +:+ destination
    +:+ " for you. "
  else
    "ðŸŒŸ **Your Personal Travel Concierge!** ðŸŒŸ" +:+ Py.nl +:+ Py.nl
    +:+ "Hello " +:+ name +:+ "! I'm here to craft the perfect "
    +:+ destination +:+ " experience just for you! ".

(** The block under [if has_intel:]; [intel] is the dictionary under
    ["intelligence"], every read of it but the guarded subscripts is a
    [.get]. *)
Definition add_destination_intelligence (user_profile : UserProfile)
    (destination : string) (intel : option DestinationRecord)
    (response : string) : result string :=
  let get {A} (f : DestinationRecord -> list A) : list A :=
    match intel with Some i => f i | None => [] end in
  let response :=
    if nonempty (get signature_experiences) then
      let top_experiences := take 3 (get signature_experiences) in
      let response :=
        response +:+ Py.nl +:+ Py.nl +:+ "ðŸŒŸ **Must-Experience in "
        +:+ destination +:+ ":**" +:+ Py.nl in
      fold_left
        (fun response ie =>
           response +:+ "   " +:+ Py.str_of_nat ie.1 +:+ ". " +:+ ie.2
           +:+ Py.nl)
        (enumerate 1 top_experiences) response
    else response in
  let matches :=
    dict_get (get personality_matches)
             (personality_value (personality_type user_profile)) [] in
  let response :=
    if nonempty matches then
      let response :=
        response +:+ Py.nl +:+ "ðŸŽ¯ **Perfect for your "
        +:+ personality_value (personality_type user_profile)
        +:+ " personality:**" +:+ Py.nl in
      fold_left
        (fun response m => response +:+ "   â€¢ " +:+ m +:+ Py.nl)
        (take 2 matches) response
    else response in
  response ←
    (if nonempty (get local_tips) then
       let response :=
         response +:+ Py.nl +:+ "ðŸ’¡ **Insider Tips:**" +:+ Py.nl in
       tip0 ← index (get local_tips) 0;
       let response := response +:+ "   â€¢ " +:+ tip0 +:+ Py.nl in
       if (1 <? length (get local_tips))%nat then
         tip1 ← index (get local_tips) 1;
         mret (response +:+ "   â€¢ " +:+ tip1 +:+ Py.nl)
       else mret response
     else mret response);
  match intel with
  | Some i =>
      if negb (String.eqb (best_time i) "") then
        mret (response +:+ Py.nl +:+ "ðŸ“… **Best Time to Visit:** "
              +:+ best_time i +:+ Py.nl)
      else mret response
  | None => mret response
  end.

Definition _generate_fallback_response (message : string)
    (user_profile : UserProfile) : result string :=
  let message_lower := Py.lower message in
  let name :=
    if Py.truthy (name user_profile) then default "" (name user_profile)
    else "valued traveler" in
  destination_intel ← get_destination_intelligence message;
  let destination := Py.title (destination destination_intel) in
  let has_intel := has_specific_data destination_intel in
  let agent_persona :=
    _select_travel_agent_persona user_profile message_lower in
  let response := persona_opener agent_persona name destination in
  response ←
    (if has_intel then
       add_destination_intelligence user_profile destination
         (intelligence destination_intel) response
     else mret response);
  let response :=
    response +:+ Py.nl +:+ "ðŸ’« **Why I'm perfect for you:**" +:+ Py.nl in
  let response :=
    response +:+ "   â€¢ I remember you're a "
    +:+ personality_value (personality_type user_profile) +:+ " traveler"
    +:+ Py.nl in
  let response :=
    response +:+ "   â€¢ Your "
    +:+ style_value (communication_style user_profile)
    +:+ " communication style guides my responses" +:+ Py.nl in
  let response :=
    if Py.truthy (budget_range user_profile) then
      response +:+ "   â€¢ I focus on "
      +:+ default "" (budget_range user_profile)
      +:+ " options that match your preferences" +:+ Py.nl
    else response in
  let response :=
    if nonempty (interests user_profile) then
      let interests_text := Py.join ", " (take 3 (interests user_profile)) in
      response +:+ "   â€¢ I know you love: " +:+ interests_text +:+ Py.nl
    else response in
  let response :=
    response +:+ Py.nl
    +:+ "ðŸ”„ **Let's continue planning!** I'm learning about your preferences with every conversation. " in
  let response :=
    response
    +:+ "The more we chat, the better I become at creating your perfect "
    +:+ destination +:+ " experience!" in
  let response :=
    response +:+ Py.nl +:+ Py.nl
    +:+ "ðŸ’¬ **What would you like to know next?**" +:+ Py.nl in
  let response :=
    response +:+ "   â€¢ Detailed itinerary planning" +:+ Py.nl in
  let response :=
    response +:+ "   â€¢ Specific accommodation recommendations" +:+ Py.nl in
  let response :=
    response +:+ "   â€¢ Local dining and entertainment" +:+ Py.nl in
  let response :=
    response +:+ "   â€¢ Transportation and logistics" +:+ Py.nl in
  mret response.

Definition generate_personalized_suggestions (user_profile : UserProfile)
    (message : string) : list string :=
  let base_suggestions : list string := [] in
  let base_suggestions :=
    if bool_decide (personality_type user_profile = ADVENTUROUS) then
      base_suggestions ++
        ["Show me adventure activities in this destination";
         "Find unique off-the-beaten-path experiences";
         "What are the most thrilling things to do here?"]
    else if bool_decide (personality_type user_profile = LUXURY) then
      base_suggestions ++
        ["Show premium resort options";
         "Find exclusive experiences and VIP services";
         "What are the most luxurious restaurants here?"]
    else if bool_decide (personality_type user_profile = CULTURAL) then
      base_suggestions ++
        ["Explore local culture and traditions";
         "Find historical sites and museums";
         "What authentic local experiences are available?"]
    else base_suggestions in
  let base_suggestions :=
    if Py.list_in "food" (interests user_profile) then
      base_suggestions ++ ["Discover the best local cuisine and food tours"]
    else base_suggestions in
  let base_suggestions :=
    if Py.list_in "photography" (interests user_profile) then
      base_suggestions ++ ["Find the most Instagram-worthy spots"]
    else base_suggestions in
  let base_suggestions :=
    if Py.list_in "nature" (interests user_profile) then
      base_suggestions ++ ["Explore natural attractions and wildlife"]
    else base_suggestions in
  let message_lower := Py.lower message in
  let base_suggestions :=
    if Py.str_in "days" message_lower then
      base_suggestions ++ ["Create a detailed day-by-day itinerary"]
    else base_suggestions in
  let base_suggestions :=
    if Py.any_in ["january"; "february"; "march"; "april"; "may"; "june"]
                 message_lower then
      base_suggestions ++ ["Check weather and seasonal highlights"]
    else base_suggestions in
  take 7 base_suggestions.

Record Booking := {
  bk_type : string;
  bk_option : string;
  bk_price : string;
  bk_details : string;
  bk_availability : string;
  bk_personalization : string
}.

Definition generate_personalized_bookings (user_profile : UserProfile)
    (message : string) : list Booking :=
  let bookings : list Booking := [] in
  let bookings :=
    if bool_decide (budget_range user_profile = Some "luxury") then
      bookings ++
        [ {| bk_type := "flight";
             bk_option := "Business Class - Air India";
             bk_price := "â‚¹25,000";
             bk_details := "Premium service with lounge access";
             bk_availability := "Available - Limited seats";
             bk_personalization := "Selected for your luxury preferences" |};
          {| bk_type := "hotel";
             bk_option := "5-Star Resort & Spa";
             bk_price := "â‚¹18,000/night";
             bk_details := "Premium oceanview suite with spa access";
             bk_availability := "Available - Book now for best rates";
             bk_personalization := "Matches your luxury travel style" |} ]
    else if bool_decide (budget_range user_profile = Some "budget") then
      bookings ++
        [ {| bk_type := "flight";
             bk_option := "IndiGo - Economy";
             bk_price := "â‚¹6,500";
             bk_details := "Direct flight with good timing";
             bk_availability := "Great deal - Limited time";
             bk_personalization := "Best value for your budget" |};
          {| bk_type := "hotel";
             bk_option := "Boutique Guesthouse";
             bk_price := "â‚¹3,500/night";
             bk_details := "Clean, comfortable with local charm";
             bk_availability := "Available - Highly rated";
             bk_personalization := "Perfect budget option with character" |} ]
    else
      bookings ++
        [ {| bk_type := "flight";
             bk_option := "Vistara - Premium Economy";
             bk_price := "â‚¹12,000";
             bk_details := "Comfortable flight with good service";
             bk_availability := "Available - Good timing";
             bk_personalization := "Great balance of comfort and value" |};
          {| bk_type := "hotel";
             bk_option := "4-Star Beach Resort";
             bk_price := "â‚¹8,500/night";
             bk_details := "Beachfront location with modern amenities";
             bk_availability := "Available - Sea view rooms";
             bk_personalization := "Ideal for your travel style" |} ] in
  let bookings :=
    if Py.list_in "adventure" (interests user_profile) then
      bookings ++
        [ {| bk_type := "activity";
             bk_option := "Adventure Sports Package";
             bk_price := "â‚¹4,500";
             bk_details := "Paragliding, water sports, and trekking";
             bk_availability := "Available - Adventure guaranteed";
             bk_personalization := "Perfect for your adventurous spirit" |} ]
    else if Py.list_in "culture" (interests user_profile) then
      bookings ++
        [ {| bk_type := "activity";
             bk_option := "Cultural Heritage Tour";
             bk_price := "â‚¹2,800";
             bk_details := "Guided tour of historical sites and local culture";
             bk_availability := "Available - Expert local guides";
             bk_personalization := "Tailored for culture enthusiasts" |} ]
    else bookings in
  take 5 bookings.

(** [(now - last).days]: whole days, rounded towards minus infinity *)
Definition days_since (now last : Z) : Z := ((now - last) / 86400000000)%Z.

(** The score in exact arithmetic: the same accumulation without
    rounding.  The program's double can differ from this value in the last
    place; see [Binary64.calculate_personalization_score]. *)

(** [len(xs) * w] *)
Definition len_times {A} (xs : list A) (w : Q) : Q :=
  (inject_Z (Z.of_nat (length xs)) * w)%Q.

Definition calculate_personalization_score (now : Z)
    (user_profile : UserProfile) : Q :=
  let score := 0%Q in
  let score :=
    if Py.truthy (name user_profile) then (score + 0.1)%Q else score in
  let score :=
    if Py.truthy (age_group user_profile) then (score + 0.1)%Q else score in
  let score :=
    if Py.truthy (budget_range user_profile) then (score + 0.15)%Q
    else score in
  let score :=
    (score + Qmin (len_times (interests user_profile) 0.05) 0.2)%Q in
  let score :=
    (score + Qmin (len_times (travel_history user_profile) 0.03) 0.15)%Q in
  let score :=
    (score + Qmin (len_times (conversation_history user_profile) 0.01) 0.2)%Q in
  let score :=
    match last_interaction user_profile with
    | Some last =>
        if (days_since now last <? 7)%Z then (score + 0.1)%Q else score
    | None => score
    end in
  Qmin score 1.0.

(** The score as the interface description words it: a sum of seven
    weighted terms, capped at 1. *)
Definition spec_term (present : bool) (w : Q) : Q := if present then w else 0%Q.

Definition spec_capped_count (n : nat) (per_entry cap : Q) : Q :=
  if Qle_bool (inject_Z (Z.of_nat n) * per_entry) cap
  then (inject_Z (Z.of_nat n) * per_entry)%Q else cap.

Definition recent (now : Z) (last : option Z) : bool :=
  match last with
  | Some t => bool_decide (now - t < 7 * 86400000000)%Z
  | None => false
  end.

Definition spec_weighted_sum (now : Z) (p : UserProfile) : Q :=
  (spec_term (Py.truthy (name p)) 0.1
   + spec_term (Py.truthy (age_group p)) 0.1
   + spec_term (Py.truthy (budget_range p)) 0.15
   + spec_capped_count (length (interests p)) 0.05 0.2
   + spec_capped_count (length (travel_history p)) 0.03 0.15
   + spec_capped_count (length (conversation_history p)) 0.01 0.2
   + spec_term (recent now (last_interaction p)) 0.1)%Q.

Definition spec_score (now : Z) (p : UserProfile) : Q :=
  if Qle_bool (spec_weighted_sum now p) 1 then spec_weighted_sum now p
  else 1%Q.

(** ** The score in binary64

    Python's [float] is IEEE 754 binary64 with rounding to nearest even,
    the format and rounding of Rocq's primitive floats; a decimal literal
    denotes the nearest double in both. *)
Module Binary64.
Import PrimFloat.
#[local] Set Warnings "-inexact-float".

(** [float(len(xs))], the conversion [len(xs) * w] applies to its left
    operand: exact below 2^53 and rounded to nearest above.  A list of
    CPython holds fewer than 2^63 entries. *)
Definition float_of_len {A} (xs : list A) : float :=
  of_uint63 (Uint63.of_Z (Z.of_nat (length xs))).

(** The builtin [min(a, b)]: [b] when [b < a], else [a] *)
Definition py_min (a b : float) : float :=
  if (b <? a)%float then b else a.

(** [len(xs) * w] *)
Definition len_times {A} (xs : list A) (w : float) : float :=
  (float_of_len xs * w)%float.

Definition calculate_personalization_score (now : Z)
    (user_profile : UserProfile) : float :=
  let score := 0%float in
  let score :=
    if Py.truthy (name user_profile) then (score + 0.1)%float else score in
  let score :=
    if Py.truthy (age_group user_profile) then (score + 0.1)%float
    else score in
  let score :=
    if Py.truthy (budget_range user_profile) then (score + 0.15)%float
    else score in
  let score :=
    (score + py_min (len_times (interests user_profile) 0.05) 0.2)%float in
  let score :=
    (score + py_min (len_times (travel_history user_profile) 0.03) 0.15)%float
  in
  let score :=
    (score
     + py_min (len_times (conversation_history user_profile) 0.01) 0.2)%float
  in
  let score :=
    match last_interaction user_profile with
    | Some last =>
        if (days_since now last <? 7)%Z then (score + 0.1)%float else score
    | None => score
    end in
  py_min score 1.0.

(** The score as the interface description words it: the seven weighted
    terms added from left to right, capped at 1; every product, sum and
    comparison is the binary64 one. *)
Definition spec_term (present : bool) (w : float) : float :=
  if present then w else 0%float.

Definition spec_capped_count (n : nat) (per_entry cap : float) : float :=
  let x := (of_uint63 (Uint63.of_Z (Z.of_nat n)) * per_entry)%float in
  if (x <=? cap)%float then x else cap.

Definition spec_weighted_sum (now : Z) (p : UserProfile) : float :=
  (spec_term (Py.truthy (name p)) 0.1
   + spec_term (Py.truthy (age_group p)) 0.1
   + spec_term (Py.truthy (budget_range p)) 0.15
   + spec_capped_count (length (interests p)) 0.05 0.2
   + spec_capped_count (length (travel_history p)) 0.03 0.15
   + spec_capped_count (length (conversation_history p)) 0.01 0.2
   + spec_term (recent now (last_interaction p)) 0.1)%float.

Definition spec_score (now : Z) (p : UserProfile) : float :=
  if (spec_weighted_sum now p <=? 1)%float then spec_weighted_sum now p
  else 1%float.

(** A float that is [+0.0], positive and finite, or [+inf] *)
Definition nonneg (x : SpecFloat.spec_float) : Prop :=
  match x with
  | SpecFloat.S754_zero false | SpecFloat.S754_infinity false
  | SpecFloat.S754_finite false _ _ => True
  | _ => False
  end.

Definition nonnegative (x : float) : Prop := nonneg (FloatOps.Prim2SF x).

End Binary64.

Inductive UserInsights :=
  | InsightsAnalysis (analysis : Analysis)
  | InsightsFallback (fallback_mode : bool) (reason : string).

(** The dictionary [generate_personalized_response] returns *)
Record Response := {
  response : string;
  agent_used : string;
  confidence : Q;
  suggestions : list string;
  booking_options : list Booking;
  personalization_score : Q;
  user_insights : UserInsights;
  voice_response_available : bool;
  session_id : string
}.

(** [_save_user_profile] and [_save_user_profiles] write files under
    [user_data/] and catch every exception themselves, so they never
    raise and never touch [user_profiles].  Their own log records
    ([logger.debug] after a write, [logger.error] when the write fails)
    depend on the file system and are not part of [log]. *)
Definition _save_user_profile (uid : string) : M unit := mret tt.
Definition _save_user_profiles : M unit := mret tt.

(** The local variable [user_profile] of [generate_personalized_response]
    is the object stored under [user_id]; reading it is a lookup. *)
Definition bound_profile (uid : string) : M UserProfile :=
  o ← profile_of uid;
  match o with
  | Some p => mret p
  | None =>
      raise (UnboundLocalError
               "local variable 'user_profile' referenced before assignment")
  end.

(** [generate_personalized_response].  [upstream] is the outcome of the
    call [self.model.generate_content(prompt, ...)] followed by
    [response.text]: the text, or the exception raised.  The prompt is
    assembled by string formatting from the profile and the matched
    destination record and is only passed to that call. *)
Definition generate_personalized_response (now : Z)
    (upstream : result string) (message uid session : string) : M Response :=
  try_except
    (user_profile ← get_or_create_user_profile uid None;
     let (user_profile, analysis) :=
       analyze_user_intent_and_personality now message user_profile in
     store_profile uid user_profile;;
     destination_intel ← lift (get_destination_intelligence message);
     ai_response ← lift upstream;
     let user_profile :=
       set_conversation_history
         (conversation_history user_profile ++
            [ {| ce_timestamp := now; ce_message := ai_response;
                 ce_type := "ai";
                 ce_personalization_used := Some analysis |} ])
         user_profile in
     let user_profile := set_last_interaction (Some now) user_profile in
     store_profile uid user_profile;;
     _save_user_profile uid;;
     _save_user_profiles;;
     let suggestions :=
       generate_personalized_suggestions user_profile message in
     let booking_options :=
       generate_personalized_bookings user_profile message in
     mret {| response := ai_response;
             agent_used := "Personalized Gemini AI";
             confidence := 0.95;
             suggestions := suggestions;
             booking_options := booking_options;
             personalization_score :=
               calculate_personalization_score now user_profile;
             user_insights := InsightsAnalysis analysis;
             voice_response_available := voice_enabled user_profile;
             session_id := session |})
    (fun e =>
       logger ERROR
         ("Error generating personalized response: " +:+ str_of_exn e);;
       if Py.str_in "429" (str_of_exn e)
          || Py.str_in "quota" (Py.lower (str_of_exn e))
       then
         logger WARNING "Gemini API quota exceeded, using fallback response";;
         user_profile ← bound_profile uid;
         fallback_response ←
           lift (_generate_fallback_response message user_profile);
         let suggestions :=
           generate_personalized_suggestions user_profile message in
         let booking_options :=
           generate_personalized_bookings user_profile message in
         mret {| response := fallback_response;
                 agent_used := "Personalized Fallback Agent";
                 confidence := 0.7;
                 suggestions := suggestions;
                 booking_options := booking_options;
                 personalization_score :=
                   calculate_personalization_score now user_profile;
                 user_insights :=
                   InsightsFallback true "API quota exceeded";
                 voice_response_available := voice_enabled user_profile;
                 session_id := session |}
       else
         raise (HTTPException 500
                  ("AI response generation failed: " +:+ str_of_exn e))).

(** [list(set(xs))]: the distinct elements, in the order the set yields
    them. *)
Definition list_of_set (xs : list string) : list string :=
  elements (list_to_set xs : gset string).

(** The loop of [update_user_profile] over the keys of [updates], for a
    profile that exists.  It returns the profile and the warnings logged. *)
Definition apply_updates (updates : Updates) (profile : UserProfile)
  : UserProfile * list (Level * string) :=
  let profile :=
    match upd_name updates with
    | Some v => set_name (Some v) profile
    | None => profile
    end in
  let profile :=
    match upd_age_group updates with
    | Some v => set_age_group (Some v) profile
    | None => profile
    end in
  let '(profile, warnings) :=
    match upd_personality_type updates with
    | Some value =>
        match PersonalityType_call value with
        | Ok pt => (set_personality_type pt profile, [])
        | Raise _ =>
            (profile, [(WARNING, "Invalid personality type: " +:+ value)])
        end
    | None => (profile, [])
    end in
  let '(profile, warnings) :=
    match upd_communication_style updates with
    | Some value =>
        match CommunicationStyle_call value with
        | Ok cs => (set_communication_style cs profile, warnings)
        | Raise _ =>
            (profile,
             warnings ++ [(WARNING, "Invalid communication style: " +:+ value)])
        end
    | None => (profile, warnings)
    end in
  let profile :=
    match upd_budget_range updates with
    | Some v => set_budget_range (Some v) profile
    | None => profile
    end in
  let profile :=
    match upd_interests updates with
    | Some value =>
        set_interests (list_of_set (interests profile ++ value)) profile
    | None => profile
    end in
  let profile :=
    match upd_preferred_language updates with
    | Some v => set_preferred_language v profile
    | None => profile
    end in
  let profile :=
    match upd_voice_enabled updates with
    | Some v => set_voice_enabled v profile
    | None => profile
    end in
  (profile, warnings).

Definition log_all (records : list (Level * string)) : M unit := fun s =>
  (Ok tt, {| user_profiles := user_profiles s; log := log s ++ records |}).

Definition update_user_profile (uid : string) (updates : Updates)
  : M UserProfile :=
  existing ← profile_of uid;
  match existing with
  | None => get_or_create_user_profile uid (Some updates);; mret tt
  | Some profile =>
      let (profile, warnings) := apply_updates updates profile in
      store_profile uid profile;;
      log_all warnings
  end;;
  _save_user_profile uid;;
  _save_user_profiles;;
  o ← profile_of uid;
  match o with
  | Some p => mret p
  | None => raise (KeyError uid)
  end.

(** ** Feedback learner *)

(** One turn of the loop over [liked_suggestions] *)
Definition reinforce_interest (ints : list string) (suggestion : string)
  : list string :=
  let suggestion_lower := Py.lower suggestion in
  if Py.str_in "adventure" suggestion_lower
     && negb (Py.list_in "adventure" ints)
  then ints ++ ["adventure"]
  else if Py.str_in "luxury" suggestion_lower
          && negb (Py.list_in "luxury" ints)
  then ints ++ ["luxury"]
  else if Py.str_in "culture" suggestion_lower
          && negb (Py.list_in "culture" ints)
  then ints ++ ["culture"]
  else ints.

Definition _reinforce_positive_patterns (now : Z) (profile : UserProfile)
    (feedback_data : FeedbackData) : UserProfile :=
  let profile :=
    match fd_liked_suggestions feedback_data with
    | Some liked_suggestions =>
        set_interests
          (fold_left reinforce_interest liked_suggestions (interests profile))
          profile
    | None => profile
    end in
  let li := learning_insights profile in
  set_learning_insights
    {| successful_patterns :=
         successful_patterns li ++
           [ {| pat_timestamp := now;
                pat_personality_type :=
                  personality_value (personality_type profile);
                pat_communication_style :=
                  style_value (communication_style profile);
                pat_interests := Some (interests profile);
                pat_feedback := feedback_data |} ];
       unsuccessful_patterns := unsuccessful_patterns li;
       corrections := corrections li;
       satisfaction_trend := satisfaction_trend li;
       milestone := milestone li;
       budget_adjusted := budget_adjusted li;
       removed_interest := removed_interest li |}
    profile.

Definition _adjust_for_negative_feedback (now : Z) (profile : UserProfile)
    (feedback_data : FeedbackData) : UserProfile :=
  let profile :=
    match fd_disliked_tone feedback_data with
    | Some disliked_tone =>
        if String.eqb disliked_tone "too_casual"
           && bool_decide (communication_style profile = CASUAL)
        then set_communication_style PROFESSIONAL profile
        else if String.eqb disliked_tone "too_formal"
                && bool_decide (communication_style profile = FORMAL)
        then set_communication_style FRIENDLY profile
        else if String.eqb disliked_tone "too_enthusiastic"
        then set_communication_style PROFESSIONAL profile
        else profile
    | None => profile
    end in
  let li := learning_insights profile in
  set_learning_insights
    {| successful_patterns := successful_patterns li;
       unsuccessful_patterns :=
         unsuccessful_patterns li ++
           [ {| pat_timestamp := now;
                pat_personality_type :=
                  personality_value (personality_type profile);
                pat_communication_style :=
                  style_value (communication_style profile);
                pat_interests := None;
                pat_feedback := feedback_data |} ];
       corrections := corrections li;
       satisfaction_trend := satisfaction_trend li;
       milestone := milestone li;
       budget_adjusted := budget_adjusted li;
       removed_interest := removed_interest li |}
    profile.

(** [xs.remove(x)]: drops the first occurrence, [ValueError] if none *)
Fixpoint list_remove (x : string) (xs : list string) : result (list string) :=
  match xs with
  | [] => Raise (ValueError "list.remove(x): x not in list")
  | y :: ys =>
      if String.eqb y x then Ok ys
      else ys' ← list_remove x ys; mret (y :: ys')
  end.

(** The loop over [profile.interests.copy()] of
    [_process_detailed_feedback]; the state is the list and the value
    under [insights["removed_interest"]]. *)
Fixpoint remove_boring (feedback_text : string) (copy : list string)
    (st : list string * option string)
  : result (list string * option string) :=
  match copy with
  | [] => Ok st
  | interest :: copy' =>
      if Py.str_in interest feedback_text then
        ints ← list_remove interest st.1;
        remove_boring feedback_text copy' (ints, Some interest)
      else remove_boring feedback_text copy' st
  end.

Definition _process_detailed_feedback (profile : UserProfile)
    (feedback_data : FeedbackData) : result UserProfile :=
  let feedback_text := Py.lower (default "" (fd_feedback_text feedback_data)) in
  let '(profile, insight_budget) :=
    if Py.any_in ["too expensive"; "costly"; "price"] feedback_text then
      if negb (bool_decide (budget_range profile = Some "budget")) then
        (set_budget_range (Some "budget") profile,
         Some "Changed to budget-conscious based on feedback")
      else (profile, None)
    else if Py.any_in ["luxurious"; "premium"; "high-end"] feedback_text then
      if negb (bool_decide (budget_range profile = Some "luxury")) then
        (set_budget_range (Some "luxury") profile,
         Some "Changed to luxury based on feedback")
      else (profile, None)
    else (profile, None) in
  '(ints, insight_removed) ←
    (if Py.str_in "boring" feedback_text
        || Py.str_in "not interested" feedback_text
     then remove_boring feedback_text (interests profile)
            (interests profile, None)
     else mret (interests profile, None));
  let profile := set_interests ints profile in
  let li := learning_insights profile in
  mret (set_learning_insights
          {| successful_patterns := successful_patterns li;
             unsuccessful_patterns := unsuccessful_patterns li;
             corrections := corrections li;
             satisfaction_trend := satisfaction_trend li;
             milestone := milestone li;
             budget_adjusted :=
               match insight_budget with
               | Some v => Some v
               | None => budget_adjusted li
               end;
             removed_interest :=
               match insight_removed with
               | Some v => Some v
               | None => removed_interest li
               end |}
          profile).

Definition _extract_preference_from_correction (original corrected : string)
  : string :=
  let original_lower := Py.lower original in
  let corrected_lower := Py.lower corrected in
  if Py.str_in "budget" corrected_lower && Py.str_in "luxury" original_lower
  then "prefers_budget_over_luxury"
  else if Py.str_in "luxury" corrected_lower
          && Py.str_in "budget" original_lower
  then "prefers_luxury_over_budget"
  else if Py.str_in "adventure" corrected_lower
  then "prefers_adventure_activities"
  else if Py.str_in "cultural" corrected_lower
  then "prefers_cultural_experiences"
  else "preference_learned_from_correction".

Definition _process_correction_feedback (now : Z) (profile : UserProfile)
    (feedback_data : FeedbackData) : UserProfile :=
  let original_suggestion :=
    default "" (fd_original_suggestion feedback_data) in
  let corrected_suggestion :=
    default "" (fd_corrected_suggestion feedback_data) in
  let correction_insight :=
    {| cor_timestamp := now;
       cor_original := original_suggestion;
       cor_corrected := corrected_suggestion;
       cor_learned_preference :=
         _extract_preference_from_correction original_suggestion
           corrected_suggestion |} in
  let li := learning_insights profile in
  set_learning_insights
    {| successful_patterns := successful_patterns li;
       unsuccessful_patterns := unsuccessful_patterns li;
       corrections := corrections li ++ [correction_insight];
       satisfaction_trend := satisfaction_trend li;
       milestone := milestone li;
       budget_adjusted := budget_adjusted li;
       removed_interest := removed_interest li |}
    profile.

(** [sum(xs)] *)
Definition Qsum (xs : list Q) : Q := fold_left Qplus xs 0%Q.

(** [sum(xs) / len(xs)] in exact arithmetic; the program's double is this
    value up to rounding *)
Definition average (xs : list Q) : Q :=
  (Qsum xs / inject_Z (Z.of_nat (length xs)))%Q.

Definition _update_learning_insights (now : Z) (profile : UserProfile)
  : UserProfile :=
  let li := learning_insights profile in
  let trend :=
    if nonempty (satisfaction_scores profile) then
      let recent_scores := Py.last_n 5 (satisfaction_scores profile) in
      Some {| trend_average := average recent_scores;
              trend_improving :=
                (2 <=? length recent_scores)%nat
                && negb (Qle_bool (List.last recent_scores 0%Q)
                                  (hd 0%Q recent_scores));
              trend_total_feedback_count :=
                length (satisfaction_scores profile) |}
    else satisfaction_trend li in
  let ms :=
    if (length (feedback_history profile) mod 10 =? 0)%nat
       && (0 <? length (feedback_history profile))%nat
    then
      Some {| ms_feedback_count := length (feedback_history profile);
              ms_reached_at := now;
              ms_personalization_score :=
                calculate_personalization_score now profile |}
    else milestone li in
  set_learning_insights
    {| successful_patterns := successful_patterns li;
       unsuccessful_patterns := unsuccessful_patterns li;
       corrections := corrections li;
       satisfaction_trend := trend;
       milestone := ms;
       budget_adjusted := budget_adjusted li;
       removed_interest := removed_interest li |}
    profile.

(** What [process_user_feedback] returns *)
Inductive FeedbackResult :=
  | FeedbackError (error : string)
  | FeedbackProcessed (success feedback_processed : bool)
      (insights : LearningInsights) (average_satisfaction : Q).

(** The branch of [process_user_feedback] on [feedback_type] *)
Definition process_by_type (now : Z) (feedback_type : string)
    (feedback_data : FeedbackData) (profile : UserProfile)
  : result UserProfile :=
  if String.eqb feedback_type "rating" then
    let rating := default 3%Q (fd_rating feedback_data) in
    let profile :=
      set_satisfaction_scores (satisfaction_scores profile ++ [rating])
        profile in
    if Qle_bool 4 rating then
      mret (_reinforce_positive_patterns now profile feedback_data)
    else if Qle_bool rating 2 then
      mret (_adjust_for_negative_feedback now profile feedback_data)
    else mret profile
  else if String.eqb feedback_type "thumbs" then
    let rating :=
      if bool_decide (fd_thumbs feedback_data = Some "up") then 4.0%Q
      else 2.0%Q in
    mret (set_satisfaction_scores (satisfaction_scores profile ++ [rating])
            profile)
  else if String.eqb feedback_type "detailed" then
    _process_detailed_feedback profile feedback_data
  else if String.eqb feedback_type "correction" then
    mret (_process_correction_feedback now profile feedback_data)
  else mret profile.

Definition process_user_feedback (now : Z) (uid feedback_type : string)
    (feedback_data : FeedbackData) (response_id : option string)
  : M FeedbackResult :=
  existing ← profile_of uid;
  match existing with
  | None => mret (FeedbackError "User not found")
  | Some profile =>
      let feedback_entry :=
        {| fe_timestamp := now; fe_type := feedback_type;
           fe_data := feedback_data; fe_response_id := response_id |} in
      let profile :=
        set_feedback_history (feedback_history profile ++ [feedback_entry])
          profile in
      store_profile uid profile;;
      profile ← lift (process_by_type now feedback_type feedback_data profile);
      store_profile uid profile;;
      let profile := _update_learning_insights now profile in
      store_profile uid profile;;
      _save_user_profile uid;;
      mret (FeedbackProcessed true true (learning_insights profile)
              (if nonempty (satisfaction_scores profile)
               then average (Py.last_n 10 (satisfaction_scores profile))
               else 3.0%Q))
  end.

(** ** Statistics *)

Record UserStats := {
  stats_user_id : string;
  profile_completeness : Q;
  total_conversations : nat;
  interests_discovered : nat;
  trips_planned : nat;
  stats_last_interaction : option Z;
  stats_personality_type : string;
  stats_communication_style : string;
  stats_voice_enabled : bool
}.

Inductive StatsResult :=
  | StatsError (error : string)
  | Stats (stats : UserStats).

Definition get_user_stats (now : Z) (uid : string) : M StatsResult :=
  existing ← profile_of uid;
  match existing with
  | None => mret (StatsError "User not found")
  | Some profile =>
      mret (Stats
              {| stats_user_id := uid;
                 profile_completeness :=
                   calculate_personalization_score now profile;
                 total_conversations := length (conversation_history profile);
                 interests_discovered := length (interests profile);
                 trips_planned := length (travel_history profile);
                 stats_last_interaction := last_interaction profile;
                 stats_personality_type :=
                   personality_value (personality_type profile);
                 stats_communication_style :=
                   style_value (communication_style profile);
                 stats_voice_enabled := voice_enabled profile |})
  end.

(** ** HTTP handlers (backend/api/main.py)

    The module-level [personalized_ai] is [None] until start-up has
    initialised it; a handler runs a method of the instance on its state. *)

Definition App : Type := option AI.

Definition H (A : Type) : Type := App -> result A * App.

(** [get_personalized_ai()] followed by a method call on the instance *)
Definition with_personalized_ai {A} (method : M A) : H A := fun app =>
  match app with
  | None => (Raise (HTTPException 500 "Personalized AI not initialized"), app)
  | Some ai => let (r, ai') := method ai in (r, Some ai')
  end.

(** [except HTTPException: raise] then [except Exception as e: raise
    HTTPException(500, prefix + str(e))] *)
Definition reraise_http {A} (prefix : string) (r : result A) : result A :=
  match r with
  | Ok a => Ok a
  | Raise (HTTPException code detail) => Raise (HTTPException code detail)
  | Raise e => Raise (HTTPException 500 (prefix +:+ str_of_exn e))
  end.

(** [except Exception as e: raise HTTPException(500, prefix + str(e))] *)
Definition wrap_http {A} (prefix : string) (r : result A) : result A :=
  match r with
  | Ok a => Ok a
  | Raise e => Raise (HTTPException 500 (prefix +:+ str_of_exn e))
  end.

(** [GET /api/user-stats/{user_id}] *)
Definition api_get_user_stats (now : Z) (uid : string) : H UserStats :=
  fun app =>
    let (r, app') :=
      with_personalized_ai
        (stats ← get_user_stats now uid;
         match stats with
         | StatsError error => raise (HTTPException 404 error)
         | Stats st => mret st
         end) app in
    (reraise_http "Failed to get user stats: " r, app').

(** What [POST /api/user-profile] answers *)
Record ProfileUpdated := {
  pu_user_id : string;
  pu_personalization_score : Q;
  pu_personality_type : string;
  pu_communication_style : string;
  pu_interests : list string
}.

(** [POST /api/user-profile] *)
Definition api_update_user_profile (now : Z) (uid : string)
    (updates : Updates) : H ProfileUpdated :=
  fun app =>
    let (r, app') :=
      with_personalized_ai
        (profile ← update_user_profile uid updates;
         mret {| pu_user_id := uid;
                 pu_personalization_score :=
                   calculate_personalization_score now profile;
                 pu_personality_type :=
                   personality_value (personality_type profile);
                 pu_communication_style :=
                   style_value (communication_style profile);
                 pu_interests := interests profile |}) app in
    (wrap_http "Profile update failed: " r, app').

(** ** Scenarios *)

Definition empty_ai : AI := {| user_profiles := ∅; log := [] |}.

(** [n] chat exchanges of one user, each answered by the generative
    endpoint; the [k]-th happens at time [k]. *)
Fixpoint chat (n : nat) (uid : string) (ai : AI) : AI :=
  match n with
  | O => ai
  | S n' =>
      (generate_personalized_response (Z.of_nat n) (Ok "Here is my advice")
         "hello" uid "session-1" (chat n' uid ai)).2
  end.

(** [len(self.user_profiles[uid].conversation_history)] *)
Definition history_length (uid : string) (ai : AI) : option nat :=
  (fun p => length (conversation_history p)) <$> user_profiles ai !! uid.

Definition traveller : UserProfile :=
  {| user_id := "u1"; name := Some "Asha"; age_group := None;
     personality_type := ADVENTUROUS; communication_style := FRIENDLY;
     budget_range := None; interests := []; travel_history := [];
     conversation_history := []; last_interaction := None;
     preferred_language := "en"; voice_enabled := false;
     accessibility_needs := []; feedback_history := [];
     satisfaction_scores := []; learning_insights := no_insights |}.

Definition one_user : AI :=
  {| user_profiles := {[ "u1" := traveller ]}; log := [] |}.

(** A profile that holds three interests and nothing else *)
Definition three_interests : UserProfile :=
  {| user_id := "u3"; name := None; age_group := None;
     personality_type := ADVENTUROUS; communication_style := FRIENDLY;
     budget_range := None; interests := ["beach"; "food"; "culture"];
     travel_history := []; conversation_history := [];
     last_interaction := None;
     preferred_language := "en"; voice_enabled := false;
     accessibility_needs := []; feedback_history := [];
     satisfaction_scores := []; learning_insights := no_insights |}.

Definition no_feedback_data : FeedbackData :=
  {| fd_rating := None; fd_liked_suggestions := None;
     fd_disliked_tone := None; fd_thumbs := None; fd_feedback_text := None;
     fd_original_suggestion := None; fd_corrected_suggestion := None |}.

(** The profile after a feedback event that no branch handles: the event
    is appended and the insights are recomputed. *)
Definition after_unrecognized (now : Z) (feedback_type : string)
    (feedback_data : FeedbackData) (response_id : option string)
    (p : UserProfile) : UserProfile :=
  _update_learning_insights now
    (set_feedback_history
       (feedback_history p ++
          [ {| fe_timestamp := now; fe_type := feedback_type;
               fe_data := feedback_data; fe_response_id := response_id |} ])
       p).

(** Profile updates on first contact *)
Definition invalid_personality_update : Updates :=
  {| upd_name := Some "Asha"; upd_age_group := None;
     upd_personality_type := Some "invalid_value";
     upd_communication_style := None; upd_budget_range := Some "luxury";
     upd_interests := None; upd_preferred_language := None;
     upd_voice_enabled := None |}.

Definition repeated_interest_update : Updates :=
  {| upd_name := None; upd_age_group := None; upd_personality_type := None;
     upd_communication_style := None; upd_budget_range := None;
     upd_interests := Some ["food"; "food"]; upd_preferred_language := None;
     upd_voice_enabled := None |}.

(** [self.user_profiles[uid].interests] *)
Definition interests_of (uid : string) (ai : AI) : option (list string) :=
  interests <$> user_profiles ai !! uid.

(** A rating with a list of liked suggestions *)
Definition rating_feedback (rating : Q) (liked : list string) : FeedbackData :=
  {| fd_rating := Some rating; fd_liked_suggestions := Some liked;
     fd_disliked_tone := None; fd_thumbs := None; fd_feedback_text := None;
     fd_original_suggestion := None; fd_corrected_suggestion := None |}.


(** ** Keyword agents ([TravelAgentOrchestrator], backend/api/main.py) *)

(** An offer in a [booking_options] list of an agent *)
Record AgentBooking := {
  ab_type : string;
  ab_option : string;
  ab_price : string;
  ab_details : string;
  ab_availability : string
}.

(** The dictionary an agent returns.  The keys ["booking_options"] and
    ["agent"] may be absent ([None]). *)
Record AgentResult := {
  ar_response : string;
  ar_suggestions : list string;
  ar_confidence : Q;
  ar_booking_options : option (list AgentBooking);
  ar_agent : option string
}.

Module Agents.
Import Orchestrator.

Definition inspiration_agent (message : string) : AgentResult :=
  let message_lower := Py.lower message in
  if Py.any_in ["beach"; "ocean"; "sea"; "coastal"] message_lower then
    {| ar_response :=
         "🏖️ Perfect! I found some incredible beach destinations that will make your heart skip a beat! India's coastline offers everything from vibrant party beaches to serene hidden coves.";
       ar_suggestions :=
         ["Goa beach paradise";
          "Kerala backwaters cruise";
          "Andaman pristine islands";
          "Gokarna peaceful shores"];
       ar_confidence := 0.92%Q;
       ar_booking_options := None;
       ar_agent := None |}
  else if Py.any_in ["mountain"; "hill"; "trek"; "adventure"] message_lower then
    {| ar_response :=
         "🏔️ Mountain adventures await! From the mighty Himalayas to the lush Western Ghats, India offers breathtaking experiences for every thrill-seeker.";
       ar_suggestions :=
         ["Himachal Pradesh treks";
          "Kashmir valleys";
          "Uttarakhand peaks";
          "Hill station retreats"];
       ar_confidence := 0.90%Q;
       ar_booking_options := None;
       ar_agent := None |}
  else if Py.any_in ["culture"; "heritage"; "history"; "temple"] message_lower then
    {| ar_response :=
         "🏛️ India's rich cultural tapestry awaits! Discover ancient temples, majestic palaces, and vibrant traditions spanning millennia.";
       ar_suggestions :=
         ["Rajasthan royal heritage";
          "Tamil Nadu temple tours";
          "Delhi historical sites";
          "Varanasi spiritual journey"];
       ar_confidence := 0.88%Q;
       ar_booking_options := None;
       ar_agent := None |}
  else
    {| ar_response :=
         "🌟 Welcome to your AI Travel Concierge! I'm here to turn your travel dreams into reality. Whether you're seeking adventure, relaxation, or cultural immersion, I'll help you discover the perfect destination!";
       ar_suggestions :=
         ["Beach paradise getaway";
          "Mountain adventure trek";
          "Cultural heritage tour";
          "Wildlife safari";
          "Luxury spa retreat";
          "Budget backpacking"];
       ar_confidence := 0.85%Q;
       ar_booking_options := None;
       ar_agent := None |}.

Definition place_agent (message : string) : AgentResult :=
  let message_lower := Py.lower message in
  if Py.str_in "goa" message_lower then
    {| ar_response :=
         "🌴 Goa - India's crown jewel! This coastal paradise perfectly blends Portuguese heritage with Indian warmth. From the bustling beaches of North Goa to the serene shores of South Goa, every corner tells a story. The golden beaches, spice plantations, and vibrant nightlife create an unforgettable experience!";
       ar_suggestions :=
         ["Best beaches in Goa";
          "Portuguese heritage sites";
          "Goa nightlife hotspots";
          "Spice plantation tours";
          "Water sports activities"];
       ar_confidence := 0.95%Q;
       ar_booking_options := None;
       ar_agent := None |}
  else if Py.str_in "kerala" message_lower then
    {| ar_response :=
         "🌿 Kerala - God's Own Country! This tropical paradise enchants with its emerald backwaters, misty hill stations, and pristine beaches. Experience the magic of houseboat cruises, Ayurvedic treatments, and tea plantations that stretch to the horizon.";
       ar_suggestions :=
         ["Alleppey backwater cruises";
          "Munnar tea gardens";
          "Thekkady wildlife sanctuary";
          "Ayurvedic spa treatments";
          "Kerala cuisine experiences"];
       ar_confidence := 0.93%Q;
       ar_booking_options := None;
       ar_agent := None |}
  else if Py.str_in "rajasthan" message_lower then
    {| ar_response :=
         "🏰 Rajasthan - The Land of Kings! Step into a fairytale of majestic palaces, golden deserts, and colorful bazaars. This royal state offers camel safaris, palace stays, and cultural performances that transport you to an era of maharajas and legends.";
       ar_suggestions :=
         ["Jaipur Pink City tour";
          "Udaipur City of Lakes";
          "Jaisalmer desert safari";
          "Jodhpur Blue City";
          "Rajasthani cultural shows"];
       ar_confidence := 0.94%Q;
       ar_booking_options := None;
       ar_agent := None |}
  else
    {| ar_response :=
         "🗺️ I have detailed insights about destinations worldwide! Tell me which place captivates your imagination, and I'll share insider knowledge, hidden gems, and the best times to visit.";
       ar_suggestions :=
         ["Goa beach paradise";
          "Kerala backwaters";
          "Rajasthan heritage";
          "Himachal mountains";
          "Kashmir valleys"];
       ar_confidence := 0.80%Q;
       ar_booking_options := None;
       ar_agent := None |}.

Definition poi_agent (message : string) : AgentResult :=
  {| ar_response :=
       "🎯 Here are some incredible attractions that will make your trip unforgettable! Each destination offers unique experiences that showcase India's diverse beauty and rich heritage.";
     ar_suggestions :=
       ["Taj Mahal - Symbol of eternal love";
        "Goa beaches - Coastal paradise";
        "Kerala backwaters - Serene waterways";
        "Rajasthan palaces - Royal grandeur"];
     ar_confidence := 0.88%Q;
     ar_booking_options := None;
     ar_agent := None |}.

Definition planning_agent (message : string) : AgentResult :=
  let message_lower := Py.lower message in
  if Py.any_in ["3"; "three"; "weekend"] message_lower then
    {| ar_response :=
         "📅 Perfect! I'll create an amazing 3-day weekend getaway that maximizes your time and experiences. This itinerary balances must-see attractions with relaxation and local culture immersion.";
       ar_suggestions :=
         ["Day 1: Arrival & city exploration";
          "Day 2: Main attractions & activities";
          "Day 3: Relaxation & departure";
          "Customize itinerary"];
       ar_confidence := 0.92%Q;
       ar_booking_options := None;
       ar_agent := None |}
  else if Py.any_in ["week"; "7"; "seven"] message_lower then
    {| ar_response :=
         "🗓️ Excellent! A week-long adventure allows us to create a comprehensive journey covering multiple destinations, diverse experiences, and deeper cultural immersion. You'll return with memories to last a lifetime!";
       ar_suggestions :=
         ["Multi-city tour";
          "Adventure + relaxation combo";
          "Cultural deep dive";
          "Nature & wildlife focus"];
       ar_confidence := 0.90%Q;
       ar_booking_options := None;
       ar_agent := None |}
  else
    {| ar_response :=
         "✈️ I'll craft the perfect travel plan tailored to your preferences! Whether it's a quick getaway or an extended journey, I'll ensure every moment is optimized for maximum enjoyment and discovery.";
       ar_suggestions :=
         ["3-day weekend escape";
          "Week-long adventure";
          "Custom duration";
          "Multi-destination tour"];
       ar_confidence := 0.87%Q;
       ar_booking_options := None;
       ar_agent := None |}.

Definition booking_agent (message : string) : AgentResult :=
  let booking_options :=
    [
    {| ab_type := "flight";
       ab_option := "Air India Express";
       ab_price := "₹8,500";
       ab_details := "Delhi to Goa, 2h 30m direct flight";
       ab_availability := "Available" |};
    {| ab_type := "hotel";
       ab_option := "Taj Exotica Resort";
       ab_price := "₹12,000/night";
       ab_details := "5-star beachfront luxury resort";
       ab_availability := "Few rooms left" |};
    {| ab_type := "activity";
       ab_option := "Spice Plantation Tour";
       ab_price := "₹2,500";
       ab_details := "Full day guided tour with traditional lunch";
       ab_availability := "Available" |} ] in
  {| ar_response :=
       "🎫 Fantastic! I found some excellent booking options with great prices and availability. All options include taxes and come with free cancellation for your peace of mind.";
     ar_suggestions :=
       ["Compare all options";
        "Check detailed reviews";
        "Book now with discount";
        "Save for later"];
     ar_confidence := 0.91%Q;
     ar_booking_options := Some booking_options;
     ar_agent := None |}.

Definition trip_monitor_agent (message : string) : AgentResult :=
  {| ar_response :=
       "📱 All systems are monitoring your trip! Everything looks great - your flight is on time, weather is perfect, and all reservations are confirmed. I'll keep you updated on any changes.";
     ar_suggestions :=
       ["Check flight status";
        "Weather updates";
        "Hotel confirmation";
        "Local alerts"];
     ar_confidence := 0.96%Q;
     ar_booking_options := None;
     ar_agent := None |}.

Definition day_of_agent (message : string) : AgentResult :=
  {| ar_response :=
       "🚨 I'm here to help you right now! Whether you need directions, emergency assistance, or local recommendations, I've got you covered. Your safety and comfort are my top priorities.";
     ar_suggestions :=
       ["Get directions";
        "Find nearby services";
        "Emergency contacts";
        "Local recommendations"];
     ar_confidence := 0.98%Q;
     ar_booking_options := None;
     ar_agent := None |}.

Definition multi_agent_handler (message : string) : AgentResult :=
  let message_lower := Py.lower message in
  let destination :=
    if Py.str_in "goa" message_lower then "Goa"
    else "Your destination" in
  let duration :=
    if Py.str_in "10 days" message_lower then "10 days"
    else "your stay" in
  let date :=
    if Py.str_in "26th" message_lower then "26th"
    else "your travel date" in
  let place_info := place_agent message in
  let planning_info := planning_agent message in
  let booking_info := booking_agent message in
  let comprehensive_response :=
    "🌴 Fantastic choice! " +:+ destination +:+ " on the " +:+ date +:+ " for " +:+ duration +:+ " is perfect - here's your complete travel plan:" +:+ Py.nl
    +:+ Py.nl
    +:+ "🏖️ **Destination Insights (Place Agent):**" +:+ Py.nl
    +:+ ar_response place_info +:+ Py.nl
    +:+ Py.nl
    +:+ "📅 **Trip Planning (Planning Agent):**" +:+ Py.nl
    +:+ "I've crafted a perfect " +:+ duration +:+ " itinerary covering the best of " +:+ destination +:+ ":" +:+ Py.nl
    +:+ "• Days 1-3: North Goa beaches, nightlife, and Portuguese heritage" +:+ Py.nl
    +:+ "• Days 4-6: South Goa relaxation, spice plantations, and local culture  " +:+ Py.nl
    +:+ "• Days 7-10: Adventure activities, local markets, and hidden gems" +:+ Py.nl
    +:+ Py.nl
    +:+ "🎫 **Booking Options (Booking Agent):**" +:+ Py.nl
    +:+ "Found great deals for your " +:+ duration +:+ " trip:" in
  let enhanced_booking_options :=
    [
    {| ab_type := "flight";
       ab_option := "Air India Express";
       ab_price := "₹8,500";
       ab_details := "Delhi to Goa on " +:+ date +:+ ", return after " +:+ duration;
       ab_availability := "Available - Book now for best prices!" |};
    {| ab_type := "hotel";
       ab_option := "Taj Exotica Resort & Spa";
       ab_price := "₹12,000/night";
       ab_details := "5-star beachfront luxury for " +:+ duration;
       ab_availability := "Few rooms left for {date}" |};
    {| ab_type := "hotel";
       ab_option := "Alila Diwa Resort";
       ab_price := "₹8,000/night";
       ab_details := "4-star resort with spa for " +:+ duration;
       ab_availability := "Available with pool view" |};
    {| ab_type := "activity";
       ab_option := "Complete Goa Experience Package";
       ab_price := "₹15,000";
       ab_details := "Spice plantation, dolphin cruise, heritage tours for " +:+ duration;
       ab_availability := "Available - includes transport" |};
    {| ab_type := "transport";
       ab_option := "Rent a Scooter";
       ab_price := "₹500/day";
       ab_details := "Explore Goa freely for " +:+ duration;
       ab_availability := "Available - helmets included" |} ] in
  let comprehensive_suggestions :=
    ["See complete day-by-day itinerary";
     "Compare hotel packages";
     "Book flights + hotel combo";
     "Add adventure activities";
     "Get local restaurant recommendations";
     "Check weather forecast";
     "Download offline maps"] in
  {| ar_response := comprehensive_response;
     ar_suggestions := comprehensive_suggestions;
     ar_confidence := 0.96%Q;
     ar_booking_options := Some enhanced_booking_options;
     ar_agent := None |}.

(** [self.agents], in the order of the dictionary literal *)
Definition agents : list (string * (string -> AgentResult)) :=
  [ ("inspiration", inspiration_agent);
    ("place", place_agent);
    ("poi", poi_agent);
    ("planning", planning_agent);
    ("booking", booking_agent);
    ("trip_monitor", trip_monitor_agent);
    ("day_of", day_of_agent);
    ("multi_agent", multi_agent_handler) ].

Definition process_message (message : string) : result AgentResult :=
  let intent := detect_intent message in
  agent_func ← subscript agents intent;
  let result := agent_func message in
  let agent :=
    if String.eqb intent "multi_agent" then "Multi-Agent System"
    else Py.title intent in
  mret {| ar_response := ar_response result;
          ar_suggestions := ar_suggestions result;
          ar_confidence := ar_confidence result;
          ar_booking_options := ar_booking_options result;
          ar_agent := Some agent |}.

End Agents.

(** ** Sessions and the [/api/chat] handlers (backend/api/main.py) *)

Record SessionMessage := {
  sm_user : string;
  sm_assistant : string;
  sm_agent : string;
  sm_timestamp : Z
}.

Record Session := {
  sess_id : string;
  sess_created_at : Z;
  sess_messages : list SessionMessage
}.

(** [get_session]: the module-level [sessions] dictionary is passed in
    and returned. *)
Definition get_session (now : Z) (session_id : string)
    (sessions : gmap string Session) : Session * gmap string Session :=
  match sessions !! session_id with
  | Some session => (session, sessions)
  | None =>
      let session := {| sess_id := session_id; sess_created_at := now;
                        sess_messages := [] |} in
      (session, <[session_id := session]> sessions)
  end.

(** A [ChatRequest]; its [context] field is read by no handler. *)
Record ChatRequest := {
  req_message : string;
  req_session_id : string;
  req_user_id : string;
  req_voice_input : option bool;
  req_preferred_language : option string
}.

Record ChatResponse := {
  cr_response : string;
  cr_session_id : string;
  cr_agent_used : string;
  cr_confidence : Q;
  cr_suggestions : list string;
  cr_booking_options : list AgentBooking
}.

(** [d[k]] where the key may be absent *)
Definition required {V} (k : string) (v : option V) : result V :=
  match v with
  | Some x => Ok x
  | None => Raise (KeyError k)
  end.

(** [POST /api/chat], the handler [chat] *)
Definition api_chat (now : Z) (request : ChatRequest)
    (sessions : gmap string Session)
  : result ChatResponse * gmap string Session :=
  let (session, sessions) := get_session now (req_session_id request) sessions in
  let body :=
    result ← Agents.process_message (req_message request);
    agent ← required "agent" (ar_agent result);
    let session :=
      {| sess_id := sess_id session;
         sess_created_at := sess_created_at session;
         sess_messages :=
           sess_messages session ++
             [ {| sm_user := req_message request;
                  sm_assistant := ar_response result;
                  sm_agent := agent;
                  sm_timestamp := now |} ] |} in
    mret ({| cr_response := ar_response result;
             cr_session_id := req_session_id request;
             cr_agent_used := agent;
             cr_confidence := ar_confidence result;
             cr_suggestions := ar_suggestions result;
             cr_booking_options := default [] (ar_booking_options result) |},
          <[req_session_id request := session]> sessions) in
  match body with
  | Ok (answer, sessions') => (Ok answer, sessions')
  | Raise e =>
      (Raise (HTTPException 500 ("Chat processing failed: " +:+ str_of_exn e)),
       sessions)
  end.

Record SessionInfo := {
  si_session_id : string;
  si_created_at : Z;
  si_message_count : nat
}.

(** [GET /api/session/{session_id}] *)
Definition get_session_info (now : Z) (session_id : string)
    (sessions : gmap string Session) : SessionInfo * gmap string Session :=
  let (session, sessions) := get_session now session_id sessions in
  ({| si_session_id := session_id;
      si_created_at := sess_created_at session;
      si_message_count := length (sess_messages session) |}, sessions).

(** ** The [/api/user-feedback] and [/api/personalized-chat] handlers *)

(** [POST /api/user-feedback] *)
Definition api_submit_user_feedback (now : Z) (uid feedback_type : string)
    (feedback_data : FeedbackData) (response_id : option string)
  : H FeedbackResult :=
  fun app =>
    let (r, app') :=
      with_personalized_ai
        (result ← process_user_feedback now uid feedback_type feedback_data
                    response_id;
         match result with
         | FeedbackError error => raise (HTTPException 404 error)
         | FeedbackProcessed _ _ _ _ => mret result
         end) app in
    (reraise_http "Failed to process feedback: " r, app').

(** The values of [VoiceLanguage] (voice_system.py) *)
Definition VoiceLanguage_values : list string :=
  ["en-US"; "en-GB"; "hi-IN"; "es-ES"; "fr-FR"; "de-DE"].

(** [VoiceLanguage(value)], kept as its value *)
Definition VoiceLanguage_call (value : string) : result string :=
  if Py.list_in value VoiceLanguage_values then Ok value
  else Raise (ValueError ("'" +:+ value +:+ "' is not a valid VoiceLanguage")).

(** The module-level [voice_system], when it is set: what
    [text_to_speech(text, voice_personality=FRIENDLY, language=...)]
    leaves under ["audio_data"].  The method catches every exception
    itself. *)
Definition VoiceSystem : Type := string -> string -> option string.

Record PersonalizedChatResponse := {
  pc_response : string;
  pc_session_id : string;
  pc_user_id : string;
  pc_agent_used : string;
  pc_confidence : Q;
  pc_suggestions : list string;
  pc_booking_options : list Booking;
  pc_personalization_score : Q;
  pc_user_insights : UserInsights;
  pc_voice_response_available : bool;
  pc_voice_audio_data : option string
}.

(** [x or d] on an optional string *)
Definition str_or (x : option string) (d : string) : string :=
  if Py.truthy x then default d x else d.

(** [POST /api/personalized-chat].  [get_personalized_ai()] raises when
    the instance is missing and an instance is truthy, so the branch that
    falls back to the keyword agents is never taken. *)
Definition personalized_chat (now : Z) (upstream : result string)
    (voice_system : option VoiceSystem) (request : ChatRequest)
  : H PersonalizedChatResponse :=
  fun app =>
    let (r, app') :=
      if negb (Py.truthy (Some (req_message request)))
         || negb (Py.truthy (Some (req_user_id request)))
         || negb (Py.truthy (Some (req_session_id request)))
      then
        (Raise (HTTPException 400
                  "message, user_id, and session_id are required"), app)
      else
        with_personalized_ai
          (result ← generate_personalized_response now upstream
                      (req_message request) (req_user_id request)
                      (req_session_id request);
           voice_audio_data ←
             (if voice_response_available result then
                match voice_system with
                | Some text_to_speech =>
                    language ← lift (VoiceLanguage_call
                                       (str_or (req_preferred_language request)
                                               "en-US"));
                    mret (text_to_speech (response result) language)
                | None => mret None
                end
              else mret None);
           mret {| pc_response := response result;
                   pc_session_id := req_session_id request;
                   pc_user_id := req_user_id request;
                   pc_agent_used := agent_used result;
                   pc_confidence := confidence result;
                   pc_suggestions := suggestions result;
                   pc_booking_options := booking_options result;
                   pc_personalization_score := personalization_score result;
                   pc_user_insights := user_insights result;
                   pc_voice_response_available :=
                     voice_response_available result;
                   pc_voice_audio_data := voice_audio_data |}) app in
    (wrap_http "Personalized chat failed: " r, app').

(** ** Orderings used to state monotonicity *)

(** [q] has at least the profile data of [p]: whatever field is filled
    in [p] is filled in [q], no list is shorter, and the last interaction
    is the same. *)
Definition at_least_as_complete (p q : UserProfile) : Prop :=
  (Py.truthy (name p) = true -> Py.truthy (name q) = true)
  /\ (Py.truthy (age_group p) = true -> Py.truthy (age_group q) = true)
  /\ (Py.truthy (budget_range p) = true -> Py.truthy (budget_range q) = true)
  /\ length (interests p) <= length (interests q)
  /\ length (travel_history p) <= length (travel_history q)
  /\ length (conversation_history p) <= length (conversation_history q)
  /\ last_interaction p = last_interaction q.

(** [any(c.isupper() for c in s)] on ASCII letters *)
Fixpoint has_upper (s : string) : bool :=
  match s with
  | EmptyString => false
  | String c s' =>
      ((65 <=? nat_of_ascii c)%nat && (nat_of_ascii c <=? 90)%nat)
      || has_upper s'
  end.

(** The shape of an agent's answer: 4 to 7 suggestions, a confidence
    between 0.80 and 0.98, booking options present or not. *)
Definition answer_shape (with_bookings : bool) (r : AgentResult) : Prop :=
  4 <= length (ar_suggestions r) <= 7
  /\ (0.80 <= ar_confidence r)%Q
  /\ (ar_confidence r <= 0.98)%Q
  /\ (if with_bookings then is_Some (ar_booking_options r)
      else ar_booking_options r = None).

(** * Theorems *)

Section IntentClassifier.
Import Orchestrator.

Example detect_intent_goa_trip :
  detect_intent "I want to go to Goa for 10 days starting 26th" = "multi_agent".
Proof. reflexivity. Qed.

Example detect_intent_goa_only : detect_intent "Tell me about GOA" = "place".
Proof. reflexivity. Qed.

Example detect_intent_hotel : detect_intent "Reserve a hotel" = "booking".
Proof. reflexivity. Qed.

(** C1: for every message, [detect_intent] evaluates the eight rules in
    the fixed priority order on the lower-cased message and returns the
    label of the first rule that matches ([multi_agent], [place],
    [planning], [booking], [poi], [trip_monitor], [day_of], default
    [inspiration]); a message with a place name and a date or duration
    token is [multi_agent] and not [place]; the empty message is
    [inspiration]. *)
Theorem detect_intent_first_matching_rule (message : string) :
  detect_intent message = spec_classify message
  /\ (Py.any_in locations (Py.lower message) = true ->
      Py.any_in date_words (Py.lower message)
        || Py.any_in durations (Py.lower message) = true ->
      detect_intent message = "multi_agent" /\ detect_intent message <> "place")
  /\ detect_intent "" = "inspiration".
Proof.
  split; [|split].
  - unfold detect_intent, spec_classify, spec_rules, first_match.
    destruct (Py.any_in locations (Py.lower message)); simpl; reflexivity.
  - intros Hloc Htok. unfold detect_intent.
    rewrite Hloc, Htok. simpl. split; [reflexivity | discriminate].
  - reflexivity.
Qed.

Lemma detect_intent_first_matching_rule_witness :
  detect_intent "Kerala in December" = "multi_agent"
  /\ detect_intent "Kerala in December" <> "place".
Proof.
  apply (proj1 (proj2 (detect_intent_first_matching_rule "Kerala in December")));
    reflexivity.
Defined.

End IntentClassifier.

(** ** Conversation history *)

Section ConversationHistory.

Lemma last_n_length {A} (n : nat) (xs : list A) :
  length (Py.last_n n xs) = Nat.min n (length xs).
Proof. unfold Py.last_n. rewrite length_drop. lia. Qed.

Lemma last_n_suffix {A} (n : nat) (xs : list A) : Py.last_n n xs `suffix_of` xs.
Proof. apply suffix_drop. Qed.

(** Recording a user message leaves at most 20 entries. *)
Lemma record_user_message_length now message hist :
  length (record_user_message now message hist) <= 20.
Proof.
  unfold record_user_message.
  destruct (Nat.ltb_spec 20 (length (hist ++ [ {| ce_timestamp := now;
              ce_message := message; ce_type := "user";
              ce_personalization_used := None |} ]))) as [Hlt | Hle].
  - rewrite last_n_length. lia.
  - exact Hle.
Qed.

(** What is kept is the newest end of the history: eviction is FIFO. *)
Lemma record_user_message_suffix now message hist :
  record_user_message now message hist `suffix_of`
    hist ++ [ {| ce_timestamp := now; ce_message := message;
                 ce_type := "user"; ce_personalization_used := None |} ].
Proof.
  unfold record_user_message.
  match goal with |- context [if ?b then _ else _] => destruct b end.
  - apply last_n_suffix.
  - reflexivity.
Qed.

Lemma analyze_history now message p :
  conversation_history (analyze_user_intent_and_personality now message p).1
  = record_user_message now message (conversation_history p).
Proof.
  unfold analyze_user_intent_and_personality. cbn [fst].
  repeat match goal with
         | |- context [if ?b then _ else _] => destruct b
         end; reflexivity.
Qed.

(** C2: the reply of the generative endpoint is appended to
    [conversation_history] without the cut to 20 entries that follows the
    append of the user message; the eleventh answered exchange of a new
    user leaves 21 entries. *)
Theorem conversation_history_reaches_21 :
  history_length "u1" (chat 10 "u1" empty_ai) = Some 20
  /\ history_length "u1" (chat 11 "u1" empty_ai) = Some 21.
Proof. split; vm_compute; reflexivity. Qed.

End ConversationHistory.

(** ** Statistics lookup *)

Section Statistics.

(** C9: for a [user_id] with no profile, [get_user_stats] answers
    "User not found", which the handler turns into HTTP 404, and the
    profile store is left as it was: no profile is created. *)
Theorem get_user_stats_unknown_user (now : Z) (uid : string) (ai : AI)
    (Hnew : user_profiles ai !! uid = None) :
  get_user_stats now uid ai = (Ok (StatsError "User not found"), ai)
  /\ api_get_user_stats now uid (Some ai)
     = (Raise (HTTPException 404 "User not found"), Some ai).
Proof.
  assert (Hstore : get_user_stats now uid ai
                   = (Ok (StatsError "User not found"), ai)).
  { unfold get_user_stats, profile_of, mbind, M_bind. rewrite Hnew.
    reflexivity. }
  split; [exact Hstore |].
  unfold api_get_user_stats, with_personalized_ai.
  unfold mbind at 1. unfold M_bind. rewrite Hstore. reflexivity.
Qed.

Lemma get_user_stats_unknown_user_witness :
  get_user_stats 0 "nobody" empty_ai
  = (Ok (StatsError "User not found"), empty_ai)
  /\ api_get_user_stats 0 "nobody" (Some empty_ai)
     = (Raise (HTTPException 404 "User not found"), Some empty_ai).
Proof.
  apply (get_user_stats_unknown_user 0 "nobody" empty_ai). reflexivity.
Defined.

End Statistics.

(** ** Feedback of an unrecognized type *)

Section UnrecognizedFeedback.

Lemma process_by_type_unrecognized now feedback_type feedback_data p :
  feedback_type ∉ ["rating"; "thumbs"; "detailed"; "correction"] ->
  process_by_type now feedback_type feedback_data p = Ok p.
Proof.
  intros Hnot. unfold process_by_type.
  repeat match goal with
         | |- context [String.eqb feedback_type ?k] =>
             destruct (String.eqb_spec feedback_type k) as [-> | _];
               [exfalso; apply Hnot; set_solver |]
         end.
  reflexivity.
Qed.

(** C10: a feedback event for an existing user whose [feedback_type] is
    none of rating, thumbs, detailed, correction is appended to
    [feedback_history]; [satisfaction_scores], the scalar profile fields
    and [interests] stay as they were; the call answers success. *)
Theorem process_user_feedback_unrecognized_type
    (now : Z) (uid feedback_type : string) (feedback_data : FeedbackData)
    (response_id : option string) (ai : AI) (p : UserProfile)
    (Hknown : user_profiles ai !! uid = Some p)
    (Htype : feedback_type ∉ ["rating"; "thumbs"; "detailed"; "correction"]) :
  exists (ai' : AI) (p' : UserProfile) (avg : Q),
    process_user_feedback now uid feedback_type feedback_data response_id ai
    = (Ok (FeedbackProcessed true true (learning_insights p') avg), ai')
    /\ user_profiles ai' !! uid = Some p'
    /\ feedback_history p'
       = feedback_history p ++
           [ {| fe_timestamp := now; fe_type := feedback_type;
                fe_data := feedback_data; fe_response_id := response_id |} ]
    /\ satisfaction_scores p' = satisfaction_scores p
    /\ name p' = name p
    /\ age_group p' = age_group p
    /\ personality_type p' = personality_type p
    /\ communication_style p' = communication_style p
    /\ budget_range p' = budget_range p
    /\ interests p' = interests p
    /\ preferred_language p' = preferred_language p
    /\ voice_enabled p' = voice_enabled p
    /\ last_interaction p' = last_interaction p.
Proof.
  unfold process_user_feedback, profile_of, store_profile, lift,
    _save_user_profile.
  unfold mbind, M_bind, mret, M_ret. rewrite Hknown.
  rewrite (process_by_type_unrecognized _ _ _ _ Htype).
  eexists _, (after_unrecognized now feedback_type feedback_data response_id p), _.
  split; [reflexivity |].
  split; [cbn; apply lookup_insert_eq |].
  repeat split.
Qed.

Lemma process_user_feedback_unrecognized_type_witness :
  exists (ai' : AI) (p' : UserProfile) (avg : Q),
    process_user_feedback 5 "u1" "emoji" no_feedback_data None one_user
    = (Ok (FeedbackProcessed true true (learning_insights p') avg), ai')
    /\ user_profiles ai' !! "u1" = Some p'
    /\ feedback_history p'
       = feedback_history traveller ++
           [ {| fe_timestamp := 5; fe_type := "emoji";
                fe_data := no_feedback_data; fe_response_id := None |} ]
    /\ satisfaction_scores p' = satisfaction_scores traveller
    /\ name p' = name traveller
    /\ age_group p' = age_group traveller
    /\ personality_type p' = personality_type traveller
    /\ communication_style p' = communication_style traveller
    /\ budget_range p' = budget_range traveller
    /\ interests p' = interests traveller
    /\ preferred_language p' = preferred_language traveller
    /\ voice_enabled p' = voice_enabled traveller
    /\ last_interaction p' = last_interaction traveller.
Proof.
  apply (process_user_feedback_unrecognized_type 5 "u1" "emoji"
           no_feedback_data None one_user traveller).
  - reflexivity.
  - intros H. rewrite !elem_of_cons, elem_of_nil in H.
    intuition discriminate.
Defined.

End UnrecognizedFeedback.

(** ** Profile updates *)

Section ProfileUpdate.

Lemma PersonalityType_call_invalid value :
  value ∉ map personality_value PersonalityType_members ->
  PersonalityType_call value
  = Raise (ValueError ("'" +:+ value +:+ "' is not a valid PersonalityType")).
Proof.
  intros Hnot. unfold PersonalityType_call.
  destruct (find _ _) as [pt |] eqn:Hfind; [| reflexivity].
  apply find_some in Hfind as [Hin Heq].
  apply String.eqb_eq in Heq. subst value.
  exfalso. apply Hnot. apply list_elem_of_In, in_map, Hin.
Qed.

(** For a profile that exists, an unknown [personality_type] is dropped
    with a warning and the other keys of the same request are applied. *)
Lemma update_existing_drops_invalid_personality
    (uid value : string) (updates : Updates) (ai : AI) (p : UserProfile) :
  user_profiles ai !! uid = Some p ->
  upd_personality_type updates = Some value ->
  value ∉ map personality_value PersonalityType_members ->
  exists (p' : UserProfile) (ai' : AI),
    update_user_profile uid updates ai = (Ok p', ai')
    /\ user_profiles ai' !! uid = Some p'
    /\ personality_type p' = personality_type p
    /\ (WARNING, "Invalid personality type: " +:+ value) ∈ log ai'
    /\ name p' = from_option Some (name p) (upd_name updates)
    /\ age_group p' = from_option Some (age_group p) (upd_age_group updates)
    /\ budget_range p'
       = from_option Some (budget_range p) (upd_budget_range updates)
    /\ preferred_language p'
       = default (preferred_language p) (upd_preferred_language updates)
    /\ voice_enabled p'
       = default (voice_enabled p) (upd_voice_enabled updates).
Proof.
  intros Hknown Hvalue Hinvalid.
  unfold update_user_profile, profile_of, store_profile, log_all,
    _save_user_profile, _save_user_profiles.
  unfold mbind, M_bind, mret, M_ret. rewrite Hknown.
  unfold apply_updates. rewrite Hvalue.
  rewrite (PersonalityType_call_invalid _ Hinvalid).
  destruct updates as [un ua upt ucs ub ui ul uv]; cbn in *.
  destruct (match ucs with Some _ => _ | None => _ end) as [p1 w1] eqn:Hcs.
  cbn. rewrite lookup_insert_eq.
  eexists _, _. split; [reflexivity |]. cbn.
  split; [apply lookup_insert_eq |].
  assert (Hw : (WARNING, "Invalid personality type: " +:+ value) ∈ w1
               /\ personality_type p1 = personality_type p
               /\ name p1 = from_option Some (name p) un
               /\ age_group p1 = from_option Some (age_group p) ua
               /\ budget_range p1 = budget_range p
               /\ preferred_language p1 = preferred_language p
               /\ voice_enabled p1 = voice_enabled p).
  { destruct ucs as [v |].
    - destruct (CommunicationStyle_call v); inversion Hcs; subst;
        destruct un, ua; cbn; repeat split; set_solver.
    - inversion Hcs; subst. destruct un, ua; cbn; repeat split; set_solver. }
  destruct Hw as (Hw & Hpt & Hn & Ha & Hb & Hl & Hv).
  destruct ub, ui, ul, uv; cbn; rewrite ?Hpt, ?Hn, ?Ha, ?Hb, ?Hl, ?Hv;
    repeat split; set_solver.
Qed.

(** C3: on first contact [update_user_profile] hands the raw request to
    [get_or_create_user_profile], whose enum constructor raises on an
    unknown [personality_type]: the [ValueError] leaves the profile store,
    no field of the request is applied, and the handler answers 500. *)
Theorem update_user_profile_invalid_enum_first_contact :
  update_user_profile "new_user" invalid_personality_update empty_ai
  = (Raise (ValueError "'invalid_value' is not a valid PersonalityType"),
     empty_ai)
  /\ api_update_user_profile 0 "new_user" invalid_personality_update
       (Some empty_ai)
     = (Raise (HTTPException 500
          "Profile update failed: 'invalid_value' is not a valid PersonalityType"),
        Some empty_ai).
Proof. split; vm_compute; reflexivity. Qed.

End ProfileUpdate.

(** ** Interests *)

Section Interests.

Lemma list_in_spec (x : string) (xs : list string) :
  Py.list_in x xs = true <-> x ∈ xs.
Proof. unfold Py.list_in. apply bool_decide_eq_true. Qed.

Lemma NoDup_append_new (x : string) (xs : list string) :
  NoDup xs -> x ∉ xs -> NoDup (xs ++ [x]).
Proof.
  intros Hnd Hnew. apply NoDup_app. split; [exact Hnd |]. split.
  - intros y Hy Hyx. apply list_elem_of_singleton in Hyx. subst y. auto.
  - apply NoDup_singleton.
Qed.

(** Interest detection on a message keeps the list free of duplicates. *)
Lemma detect_interest_NoDup message_lower ints kw :
  NoDup ints -> NoDup (detect_interest message_lower ints kw).
Proof.
  intros Hnd. unfold detect_interest.
  destruct (Py.any_in kw.2 message_lower); [| exact Hnd].
  destruct (Py.list_in kw.1 ints) eqn:Hin; [exact Hnd |].
  apply NoDup_append_new; [exact Hnd |].
  intros Hmem. apply list_in_spec in Hmem. congruence.
Qed.

Lemma analyze_interests_NoDup now message p :
  NoDup (interests p) ->
  NoDup (interests (analyze_user_intent_and_personality now message p).1).
Proof.
  intros Hnd.
  assert (Hfold : forall kws ints, NoDup ints ->
            NoDup (fold_left (detect_interest (Py.lower message)) kws ints)).
  { induction kws as [| kw kws IH]; intros ints Hints; cbn; [exact Hints |].
    apply IH, detect_interest_NoDup, Hints. }
  unfold analyze_user_intent_and_personality. cbn [fst].
  repeat match goal with
         | |- context [if ?b then _ else _] => destruct b
         end; exact (Hfold interest_keywords _ Hnd).
Qed.

Lemma list_of_set_NoDup xs : NoDup (list_of_set xs).
Proof. unfold list_of_set. apply NoDup_elements. Qed.

Lemma list_of_set_elem x xs : x ∈ list_of_set xs <-> x ∈ xs.
Proof. unfold list_of_set. rewrite elem_of_elements. apply elem_of_list_to_set. Qed.

(** The merge of an update into a profile that exists removes
    duplicates, whatever the two lists hold. *)
Lemma apply_updates_interests_NoDup updates p value :
  upd_interests updates = Some value ->
  NoDup (interests (apply_updates updates p).1).
Proof.
  intros Hvalue. unfold apply_updates. rewrite Hvalue.
  repeat match goal with
         | |- context [match ?o with Some _ => _ | None => _ end] =>
             destruct o
         | |- context [match ?r with Ok _ => _ | Raise _ => _ end] =>
             destruct r
         end; exact (list_of_set_NoDup _).
Qed.

(** Reinforcement after a good rating keeps the list free of duplicates. *)
Lemma reinforce_interest_NoDup ints suggestion :
  NoDup ints -> NoDup (reinforce_interest ints suggestion).
Proof.
  intros Hnd. unfold reinforce_interest.
  repeat match goal with
         | |- context [Py.str_in ?k ?s && negb (Py.list_in ?k ints)] =>
             destruct (Py.str_in k s); cbn [andb];
             [destruct (Py.list_in k ints) eqn:?; cbn [negb] |]
         end;
    try exact Hnd;
    apply NoDup_append_new; try exact Hnd;
    intros Hmem; apply list_in_spec in Hmem; congruence.
Qed.

(** C7: on first contact [update_user_profile] stores the interest list
    of the request as it is, so a list that repeats an entry gives a
    profile whose [interests] repeat it. *)
Theorem update_user_profile_first_contact_keeps_duplicates :
  interests_of "u2"
    (update_user_profile "u2" repeated_interest_update empty_ai).2
  = Some ["food"; "food"]
  /\ ~ NoDup ["food"; "food"].
Proof.
  split; [vm_compute; reflexivity |].
  intros Hnd. apply NoDup_cons in Hnd as [Hnew _].
  apply Hnew. left.
Qed.

End Interests.

(** ** Personalization score *)

Section PersonalizationScore.

Lemma len_times_nonneg {A} (xs : list A) (w : Q) :
  (0 <= w)%Q -> (0 <= len_times xs w)%Q.
Proof.
  intros Hw. unfold len_times. apply Qmult_le_0_compat; [| exact Hw].
  change 0%Q with (inject_Z 0). rewrite <- Zle_Qle. lia.
Qed.

Lemma capped_count_spec {A} (xs : list A) (w cap : Q) :
  (Qmin (len_times xs w) cap == spec_capped_count (length xs) w cap)%Q.
Proof.
  unfold spec_capped_count. fold (len_times xs w).
  destruct (Qle_bool (len_times xs w) cap) eqn:Hle.
  - apply Qle_bool_iff in Hle. apply Q.min_l, Hle.
  - apply Q.min_r. destruct (Qlt_le_dec cap (len_times xs w)) as [Hlt | Hge].
    + apply Qlt_le_weak, Hlt.
    + apply Qle_bool_iff in Hge. congruence.
Qed.

Lemma capped_count_bounds {A} (xs : list A) (w cap : Q) :
  (0 <= w)%Q -> (0 <= cap)%Q ->
  (0 <= Qmin (len_times xs w) cap)%Q /\ (Qmin (len_times xs w) cap <= cap)%Q.
Proof.
  intros Hw Hcap. pose proof (len_times_nonneg xs w Hw) as Hlen.
  destruct (Q.min_spec (len_times xs w) cap) as [[Hlt Heq] | [Hle Heq]];
    rewrite Heq; split; lra.
Qed.

Lemma days_since_recent now last :
  (days_since now last <? 7)%Z = recent now (Some last).
Proof.
  unfold days_since, recent.
  pose proof (Z.div_mod (now - last) 86400000000 ltac:(lia)) as Hdm.
  pose proof (Z.mod_pos_bound (now - last) 86400000000 ltac:(lia)) as Hmod.
  destruct (Z.ltb_spec ((now - last) / 86400000000) 7);
    [symmetry; apply bool_decide_eq_true | symmetry; apply bool_decide_eq_false];
    lia.
Qed.

(** Without rounding, the accumulation is the decimal weighted sum capped
    at 1 and lies between 0 and 1.  This is a fact of the exact-arithmetic
    idealisation; the doubles of the program are the subject of
    [calculate_personalization_score_binary64]. *)
Lemma exact_score_is_decimal_formula (now : Z) (p : UserProfile) :
  (calculate_personalization_score now p == spec_score now p)%Q
  /\ (0 <= calculate_personalization_score now p)%Q
  /\ (calculate_personalization_score now p <= 1)%Q.
Proof.
  unfold calculate_personalization_score, spec_score, spec_weighted_sum,
    spec_term.
  pose proof (capped_count_spec (interests p) 0.05 0.2) as Hi.
  pose proof (capped_count_spec (travel_history p) 0.03 0.15) as Ht.
  pose proof (capped_count_spec (conversation_history p) 0.01 0.2) as Hc.
  pose proof (capped_count_bounds (interests p) 0.05 0.2
                ltac:(lra) ltac:(lra)) as [Hi0 Hi1].
  pose proof (capped_count_bounds (travel_history p) 0.03 0.15
                ltac:(lra) ltac:(lra)) as [Ht0 Ht1].
  pose proof (capped_count_bounds (conversation_history p) 0.01 0.2
                ltac:(lra) ltac:(lra)) as [Hc0 Hc1].
  set (mi := Qmin (len_times (interests p) 0.05) 0.2) in *.
  set (mt := Qmin (len_times (travel_history p) 0.03) 0.15) in *.
  set (mc := Qmin (len_times (conversation_history p) 0.01) 0.2) in *.
  set (ci := spec_capped_count (length (interests p)) 0.05 0.2) in *.
  set (ct := spec_capped_count (length (travel_history p)) 0.03 0.15) in *.
  set (cc := spec_capped_count (length (conversation_history p)) 0.01 0.2) in *.
  clearbody mi mt mc ci ct cc.
  assert (Hrecent :
            match last_interaction p with
            | Some last => (days_since now last <? 7)%Z
            | None => false
            end = recent now (last_interaction p)).
  { destruct (last_interaction p); [apply days_since_recent | reflexivity]. }
  set (r := recent now (last_interaction p)) in *. clearbody r.
  match goal with
  | |- (Qmin ?s _ == _)%Q /\ _ =>
      assert (Hsum : (s == (if Py.truthy (name p) then 0.1 else 0)
                           + (if Py.truthy (age_group p) then 0.1 else 0)
                           + (if Py.truthy (budget_range p) then 0.15 else 0)
                           + ci + ct + cc + (if r then 0.1 else 0))%Q
                     /\ (0 <= s)%Q);
      [| set (code_sum := s) in *; clearbody code_sum ]
  end.
  { destruct (last_interaction p) as [last |]; rewrite <- Hrecent;
      destruct (Py.truthy (name p)), (Py.truthy (age_group p)),
        (Py.truthy (budget_range p));
      try destruct (days_since now last <? 7)%Z; split; lra. }
  destruct Hsum as [Hsum Hpos].
  set (spec_sum := ((if Py.truthy (name p) then 0.1 else 0)
                    + (if Py.truthy (age_group p) then 0.1 else 0)
                    + (if Py.truthy (budget_range p) then 0.15 else 0)
                    + ci + ct + cc + (if r then 0.1 else 0))%Q) in *.
  clearbody spec_sum.
  destruct (Q.min_spec code_sum 1.0) as [[Hlt Heq] | [Hle Heq]];
    rewrite Heq;
    destruct (Qle_bool spec_sum 1) eqn:Hcap;
    try (apply Qle_bool_iff in Hcap);
    try (assert (~ (spec_sum <= 1)%Q)
           by (intros Hcontra; apply Qle_bool_iff in Hcontra; congruence));
    repeat split; lra.
Qed.

(** *** Binary64 *)

Section Binary64Score.
Import PrimFloat SpecFloat FloatOps FloatAxioms.
#[local] Set Warnings "-inexact-float".

(** Rounding a non-negative mantissa gives a non-negative float. *)
Lemma shr_1_nonneg mrs : (0 <= shr_m mrs)%Z -> (0 <= shr_m (shr_1 mrs))%Z.
Proof.
  destruct mrs as [m r s]. cbn [shr_m]. intros Hm.
  destruct m as [| [p | p |] | p]; cbn; lia.
Qed.

Lemma iter_pos_shr_1_nonneg p mrs :
  (0 <= shr_m mrs)%Z -> (0 <= shr_m (iter_pos shr_1 p mrs))%Z.
Proof.
  revert mrs. induction p as [p IH | p IH |]; intros mrs Hm; cbn [iter_pos].
  - apply IH, IH, shr_1_nonneg, Hm.
  - apply IH, IH, Hm.
  - apply shr_1_nonneg, Hm.
Qed.

Lemma shr_fexp_nonneg m e l :
  (0 <= m)%Z -> (0 <= shr_m (fst (shr_fexp prec emax m e l)))%Z.
Proof.
  intros Hm. unfold shr_fexp, shr.
  assert (Hrec : (0 <= shr_m (shr_record_of_loc m l))%Z)
    by (destruct l as [| []]; exact Hm).
  destruct (fexp prec emax (Zdigits2 m + e) - e)%Z; cbn [fst];
    [exact Hrec | apply iter_pos_shr_1_nonneg, Hrec | exact Hrec].
Qed.

Lemma round_nearest_even_nonneg m l :
  (0 <= m)%Z -> (0 <= round_nearest_even m l)%Z.
Proof.
  intros Hm. destruct l as [| []]; cbn; [lia | | lia | lia].
  destruct (Z.even m); lia.
Qed.

Lemma binary_round_aux_nonneg m e l :
  (0 <= m)%Z -> Binary64.nonneg (binary_round_aux prec emax false m e l).
Proof.
  intros Hm. unfold binary_round_aux.
  pose proof (shr_fexp_nonneg m e l Hm) as H1.
  destruct (shr_fexp prec emax m e l) as [mrs' e']. cbn [fst] in H1.
  pose proof (shr_fexp_nonneg _ e' loc_Exact
                (round_nearest_even_nonneg _ (loc_of_shr_record mrs') H1)) as H2.
  destruct (shr_fexp prec emax _ e' loc_Exact) as [mrs'' e'']. cbn [fst] in H2.
  destruct (shr_m mrs'') as [| q | q]; [exact I | | lia].
  destruct (e'' <=? emax - prec)%Z; exact I.
Qed.

Lemma binary_normalize_nonneg m e :
  (0 <= m)%Z -> Binary64.nonneg (binary_normalize prec emax m e false).
Proof.
  intros Hm. destruct m as [| q | q]; [exact I | | lia].
  cbn [binary_normalize]. unfold binary_round.
  destruct (shl_align q e _) as [mz ez]. apply binary_round_aux_nonneg. lia.
Qed.

Lemma SFadd_nonneg x y :
  Binary64.nonneg x -> Binary64.nonneg y ->
  Binary64.nonneg (SFadd prec emax x y).
Proof.
  destruct x as [[] | [] | | [] mx ex], y as [[] | [] | | [] my ey];
    cbn [Binary64.nonneg]; try tauto; intros _ _; try exact I.
  cbn [SFadd cond_Zopp]. apply binary_normalize_nonneg. lia.
Qed.

Lemma SFmul_nonneg x my ey :
  Binary64.nonneg x ->
  Binary64.nonneg (SFmul prec emax x (S754_finite false my ey)).
Proof.
  destruct x as [[] | [] | | [] mx ex]; cbn [Binary64.nonneg]; try tauto;
    intros _; try exact I.
  cbn [SFmul xorb]. apply binary_round_aux_nonneg. lia.
Qed.

Lemma SFadd_zero_r x :
  Binary64.nonneg x -> SFadd prec emax x (S754_zero false) = x.
Proof.
  destruct x as [[] | [] | | [] mx ex]; cbn [Binary64.nonneg]; try tauto;
    reflexivity.
Qed.

Lemma SFadd_zero_l x :
  Binary64.nonneg x -> SFadd prec emax (S754_zero false) x = x.
Proof.
  destruct x as [[] | [] | | [] mx ex]; cbn [Binary64.nonneg]; try tauto;
    reflexivity.
Qed.

Lemma SFleb_zero_nonneg x :
  Binary64.nonneg x -> SFleb (S754_zero false) x = true.
Proof.
  destruct x as [[] | [] | | [] mx ex]; cbn [Binary64.nonneg]; try tauto;
    reflexivity.
Qed.

Lemma SFleb_negb_ltb x mc ec :
  Binary64.nonneg x ->
  SFleb x (S754_finite false mc ec)
  = negb (SFltb (S754_finite false mc ec) x).
Proof.
  destruct x as [[] | [] | | [] mx ex]; cbn [Binary64.nonneg]; try tauto;
    intros _; unfold SFltb, SFleb; cbn [SFcompare]; try reflexivity.
  rewrite (Z.compare_antisym ex ec).
  destruct (ex ?= ec)%Z; cbn [CompOpp]; try reflexivity.
  pose proof (Pos.compare_cont_antisym mx mc Eq) as Hanti.
  cbn [CompOpp] in Hanti. rewrite <- Hanti.
  destruct (Pos.compare_cont Eq mx mc); reflexivity.
Qed.

(** Facts on primitive floats, through their specification *)

Lemma add_nonnegative x y :
  Binary64.nonnegative x -> Binary64.nonnegative y ->
  Binary64.nonnegative (x + y)%float.
Proof.
  unfold Binary64.nonnegative. rewrite add_spec. apply SFadd_nonneg.
Qed.

Lemma add_zero_r x : Binary64.nonnegative x -> (x + 0)%float = x.
Proof.
  intros Hx. apply Prim2SF_inj. rewrite add_spec.
  change (Prim2SF 0) with (S754_zero false). apply SFadd_zero_r, Hx.
Qed.

Lemma add_zero_l x : Binary64.nonnegative x -> (0 + x)%float = x.
Proof.
  intros Hx. apply Prim2SF_inj. rewrite add_spec.
  change (Prim2SF 0) with (S754_zero false). apply SFadd_zero_l, Hx.
Qed.

Lemma float_of_len_nonnegative {A} (xs : list A) :
  Binary64.nonnegative (Binary64.float_of_len xs).
Proof.
  unfold Binary64.nonnegative, Binary64.float_of_len.
  rewrite of_uint63_spec. apply binary_normalize_nonneg.
  apply Uint63.to_Z_bounded.
Qed.

Lemma len_times_nonnegative {A} (xs : list A) (w : float) mw ew :
  Prim2SF w = S754_finite false mw ew ->
  Binary64.nonnegative (Binary64.len_times xs w).
Proof.
  intros Hw. unfold Binary64.nonnegative, Binary64.len_times.
  rewrite mul_spec, Hw. apply SFmul_nonneg, float_of_len_nonnegative.
Qed.

Lemma py_min_nonnegative x cap :
  Binary64.nonnegative x -> Binary64.nonnegative cap ->
  Binary64.nonnegative (Binary64.py_min x cap).
Proof.
  intros Hx Hcap. unfold Binary64.py_min.
  destruct (cap <? x)%float; assumption.
Qed.

Lemma leb_negb_ltb x cap mc ec :
  Prim2SF cap = S754_finite false mc ec ->
  Binary64.nonnegative x ->
  (x <=? cap)%float = negb (cap <? x)%float.
Proof.
  intros Hcap Hx. rewrite leb_spec, ltb_spec, Hcap.
  apply SFleb_negb_ltb, Hx.
Qed.

Lemma py_min_capped x cap mc ec :
  Prim2SF cap = S754_finite false mc ec ->
  Binary64.nonnegative x ->
  Binary64.py_min x cap = (if (x <=? cap)%float then x else cap)
  /\ (Binary64.py_min x cap <=? cap)%float = true.
Proof.
  intros Hcap Hx. pose proof (leb_negb_ltb x cap mc ec Hcap Hx) as Hle.
  assert (Hrefl : (cap <=? cap)%float = true).
  { rewrite leb_spec, Hcap. unfold SFleb. cbn [SFcompare].
    rewrite Z.compare_refl, Pos.compare_cont_refl. reflexivity. }
  unfold Binary64.py_min. rewrite Hle.
  destruct (cap <? x)%float; cbn [negb]; split;
    [reflexivity | exact Hrefl | reflexivity |].
  rewrite Hle. reflexivity.
Qed.

Lemma spec_term_nonnegative b w :
  Binary64.nonnegative w -> Binary64.nonnegative (Binary64.spec_term b w).
Proof.
  intros Hw. destruct b; [exact Hw | exact I].
Qed.

Lemma add_spec_term (s : float) (b : bool) (w : float) :
  Binary64.nonnegative s ->
  (if b then (s + w)%float else s) = (s + Binary64.spec_term b w)%float.
Proof.
  intros Hs. destruct b; cbn [Binary64.spec_term];
    [reflexivity | symmetry; apply add_zero_r, Hs].
Qed.

Lemma recent_term now (last : option Z) s :
  Binary64.nonnegative s ->
  match last with
  | Some t => if (days_since now t <? 7)%Z then (s + 0.1)%float else s
  | None => s
  end = (s + Binary64.spec_term (recent now last) 0.1)%float.
Proof.
  intros Hs. destruct last as [t |].
  - rewrite days_since_recent. apply add_spec_term, Hs.
  - symmetry. apply add_zero_r, Hs.
Qed.

(** C6 (amended): the personalization score is exactly the weighted sum
    capped at 1.0 when every product, sum and comparison is the binary64
    one and the terms are added from left to right: 0.1 for a name, 0.1
    for an age group, 0.15 for a budget range, 0.05 per interest up to
    0.2, 0.03 per trip up to 0.15, 0.01 per conversation entry up to 0.2,
    and 0.1 when the last interaction is less than 7 days old.  The score
    lies between 0 and 1. *)
Theorem calculate_personalization_score_binary64
    (now : Z) (p : UserProfile) :
  Binary64.calculate_personalization_score now p = Binary64.spec_score now p
  /\ (0 <=? Binary64.calculate_personalization_score now p)%float = true
  /\ (Binary64.calculate_personalization_score now p <=? 1)%float = true.
Proof.
  unfold Binary64.calculate_personalization_score, Binary64.spec_score,
    Binary64.spec_weighted_sum.
  assert (H01 : Binary64.nonnegative 0.1) by exact I.
  assert (H015 : Binary64.nonnegative 0.15) by exact I.
  assert (H02 : Binary64.nonnegative 0.2) by exact I.
  assert (H1 : Binary64.nonnegative 1) by exact I.
  pose proof (len_times_nonnegative (interests p) 0.05 _ _ eq_refl) as Hli.
  pose proof (len_times_nonnegative (travel_history p) 0.03 _ _ eq_refl)
    as Hlt.
  pose proof (len_times_nonnegative (conversation_history p) 0.01 _ _ eq_refl)
    as Hlc.
  pose proof (py_min_capped _ 0.2 _ _ eq_refl Hli) as [Hi _].
  pose proof (py_min_capped _ 0.15 _ _ eq_refl Hlt) as [Ht _].
  pose proof (py_min_capped _ 0.2 _ _ eq_refl Hlc) as [Hc _].
  pose proof (py_min_nonnegative _ _ Hli H02) as Hni.
  pose proof (py_min_nonnegative _ _ Hlt H015) as Hnt.
  pose proof (py_min_nonnegative _ _ Hlc H02) as Hnc.
  change (Binary64.spec_capped_count (length (interests p)) 0.05 0.2)
    with (if (Binary64.len_times (interests p) 0.05 <=? 0.2)%float
          then Binary64.len_times (interests p) 0.05 else 0.2%float).
  change (Binary64.spec_capped_count (length (travel_history p)) 0.03 0.15)
    with (if (Binary64.len_times (travel_history p) 0.03 <=? 0.15)%float
          then Binary64.len_times (travel_history p) 0.03 else 0.15%float).
  change (Binary64.spec_capped_count (length (conversation_history p))
            0.01 0.2)
    with (if (Binary64.len_times (conversation_history p) 0.01 <=? 0.2)%float
          then Binary64.len_times (conversation_history p) 0.01
          else 0.2%float).
  rewrite <- Hi, <- Ht, <- Hc. clear Hi Ht Hc.
  set (ci := Binary64.py_min (Binary64.len_times (interests p) 0.05) 0.2)
    in *.
  set (ct := Binary64.py_min (Binary64.len_times (travel_history p) 0.03)
               0.15) in *.
  set (cc := Binary64.py_min
               (Binary64.len_times (conversation_history p) 0.01) 0.2) in *.
  clearbody ci ct cc. clear Hli Hlt Hlc.
  set (b1 := Py.truthy (name p)). set (b2 := Py.truthy (age_group p)).
  set (b3 := Py.truthy (budget_range p)).
  clearbody b1 b2 b3.
  cbv zeta.
  assert (Hs1 : (if b1 then (0 + 0.1)%float else 0%float)
                = Binary64.spec_term b1 0.1).
  { destruct b1; [apply add_zero_l, H01 | reflexivity]. }
  rewrite Hs1.
  pose proof (spec_term_nonnegative b1 0.1 H01) as Hn1.
  set (s1 := Binary64.spec_term b1 0.1) in *. clearbody s1.
  rewrite (add_spec_term s1 b2 0.1 Hn1).
  pose proof (add_nonnegative _ _ Hn1 (spec_term_nonnegative b2 0.1 H01))
    as Hn2.
  set (s2 := (s1 + Binary64.spec_term b2 0.1)%float) in *. clearbody s2.
  rewrite (add_spec_term s2 b3 0.15 Hn2).
  pose proof (add_nonnegative _ _ Hn2 (spec_term_nonnegative b3 0.15 H015))
    as Hn3.
  set (s3 := (s2 + Binary64.spec_term b3 0.15)%float) in *. clearbody s3.
  pose proof (add_nonnegative _ _ Hn3 Hni) as Hn4.
  set (s4 := (s3 + ci)%float) in *. clearbody s4.
  pose proof (add_nonnegative _ _ Hn4 Hnt) as Hn5.
  set (s5 := (s4 + ct)%float) in *. clearbody s5.
  pose proof (add_nonnegative _ _ Hn5 Hnc) as Hn6.
  set (s6 := (s5 + cc)%float) in *. clearbody s6.
  rewrite (recent_term now (last_interaction p) s6 Hn6).
  pose proof (add_nonnegative _ _ Hn6
                (spec_term_nonnegative (recent now (last_interaction p)) 0.1
                   H01)) as Hn7.
  set (s7 := (s6 + Binary64.spec_term (recent now (last_interaction p))
                     0.1)%float) in *.
  clearbody s7.
  pose proof (py_min_capped s7 1 _ _ eq_refl Hn7) as [Hcap Hle].
  pose proof (py_min_nonnegative s7 1 Hn7 H1) as Hn.
  split; [exact Hcap |]. split; [| exact Hle].
  rewrite leb_spec. change (Prim2SF 0) with (S754_zero false).
  apply SFleb_zero_nonneg, Hn.
Qed.

(** C6, counterexample: a profile with three interests and nothing else
    scores 0.15000000000000002, which is not the double 0.15, while the
    decimal weighted sum 3 * 0.05 is 0.15. *)
Lemma three_interests_score_is_rounded :
  Binary64.calculate_personalization_score 0 three_interests
  = 0.15000000000000002%float
  /\ Binary64.calculate_personalization_score 0 three_interests
     <> 0.15%float
  /\ (spec_score 0 three_interests == 0.15)%Q.
Proof.
  split; [vm_compute; reflexivity |]. split; [| vm_compute; reflexivity].
  intros H.
  apply (f_equal (fun f => (f =? 0.15)%float)) in H.
  vm_compute in H. discriminate H.
Qed.

End Binary64Score.

End PersonalizationScore.

(** ** Fallback synthesis *)

Section Fallback.

Lemma append_nonempty_r (s t : string) : t <> "" -> s +:+ t <> "".
Proof. intros Ht. destruct s; cbn; [exact Ht | discriminate]. Qed.

(** Every destination the scan can detect has a record. *)
Lemma get_destination_intelligence_ok message :
  exists d, get_destination_intelligence message = Ok d.
Proof.
  unfold get_destination_intelligence.
  destruct (find _ _) as [dest |] eqn:Hfind; [| eexists; reflexivity].
  apply find_some in Hfind as [Hin _].
  cbn in Hin. destruct Hin as [<- | [<- | [<- | []]]];
    eexists; vm_compute; reflexivity.
Qed.

(** The guarded subscripts of the insider-tips block are in range. *)
Lemma add_destination_intelligence_ok p dest intel response0 :
  exists r, add_destination_intelligence p dest intel response0 = Ok r.
Proof.
  unfold add_destination_intelligence.
  destruct intel as [i |]; cbn.
  - destruct (local_tips i) as [| tip0 [| tip1 tips]]; cbn;
      destruct (negb (String.eqb (best_time i) "")); eexists; reflexivity.
  - eexists; reflexivity.
Qed.

Lemma _generate_fallback_response_ok message p :
  exists body,
    _generate_fallback_response message p
    = Ok (body +:+ "   â€¢ Transportation and logistics" +:+ Py.nl).
Proof.
  unfold _generate_fallback_response.
  destruct (get_destination_intelligence_ok message) as [d ->].
  cbn [mbind result_bind].
  destruct (has_specific_data d).
  - destruct (add_destination_intelligence_ok p
                (Py.title (destination d)) (intelligence d)
                (persona_opener
                   (_select_travel_agent_persona p (Py.lower message))
                   (if Py.truthy (name p) then default "" (name p)
                    else "valued traveler")
                   (Py.title (destination d)))) as [r ->].
    cbn [mbind result_bind]. eexists. reflexivity.
  - cbn [mbind result_bind mret result_ret]. eexists. reflexivity.
Qed.

Lemma take_length_le {A} (n : nat) (xs : list A) : length (take n xs) <= n.
Proof. rewrite length_take. lia. Qed.

(** C5: for every message and profile, recognized destination or not,
    fallback synthesis returns a text, which is not empty, at most 7
    suggestions and at most 5 booking options; it raises nothing. *)
Theorem fallback_synthesis_total (message : string) (p : UserProfile) :
  (exists text,
      _generate_fallback_response message p = Ok text /\ text <> "")
  /\ length (generate_personalized_suggestions p message) <= 7
  /\ length (generate_personalized_bookings p message) <= 5.
Proof.
  split; [| split].
  - destruct (_generate_fallback_response_ok message p) as [body ->].
    eexists. split; [reflexivity |].
    apply append_nonempty_r. discriminate.
  - unfold generate_personalized_suggestions. apply take_length_le.
  - unfold generate_personalized_bookings. apply take_length_le.
Qed.

End Fallback.

(** ** Failure of the generative endpoint *)

Section UpstreamFailure.

Lemma get_or_create_default uid ai :
  exists p ai',
    get_or_create_user_profile uid None ai = (Ok p, ai')
    /\ user_profiles ai' !! uid = Some p.
Proof.
  unfold get_or_create_user_profile, profile_of, mbind, M_bind.
  destruct (user_profiles ai !! uid) as [p |] eqn:Hlookup.
  - eexists _, _. split; [reflexivity | exact Hlookup].
  - eexists _, _. split; [reflexivity |]. cbn. apply lookup_insert_eq.
Qed.

(** C4, as the code has it: when the text of the error raised by the
    generative call contains "429" or, in any letter case, "quota", the
    response is synthesized locally and returned as a normal response;
    every other error is raised to the caller as HTTP 500. *)
Theorem generate_response_on_upstream_failure
    (now : Z) (e : exn) (message uid session : string) (ai : AI) :
  (Py.str_in "429" (str_of_exn e)
     || Py.str_in "quota" (Py.lower (str_of_exn e)) = true ->
   exists (r : Response) (ai' : AI) (p : UserProfile),
     generate_personalized_response now (Raise e) message uid session ai
     = (Ok r, ai')
     /\ user_profiles ai' !! uid = Some p
     /\ _generate_fallback_response message p = Ok (response r)
     /\ response r <> ""
     /\ agent_used r = "Personalized Fallback Agent"
     /\ length (suggestions r) <= 7
     /\ length (booking_options r) <= 5)
  /\ (Py.str_in "429" (str_of_exn e)
        || Py.str_in "quota" (Py.lower (str_of_exn e)) = false ->
      exists ai' : AI,
        generate_personalized_response now (Raise e) message uid session ai
        = (Raise (HTTPException 500
                    ("AI response generation failed: " +:+ str_of_exn e)),
           ai')).
Proof.
  destruct (get_or_create_default uid ai) as (p0 & ai0 & Hgoc & Hp0).
  destruct (get_destination_intelligence_ok message) as [d Hd].
  destruct (analyze_user_intent_and_personality now message p0)
    as [p1 analysis] eqn:Han.
  split; intros Hq;
    unfold generate_personalized_response, try_except, store_profile, lift,
      logger, bound_profile, profile_of, raise;
    unfold mbind, M_bind, mret, M_ret;
    rewrite Hgoc, Han, Hd, Hq; cbv beta iota.
  - cbn [user_profiles]. rewrite lookup_insert_eq.
    destruct (_generate_fallback_response_ok message p1) as [body Hfb].
    rewrite Hfb.
    eexists _, _, p1. split; [reflexivity |]. cbn.
    split; [apply lookup_insert_eq |].
    split; [exact Hfb |].
    split; [apply append_nonempty_r; discriminate |].
    split; [reflexivity |].
    split; apply take_length_le.
  - eexists. reflexivity.
Qed.
Lemma generate_response_on_upstream_failure_witness :
  exists (r : Response) (ai' : AI) (p : UserProfile),
    generate_personalized_response 7
      (Raise (UpstreamError "429 Resource has been exhausted"))
      "Goa for 3 days" "u1" "session-1" empty_ai
    = (Ok r, ai')
    /\ user_profiles ai' !! "u1" = Some p
    /\ _generate_fallback_response "Goa for 3 days" p = Ok (response r)
    /\ response r <> ""
    /\ agent_used r = "Personalized Fallback Agent"
    /\ length (suggestions r) <= 7
    /\ length (booking_options r) <= 5.
Proof.
  apply (proj1 (generate_response_on_upstream_failure 7
                  (UpstreamError "429 Resource has been exhausted")
                  "Goa for 3 days" "u1" "session-1" empty_ai)).
  reflexivity.
Defined.

(** An upstream error that names neither "429" nor "quota" reaches the
    caller as an HTTP 500 error. *)
Lemma upstream_failure_surfaces_as_http_500 :
  (generate_personalized_response 7
     (Raise (UpstreamError "503 Service Unavailable"))
     "hello" "u1" "session-1" empty_ai).1
  = Raise (HTTPException 500
             "AI response generation failed: 503 Service Unavailable").
Proof. vm_compute. reflexivity. Qed.

End UpstreamFailure.

(** ** Rating feedback *)

Section RatingFeedback.














Example rating_5_adventure_activities :
  interests_of "u1"
    (process_user_feedback 9 "u1" "rating"
       (rating_feedback 5 ["adventure activities"]) None one_user).2
  = Some ["adventure"].
Proof. vm_compute. reflexivity. Qed.


End RatingFeedback.

(** ** Dispatch to the keyword agents *)

Section Dispatch.
Import Orchestrator.

Lemma detect_intent_label message :
  detect_intent message ∈
    ["multi_agent"; "place"; "planning"; "booking"; "poi"; "trip_monitor";
     "day_of"; "inspiration"].
Proof.
  unfold detect_intent.
  repeat match goal with
         | |- context [if ?b then _ else _] => destruct b
         end; set_solver.
Qed.

(** X1: a message is classified [place] exactly when it names a place and
    holds neither a date word nor a duration word. *)
Theorem detect_intent_place_iff (message : string) :
  detect_intent message = "place"
  <-> Py.any_in locations (Py.lower message) = true
      /\ Py.any_in date_words (Py.lower message) = false
      /\ Py.any_in durations (Py.lower message) = false.
Proof.
  unfold detect_intent.
  destruct (Py.any_in locations (Py.lower message)),
    (Py.any_in date_words (Py.lower message)),
    (Py.any_in durations (Py.lower message)); cbn [andb orb];
    repeat match goal with
           | |- context [if ?b then _ else _] => destruct b
           end;
    split; intros H; try discriminate; try (destruct H as (? & ? & ?));
    try discriminate; auto.
Qed.

Lemma lower_ascii_idempotent c :
  Py.lower_ascii (Py.lower_ascii c) = Py.lower_ascii c.
Proof. destruct c as [[] [] [] [] [] [] [] []]; reflexivity. Qed.

Lemma lower_idempotent s : Py.lower (Py.lower s) = Py.lower s.
Proof.
  induction s as [| c s IH]; cbn; [reflexivity |].
  now rewrite lower_ascii_idempotent, IH.
Qed.

(** X2: the classifier ignores letter case: a message and its lower-cased
    form get the same label. *)
Theorem detect_intent_ignores_case (message : string) :
  detect_intent (Py.lower message) = detect_intent message.
Proof. unfold detect_intent. rewrite lower_idempotent. reflexivity. Qed.

Lemma inspiration_agent_shape m : answer_shape false (Agents.inspiration_agent m).
Proof.
  unfold Agents.inspiration_agent, answer_shape.
  repeat match goal with
         | |- context [if ?b then _ else _] => destruct b
         end; cbn [ar_suggestions ar_confidence ar_booking_options length];
    repeat split; try lia; try lra.
Qed.

Lemma place_agent_shape m : answer_shape false (Agents.place_agent m).
Proof.
  unfold Agents.place_agent, answer_shape.
  repeat match goal with
         | |- context [if ?b then _ else _] => destruct b
         end; cbn [ar_suggestions ar_confidence ar_booking_options length];
    repeat split; try lia; try lra.
Qed.

Lemma planning_agent_shape m : answer_shape false (Agents.planning_agent m).
Proof.
  unfold Agents.planning_agent, answer_shape.
  repeat match goal with
         | |- context [if ?b then _ else _] => destruct b
         end; cbn [ar_suggestions ar_confidence ar_booking_options length];
    repeat split; try lia; try lra.
Qed.

Lemma fixed_agents_shape m :
  answer_shape false (Agents.poi_agent m)
  /\ answer_shape true (Agents.booking_agent m)
  /\ answer_shape false (Agents.trip_monitor_agent m)
  /\ answer_shape false (Agents.day_of_agent m)
  /\ answer_shape true (Agents.multi_agent_handler m).
Proof.
  unfold answer_shape, Agents.poi_agent, Agents.booking_agent,
    Agents.trip_monitor_agent, Agents.day_of_agent,
    Agents.multi_agent_handler.
  cbv zeta. cbn [ar_suggestions ar_confidence ar_booking_options length].
  repeat split; try lia; try lra; eexists; reflexivity.
Qed.

(** X3: every label the classifier returns has an agent, so
    [process_message] raises nothing; the agent name is filled in, the
    answer carries between 4 and 7 suggestions and a confidence between
    0.80 and 0.98, and booking options are present exactly for the
    [booking] and [multi_agent] labels. *)
Theorem process_message_dispatch (message : string) :
  exists r,
    Agents.process_message message = Ok r
    /\ ar_agent r
       = Some (if String.eqb (detect_intent message) "multi_agent"
               then "Multi-Agent System"
               else Py.title (detect_intent message))
    /\ 4 <= length (ar_suggestions r) <= 7
    /\ (0.80 <= ar_confidence r)%Q /\ (ar_confidence r <= 0.98)%Q
    /\ (is_Some (ar_booking_options r)
        <-> detect_intent message = "booking"
            \/ detect_intent message = "multi_agent").
Proof.
  unfold Agents.process_message.
  pose proof (detect_intent_label message) as Hlabel.
  pose proof (inspiration_agent_shape message) as Hi.
  pose proof (place_agent_shape message) as Hp.
  pose proof (planning_agent_shape message) as Hpl.
  destruct (fixed_agents_shape message) as (Hpoi & Hb & Ht & Hd & Hm).
  rewrite !elem_of_cons, elem_of_nil in Hlabel.
  set (intent := detect_intent message) in *. clearbody intent.
  assert (Hsome : forall (b : bool) r,
             answer_shape b r ->
             (is_Some (ar_booking_options r) <-> b = true)).
  { intros b r (_ & _ & _ & Hbk). destruct b.
    - split; [reflexivity | intros _; exact Hbk].
    - split; [intros [x Hx]; congruence | discriminate]. }
  destruct Hlabel as [H | [H | [H | [H | [H | [H | [H | [H | []]]]]]]]];
    subst intent;
    match goal with
    | |- context [subscript Agents.agents ?k] =>
        match goal with
        | Hs : answer_shape ?b (?f message) |- _ =>
            assert (Hsub : subscript Agents.agents k = Ok f)
              by reflexivity;
            rewrite Hsub; cbn [mbind result_bind mret result_ret];
            eexists; split; [reflexivity |];
            cbn [ar_agent ar_suggestions ar_confidence ar_booking_options];
            pose proof (Hsome b _ Hs) as Hiff;
            destruct Hs as (Hlen & Hlo & Hhi & _);
            split; [reflexivity |]; split; [exact Hlen |];
            split; [exact Hlo |]; split; [exact Hhi |];
            rewrite Hiff; split;
            [ intros Hb'; try discriminate Hb'; auto
            | intros [Hx | Hx]; try discriminate Hx; reflexivity ]
        end
    end.
Qed.

(** X4: whatever the message, the multi-agent answer offers the same five
    kinds of booking in the same order, and the availability text of its
    first hotel keeps the placeholder [{date}] unformatted. *)
Theorem multi_agent_handler_offers (message : string) :
  exists flight hotel1 hotel2 activity transport,
    ar_booking_options (Agents.multi_agent_handler message)
    = Some [flight; hotel1; hotel2; activity; transport]
    /\ map ab_type [flight; hotel1; hotel2; activity; transport]
       = ["flight"; "hotel"; "hotel"; "activity"; "transport"]
    /\ ab_availability hotel1 = "Few rooms left for {date}"
    /\ length (ar_suggestions (Agents.multi_agent_handler message)) = 7.
Proof.
  unfold Agents.multi_agent_handler. cbv zeta.
  cbn [ar_booking_options ar_suggestions].
  do 5 eexists. split; [reflexivity |]. repeat split.
Qed.

End Dispatch.

(** ** Sessions *)

Section Sessions.

(** X5: [/api/chat] always answers: it raises nothing, creates the
    session on first use, appends exactly one entry to its messages and
    leaves every other session as it was. *)
Theorem api_chat_appends_one_message
    (now : Z) (request : ChatRequest) (sessions : gmap string Session) :
  exists (answer : ChatResponse) (sessions' : gmap string Session)
         (session' : Session) (entry : SessionMessage),
    api_chat now request sessions = (Ok answer, sessions')
    /\ sessions' !! req_session_id request = Some session'
    /\ sess_messages session'
       = default [] (sess_messages <$> sessions !! req_session_id request)
         ++ [entry]
    /\ sm_user entry = req_message request
    /\ sm_assistant entry = cr_response answer
    /\ sm_agent entry = cr_agent_used answer
    /\ (forall other, other <> req_session_id request ->
                      sessions' !! other = sessions !! other).
Proof.
  destruct (process_message_dispatch (req_message request))
    as (r & Hrun & Hagent & _).
  unfold api_chat, get_session.
  destruct (sessions !! req_session_id request) as [session |] eqn:Hlookup;
    rewrite Hrun; cbn [mbind result_bind]; rewrite Hagent;
    cbn [required mbind result_bind mret result_ret];
    eexists _, _, _, _; (split; [reflexivity |]);
    (split; [apply lookup_insert_eq |]);
    cbn [sess_messages sm_user sm_assistant sm_agent cr_response
         cr_agent_used fmap option_fmap option_map default];
    repeat split; intros other Hother;
    rewrite ?lookup_insert_ne by congruence; reflexivity.
Qed.

(** X6: reading the information of a session that does not exist creates
    it, empty and dated now; reading an existing one changes nothing. *)
Theorem get_session_info_creates_session
    (now : Z) (session_id : string) (sessions : gmap string Session) :
  (sessions !! session_id = None ->
   exists sessions',
     get_session_info now session_id sessions
     = ({| si_session_id := session_id; si_created_at := now;
           si_message_count := 0 |}, sessions')
     /\ sessions' !! session_id
        = Some {| sess_id := session_id; sess_created_at := now;
                  sess_messages := [] |})
  /\ (forall session, sessions !! session_id = Some session ->
      get_session_info now session_id sessions
      = ({| si_session_id := session_id;
            si_created_at := sess_created_at session;
            si_message_count := length (sess_messages session) |},
         sessions)).
Proof.
  unfold get_session_info, get_session. split.
  - intros ->. eexists. split; [reflexivity | apply lookup_insert_eq].
  - intros session ->. reflexivity.
Qed.

Lemma get_session_info_creates_session_witness :
  exists sessions',
    get_session_info 3 "s1" ∅
    = ({| si_session_id := "s1"; si_created_at := 3;
          si_message_count := 0 |}, sessions')
    /\ sessions' !! "s1"
       = Some {| sess_id := "s1"; sess_created_at := 3; sess_messages := [] |}.
Proof.
  apply (proj1 (get_session_info_creates_session 3 "s1" ∅)). reflexivity.
Defined.

End Sessions.

(** ** Profile store *)

Section ProfileStore.

(** X7: the enum constructors and [.value] are inverse to each other: a
    member's value gives the member back, and a string that is accepted
    is the value of the member returned. *)
Theorem enum_value_round_trip :
  (forall p, PersonalityType_call (personality_value p) = Ok p)
  /\ (forall c, CommunicationStyle_call (style_value c) = Ok c)
  /\ (forall s p, PersonalityType_call s = Ok p -> personality_value p = s)
  /\ (forall s c, CommunicationStyle_call s = Ok c -> style_value c = s).
Proof.
  split; [intros []; reflexivity |].
  split; [intros []; reflexivity |].
  split.
  - intros s p. unfold PersonalityType_call.
    destruct (find _ _) as [p' |] eqn:Hfind; [| discriminate].
    intros [= <-]. apply find_some in Hfind as [_ Heq].
    now apply String.eqb_eq in Heq.
  - intros s c. unfold CommunicationStyle_call.
    destruct (find _ _) as [c' |] eqn:Hfind; [| discriminate].
    intros [= <-]. apply find_some in Hfind as [_ Heq].
    now apply String.eqb_eq in Heq.
Qed.

(** X8: on first contact an update whose enum strings are valid (or
    absent) creates the profile from the request: name, age group, budget
    range and interests as sent, language "en" and voice off unless sent,
    personality and style the members named (adventurous and friendly
    when absent); no other profile is touched. *)
Theorem update_first_contact_creates_profile
    (uid : string) (updates : Updates) (ai : AI)
    (pt : PersonalityType) (cs : CommunicationStyle)
    (Hnew : user_profiles ai !! uid = None)
    (Hpt : default "adventurous" (upd_personality_type updates)
           = personality_value pt)
    (Hcs : default "friendly" (upd_communication_style updates)
           = style_value cs) :
  exists (p : UserProfile) (ai' : AI),
    update_user_profile uid updates ai = (Ok p, ai')
    /\ user_profiles ai' !! uid = Some p
    /\ (forall other, other <> uid ->
                      user_profiles ai' !! other = user_profiles ai !! other)
    /\ user_id p = uid
    /\ name p = upd_name updates
    /\ age_group p = upd_age_group updates
    /\ budget_range p = upd_budget_range updates
    /\ interests p = default [] (upd_interests updates)
    /\ preferred_language p = default "en" (upd_preferred_language updates)
    /\ voice_enabled p = default false (upd_voice_enabled updates)
    /\ personality_type p = pt
    /\ communication_style p = cs
    /\ conversation_history p = [] /\ feedback_history p = [].
Proof.
  destruct enum_value_round_trip as (Hrt_pt & Hrt_cs & _).
  unfold update_user_profile, get_or_create_user_profile, profile_of,
    store_profile, logger, lift, new_profile, _save_user_profile,
    _save_user_profiles.
  unfold mbind, M_bind, mret, M_ret, result_bind, result_ret. rewrite Hnew.
  cbv zeta. change (default no_updates (Some updates)) with updates.
  rewrite Hpt, Hrt_pt, Hcs, Hrt_cs. cbv beta iota.
  rewrite Hnew. cbv beta iota.
  cbn [user_profiles]. rewrite lookup_insert_eq.
  eexists _, _. split; [reflexivity |]. cbn [user_profiles].
  split; [apply lookup_insert_eq |].
  split; [intros other Hother; apply lookup_insert_ne; congruence |].
  repeat split.
Qed.

Lemma update_first_contact_creates_profile_witness :
  exists (p : UserProfile) (ai' : AI),
    update_user_profile "u2" repeated_interest_update empty_ai = (Ok p, ai')
    /\ user_profiles ai' !! "u2" = Some p
    /\ interests p = ["food"; "food"]
    /\ personality_type p = ADVENTUROUS.
Proof.
  destruct (update_first_contact_creates_profile "u2" repeated_interest_update
              empty_ai ADVENTUROUS FRIENDLY)
    as (p & ai' & Hrun & Hstored & _ & _ & _ & _ & _ & Hints & _ & _ & Hpt & _).
  - reflexivity.
  - reflexivity.
  - reflexivity.
  - exists p, ai'. auto.
Defined.

(** X9: on first contact without data a profile is created with the
    defaults (adventurous, friendly, language en, voice off, nothing
    else known), stored under the user id, logged, and no other profile
    is touched. *)
Theorem get_or_create_new_defaults
    (uid : string) (ai : AI) (Hnew : user_profiles ai !! uid = None) :
  exists (p : UserProfile) (ai' : AI),
    get_or_create_user_profile uid None ai = (Ok p, ai')
    /\ user_profiles ai' !! uid = Some p
    /\ (forall other, other <> uid ->
                      user_profiles ai' !! other = user_profiles ai !! other)
    /\ log ai' = log ai ++ [(INFO, "Created new user profile for " +:+ uid)]
    /\ user_id p = uid
    /\ personality_type p = ADVENTUROUS
    /\ communication_style p = FRIENDLY
    /\ preferred_language p = "en"
    /\ voice_enabled p = false
    /\ name p = None /\ age_group p = None /\ budget_range p = None
    /\ interests p = [] /\ conversation_history p = []
    /\ feedback_history p = [] /\ satisfaction_scores p = []
    /\ last_interaction p = None.
Proof.
  unfold get_or_create_user_profile, profile_of, mbind, M_bind.
  rewrite Hnew. eexists _, _. split; [reflexivity |]. cbn.
  split; [apply lookup_insert_eq |].
  split; [intros other Hother; apply lookup_insert_ne; congruence |].
  repeat split.
Qed.

Lemma get_or_create_new_defaults_witness :
  exists (p : UserProfile) (ai' : AI),
    get_or_create_user_profile "u9" None empty_ai = (Ok p, ai')
    /\ user_profiles ai' !! "u9" = Some p
    /\ personality_type p = ADVENTUROUS
    /\ communication_style p = FRIENDLY.
Proof.
  destruct (get_or_create_new_defaults "u9" empty_ai)
    as (p & ai' & Hrun & Hstored & _ & _ & _ & Hpt & Hcs & _).
  - reflexivity.
  - exists p, ai'. auto.
Defined.

End ProfileStore.

(** ** Updates of a profile that exists *)

Section UpdateExisting.

Lemma update_existing_run uid updates ai p :
  user_profiles ai !! uid = Some p ->
  update_user_profile uid updates ai
  = (Ok (apply_updates updates p).1,
     {| user_profiles := <[uid := (apply_updates updates p).1]> (user_profiles ai);
        log := log ai ++ (apply_updates updates p).2 |}).
Proof.
  intros Hknown.
  unfold update_user_profile, profile_of, store_profile, log_all,
    _save_user_profile, _save_user_profiles.
  unfold mbind, M_bind, mret, M_ret. rewrite Hknown.
  destruct (apply_updates updates p) as [p1 w]. cbn.
  rewrite lookup_insert_eq. reflexivity.
Qed.

Ltac split_updates :=
  repeat match goal with
         | |- context [match ?o with Some _ => _ | None => _ end] =>
             destruct o
         | |- context [match ?r with Ok _ => _ | Raise _ => _ end] =>
             destruct r eqn:?
         end.

Lemma apply_updates_interests updates p :
  interests (apply_updates updates p).1
  = match upd_interests updates with
    | Some value => list_of_set (interests p ++ value)
    | None => interests p
    end.
Proof. unfold apply_updates. split_updates; reflexivity. Qed.

Lemma apply_updates_personality updates p :
  personality_type (apply_updates updates p).1
  = match upd_personality_type updates with
    | Some value =>
        match PersonalityType_call value with
        | Ok pt => pt
        | Raise _ => personality_type p
        end
    | None => personality_type p
    end.
Proof. unfold apply_updates. split_updates; reflexivity. Qed.

Lemma apply_updates_style updates p :
  communication_style (apply_updates updates p).1
  = match upd_communication_style updates with
    | Some value =>
        match CommunicationStyle_call value with
        | Ok cs => cs
        | Raise _ => communication_style p
        end
    | None => communication_style p
    end.
Proof. unfold apply_updates. split_updates; reflexivity. Qed.

(** X10: an update of a profile that exists raises nothing, whatever the
    request holds; it keeps the user id, the histories, the scores and
    the last interaction, and touches no other user's profile. *)
Theorem update_existing_never_raises
    (uid : string) (updates : Updates) (ai : AI) (p : UserProfile)
    (Hknown : user_profiles ai !! uid = Some p) :
  exists (p' : UserProfile) (ai' : AI),
    update_user_profile uid updates ai = (Ok p', ai')
    /\ user_profiles ai' !! uid = Some p'
    /\ (forall other, other <> uid ->
                      user_profiles ai' !! other = user_profiles ai !! other)
    /\ user_id p' = user_id p
    /\ conversation_history p' = conversation_history p
    /\ travel_history p' = travel_history p
    /\ feedback_history p' = feedback_history p
    /\ satisfaction_scores p' = satisfaction_scores p
    /\ learning_insights p' = learning_insights p
    /\ last_interaction p' = last_interaction p.
Proof.
  rewrite (update_existing_run _ _ _ _ Hknown).
  eexists _, _. split; [reflexivity |]. cbn [user_profiles].
  split; [apply lookup_insert_eq |].
  split; [intros other Hother; apply lookup_insert_ne; congruence |].
  unfold apply_updates. split_updates; repeat split.
Qed.

Lemma update_existing_never_raises_witness :
  exists (p' : UserProfile) (ai' : AI),
    update_user_profile "u1" invalid_personality_update one_user = (Ok p', ai')
    /\ user_profiles ai' !! "u1" = Some p'
    /\ user_id p' = "u1".
Proof.
  destruct (update_existing_never_raises "u1" invalid_personality_update
              one_user traveller)
    as (p' & ai' & Hrun & Hstored & _ & Huid & _).
  - reflexivity.
  - exists p', ai'. auto.
Defined.

(** X11: an update of a profile that exists merges the interest list of
    the request into the profile's as a set: afterwards the list has no
    duplicates and holds exactly the entries of either list. *)
Theorem update_existing_merges_interests
    (uid : string) (updates : Updates) (value : list string) (ai : AI)
    (p : UserProfile)
    (Hknown : user_profiles ai !! uid = Some p)
    (Hvalue : upd_interests updates = Some value) :
  exists (p' : UserProfile) (ai' : AI),
    update_user_profile uid updates ai = (Ok p', ai')
    /\ user_profiles ai' !! uid = Some p'
    /\ NoDup (interests p')
    /\ (forall x, x ∈ interests p' <-> x ∈ interests p \/ x ∈ value).
Proof.
  rewrite (update_existing_run _ _ _ _ Hknown).
  eexists _, _. split; [reflexivity |]. cbn [user_profiles].
  split; [apply lookup_insert_eq |].
  split; [apply (apply_updates_interests_NoDup _ _ _ Hvalue) |].
  intros x. rewrite apply_updates_interests, Hvalue.
  rewrite list_of_set_elem. apply elem_of_app.
Qed.

Lemma update_existing_merges_interests_witness :
  exists (p' : UserProfile) (ai' : AI),
    update_user_profile "u1" repeated_interest_update one_user = (Ok p', ai')
    /\ user_profiles ai' !! "u1" = Some p'
    /\ NoDup (interests p')
    /\ (forall x, x ∈ interests p'
                  <-> x ∈ interests traveller \/ x ∈ ["food"; "food"]).
Proof.
  apply (update_existing_merges_interests "u1" repeated_interest_update
           ["food"; "food"] one_user traveller); reflexivity.
Defined.

(** X12: an update of a profile that exists with the value of an enum
    member sets the profile to that member, for the personality type and
    for the communication style. *)
Theorem update_existing_sets_valid_enum
    (uid : string) (updates : Updates) (ai : AI) (p : UserProfile)
    (Hknown : user_profiles ai !! uid = Some p) :
  exists (p' : UserProfile) (ai' : AI),
    update_user_profile uid updates ai = (Ok p', ai')
    /\ (forall pt, upd_personality_type updates = Some (personality_value pt) ->
                   personality_type p' = pt)
    /\ (forall cs, upd_communication_style updates = Some (style_value cs) ->
                   communication_style p' = cs).
Proof.
  rewrite (update_existing_run _ _ _ _ Hknown).
  eexists _, _. split; [reflexivity |].
  destruct (enum_value_round_trip) as (Hpt & Hcs & _).
  split.
  - intros pt Hupd. cbn [fst]. rewrite apply_updates_personality, Hupd, Hpt.
    reflexivity.
  - intros cs Hupd. cbn [fst]. rewrite apply_updates_style, Hupd, Hcs.
    reflexivity.
Qed.

Lemma update_existing_sets_valid_enum_witness :
  exists (p' : UserProfile) (ai' : AI),
    update_user_profile "u1"
      {| upd_name := None; upd_age_group := None;
         upd_personality_type := Some "luxury";
         upd_communication_style := Some "concise";
         upd_budget_range := None; upd_interests := None;
         upd_preferred_language := None; upd_voice_enabled := None |}
      one_user
    = (Ok p', ai')
    /\ personality_type p' = LUXURY
    /\ communication_style p' = CONCISE.
Proof.
  destruct (update_existing_sets_valid_enum "u1"
              {| upd_name := None; upd_age_group := None;
                 upd_personality_type := Some "luxury";
                 upd_communication_style := Some "concise";
                 upd_budget_range := None; upd_interests := None;
                 upd_preferred_language := None; upd_voice_enabled := None |}
              one_user traveller)
    as (p' & ai' & Hrun & Hpt & Hcs).
  - reflexivity.
  - exists p', ai'. split; [exact Hrun |].
    split; [apply (Hpt LUXURY) | apply (Hcs CONCISE)]; reflexivity.
Defined.

End UpdateExisting.

(** ** Analysis of a message *)

Section Analysis.

Lemma analyze_interests now message p :
  interests (analyze_user_intent_and_personality now message p).1
  = fold_left (detect_interest (Py.lower message)) interest_keywords
      (interests p).
Proof.
  unfold analyze_user_intent_and_personality. cbn [fst].
  repeat match goal with
         | |- context [if ?b then _ else _] => destruct b
         end; reflexivity.
Qed.

Lemma detect_interest_prefix text ints kw :
  ints `prefix_of` detect_interest text ints kw.
Proof.
  unfold detect_interest.
  repeat match goal with
         | |- context [if ?b then _ else _] => destruct b
         end; try reflexivity. apply prefix_app_r. reflexivity.
Qed.

Lemma detect_interest_hit text ints kw :
  Py.any_in kw.2 text = true -> kw.1 ∈ detect_interest text ints kw.
Proof.
  unfold detect_interest. intros ->.
  destruct (Py.list_in kw.1 ints) eqn:Hin.
  - now apply list_in_spec.
  - apply elem_of_app. right. apply list_elem_of_singleton. reflexivity.
Qed.

Lemma detect_interest_sound text ints kw x :
  x ∈ detect_interest text ints kw ->
  x ∈ ints \/ (x = kw.1 /\ Py.any_in kw.2 text = true).
Proof.
  unfold detect_interest.
  destruct (Py.any_in kw.2 text); [| auto].
  destruct (Py.list_in kw.1 ints); [auto |].
  rewrite elem_of_app, list_elem_of_singleton. intros [H | H]; auto.
Qed.

Lemma fold_detect_prefix text kws ints :
  ints `prefix_of` fold_left (detect_interest text) kws ints.
Proof.
  revert ints. induction kws as [| kw kws IH]; intros ints; cbn.
  - reflexivity.
  - etransitivity; [apply detect_interest_prefix | apply IH].
Qed.

Lemma fold_detect_complete text kws ints kw :
  kw ∈ kws -> Py.any_in kw.2 text = true ->
  kw.1 ∈ fold_left (detect_interest text) kws ints.
Proof.
  revert ints. induction kws as [| k kws IH]; intros ints Hin Hhit.
  - apply elem_of_nil in Hin. contradiction.
  - apply elem_of_cons in Hin as [<- | Hin]; cbn.
    + eapply elem_of_prefix; [| apply fold_detect_prefix].
      apply detect_interest_hit, Hhit.
    + apply IH; assumption.
Qed.

Lemma fold_detect_sound text kws ints x :
  x ∈ fold_left (detect_interest text) kws ints ->
  x ∈ ints \/ exists kw, kw ∈ kws /\ kw.1 = x /\ Py.any_in kw.2 text = true.
Proof.
  revert ints. induction kws as [| k kws IH]; intros ints Hx; cbn in Hx.
  - auto.
  - apply IH in Hx as [Hx | (kw & Hin & Heq & Hhit)].
    + apply detect_interest_sound in Hx as [Hx | [-> Hhit]]; [auto |].
      right. exists k. split; [left | auto].
    + right. exists kw. split; [right; exact Hin | auto].
Qed.

(** X13: interest detection on a message appends to the interests: the
    old list stays as a prefix, every category one of whose keywords
    occurs in the lower-cased message is present afterwards, and nothing
    else is added. *)
Theorem analyze_detects_interests (now : Z) (message : string) (p : UserProfile) :
  interests p
    `prefix_of` interests (analyze_user_intent_and_personality now message p).1
  /\ (forall kw, kw ∈ interest_keywords ->
                 Py.any_in kw.2 (Py.lower message) = true ->
                 kw.1 ∈ interests
                          (analyze_user_intent_and_personality now message p).1)
  /\ (forall x,
        x ∈ interests (analyze_user_intent_and_personality now message p).1 ->
        x ∈ interests p
        \/ exists kw, kw ∈ interest_keywords /\ kw.1 = x
                      /\ Py.any_in kw.2 (Py.lower message) = true).
Proof.
  rewrite analyze_interests. split; [apply fold_detect_prefix |].
  split.
  - intros kw. apply fold_detect_complete.
  - intros x. apply fold_detect_sound.
Qed.

(** X14: analysis of a message keeps the name, the age group, the
    personality type, the language, the voice flag and the feedback data
    of the profile; a budget word ("budget", "cheap", "affordable",
    "low cost") sets the budget range to "budget" even when a luxury word
    is present too, and a politeness word sets the style to formal even
    when an enthusiasm word is present too. *)
Theorem analyze_frame_and_precedence
    (now : Z) (message : string) (p : UserProfile) :
  let p' := (analyze_user_intent_and_personality now message p).1 in
  name p' = name p /\ age_group p' = age_group p
  /\ personality_type p' = personality_type p
  /\ preferred_language p' = preferred_language p
  /\ voice_enabled p' = voice_enabled p
  /\ feedback_history p' = feedback_history p
  /\ satisfaction_scores p' = satisfaction_scores p
  /\ last_interaction p' = last_interaction p
  /\ (Py.any_in ["budget"; "cheap"; "affordable"; "low cost"]
        (Py.lower message) = true -> budget_range p' = Some "budget")
  /\ (Py.any_in ["please"; "kindly"; "would you"; "could you"]
        (Py.lower message) = true -> communication_style p' = FORMAL).
Proof.
  unfold analyze_user_intent_and_personality. cbn [fst].
  repeat match goal with
         | |- context [if ?b then _ else _] => destruct b
         end; cbv zeta; repeat split; try discriminate.
Qed.

Lemma analyze_frame_and_precedence_witness :
  budget_range
    (analyze_user_intent_and_personality 0
       "A cheap luxury stay, please - that would be awesome" traveller).1
  = Some "budget"
  /\ communication_style
       (analyze_user_intent_and_personality 0
          "A cheap luxury stay, please - that would be awesome" traveller).1
     = FORMAL.
Proof.
  pose proof (analyze_frame_and_precedence 0
                "A cheap luxury stay, please - that would be awesome"
                traveller) as H.
  cbv zeta in H. destruct H as (_ & _ & _ & _ & _ & _ & _ & _ & Hb & Hs).
  split; [apply Hb | apply Hs]; reflexivity.
Defined.

Lemma lower_ascii_not_upper c :
  (65 <=? nat_of_ascii (Py.lower_ascii c))%nat
  && (nat_of_ascii (Py.lower_ascii c) <=? 90)%nat = false.
Proof. destruct c as [[] [] [] [] [] [] [] []]; reflexivity. Qed.

Lemma lower_has_no_upper s : has_upper (Py.lower s) = false.
Proof.
  induction s as [| c s IH]; cbn [Py.lower has_upper]; [reflexivity |].
  rewrite lower_ascii_not_upper, IH. reflexivity.
Qed.

Lemma prefix_has_upper w s :
  String.prefix w s = true -> has_upper w = true -> has_upper s = true.
Proof.
  revert s. induction w as [| c w IH]; intros s Hpre Hup; [discriminate |].
  destruct s as [| d s]; cbn in Hpre; [discriminate |].
  destruct (Ascii.ascii_dec c d) as [<- | Hne]; [| discriminate].
  cbn [has_upper] in *. apply orb_true_iff in Hup as [Hc | Hw].
  - rewrite Hc. reflexivity.
  - rewrite (IH s Hpre Hw). apply orb_true_r.
Qed.

Lemma str_in_has_upper w s :
  Py.str_in w s = true -> has_upper w = true -> has_upper s = true.
Proof.
  induction s as [| d s IH]; cbn [Py.str_in]; intros Hin Hup.
  - destruct w; [discriminate | discriminate].
  - apply orb_true_iff in Hin as [Hpre | Hin].
    + apply (prefix_has_upper w _ Hpre Hup).
    + cbn [has_upper]. rewrite (IH Hin Hup). apply orb_true_r.
Qed.

(** X15: keywords are searched in the lower-cased message, so a keyword
    that holds an upper-case letter matches no message; the entry "VIP"
    of the luxury keywords is such a keyword. *)
Theorem upper_case_keyword_never_matches (keyword : string)
    (Hupper : has_upper keyword = true) :
  forall message, Py.str_in keyword (Py.lower message) = false.
Proof.
  intros message. destruct (Py.str_in keyword (Py.lower message)) eqn:Hin;
    [| reflexivity].
  pose proof (str_in_has_upper _ _ Hin Hupper) as Hup.
  rewrite lower_has_no_upper in Hup. discriminate.
Qed.

Lemma upper_case_keyword_never_matches_witness :
  "VIP" ∈ (default [] (snd <$> (interest_keywords !! 1%nat)))
  /\ forall message, Py.str_in "VIP" (Py.lower message) = false.
Proof.
  split.
  - cbn. rewrite !elem_of_cons. auto 10.
  - apply (upper_case_keyword_never_matches "VIP"). reflexivity.
Defined.

End Analysis.

(** ** Answers of the generative path *)

Section GenerativePath.

Lemma record_user_message_snoc now message hist :
  exists older,
    record_user_message now message hist
    = older ++ [ {| ce_timestamp := now; ce_message := message;
                    ce_type := "user"; ce_personalization_used := None |} ]
    /\ older `suffix_of` hist.
Proof.
  unfold record_user_message.
  destruct (Nat.ltb_spec 20 (length (hist ++ [ {| ce_timestamp := now;
              ce_message := message; ce_type := "user";
              ce_personalization_used := None |} ]))) as [Hlt | Hle].
  - rewrite length_app in Hlt. cbn in Hlt.
    exists (drop (length hist + 1 - 20) hist). split.
    + unfold Py.last_n. rewrite length_app. cbn [length].
      rewrite drop_app_le by lia. reflexivity.
    + apply suffix_drop.
  - exists hist. split; reflexivity.
Qed.

(** X16: when the generative call answers, its text is returned verbatim
    by the agent "Personalized Gemini AI"; the profile (created on first
    contact) is stored with the user message and the reply as the two
    newest history entries, a history of at most 21 entries and the last
    interaction set to now; no other profile is touched. *)
Theorem generate_response_success
    (now : Z) (text message uid session : string) (ai : AI) :
  exists (r : Response) (ai' : AI) (p' : UserProfile)
         (older : list ConversationEntry) (analysis : Analysis),
    generate_personalized_response now (Ok text) message uid session ai
    = (Ok r, ai')
    /\ response r = text
    /\ agent_used r = "Personalized Gemini AI"
    /\ user_profiles ai' !! uid = Some p'
    /\ conversation_history p'
       = older ++
           [ {| ce_timestamp := now; ce_message := message;
                ce_type := "user"; ce_personalization_used := None |};
             {| ce_timestamp := now; ce_message := text; ce_type := "ai";
                ce_personalization_used := Some analysis |} ]
    /\ length (conversation_history p') <= 21
    /\ last_interaction p' = Some now
    /\ length (suggestions r) <= 7
    /\ length (booking_options r) <= 5
    /\ (forall other, other <> uid ->
                      user_profiles ai' !! other = user_profiles ai !! other)
    /\ voice_response_available r = voice_enabled p'
    /\ (forall p, user_profiles ai !! uid = Some p ->
                  voice_enabled p' = voice_enabled p).
Proof.
  destruct (get_or_create_default uid ai) as (p0 & ai0 & Hgoc & Hp0).
  assert (Hsame : forall p, user_profiles ai !! uid = Some p -> p0 = p).
  { intros p Hp. revert Hgoc.
    unfold get_or_create_user_profile, profile_of, mbind, M_bind.
    rewrite Hp. intros [= <- <-]. reflexivity. }
  destruct (analyze_frame_and_precedence now message p0)
    as (_ & _ & _ & _ & Hvoice & _).
  assert (Hframe : forall other, other <> uid ->
            user_profiles ai0 !! other = user_profiles ai !! other).
  { revert Hgoc.
    unfold get_or_create_user_profile, profile_of, mbind, M_bind.
    destruct (user_profiles ai !! uid); intros [= <- <-]; [reflexivity |].
    intros other Hother. cbn. apply lookup_insert_ne. congruence. }
  destruct (get_destination_intelligence_ok message) as [d Hd].
  pose proof (analyze_history now message p0) as Hhist.
  destruct (analyze_user_intent_and_personality now message p0)
    as [p1 analysis] eqn:Han.
  cbn [fst] in Hhist, Hvoice.
  destruct (record_user_message_snoc now message (conversation_history p0))
    as (older & Hsnoc & _).
  pose proof (record_user_message_length now message (conversation_history p0))
    as Hlen.
  unfold generate_personalized_response, try_except, store_profile, lift,
    _save_user_profile, _save_user_profiles.
  unfold mbind, M_bind, mret, M_ret.
  rewrite Hgoc, Han, Hd. cbv beta iota.
  eexists _, _, _, older, analysis. split; [reflexivity |].
  cbn [response agent_used suggestions booking_options user_profiles].
  split; [reflexivity |]. split; [reflexivity |].
  split; [apply lookup_insert_eq |].
  change (conversation_history (set_last_interaction ?t
            (set_conversation_history ?h ?q))) with h.
  rewrite Hhist, Hsnoc.
  split; [rewrite <- app_assoc; reflexivity |].
  split.
  { rewrite <- Hsnoc, length_app. cbn [length]. lia. }
  split; [reflexivity |].
  split; [apply take_length_le |].
  split; [apply take_length_le |].
  split.
  { intros other Hother.
    rewrite !lookup_insert_ne by congruence. apply Hframe, Hother. }
  split; [reflexivity |].
  intros p Hp. rewrite <- (Hsame p Hp). exact Hvoice.
Qed.

(** X17: when the generative call fails, with whatever error, the
    changes the analysis of the message made to the profile stay: the
    user message is in the history (cut to at most 20 entries), no reply
    is recorded and the last interaction is not updated, also when the
    caller gets HTTP 500. *)
Theorem generate_response_failure_keeps_analysis
    (now : Z) (e : exn) (message uid session : string) (ai : AI) :
  exists (p0 : UserProfile) (ai0 : AI),
    get_or_create_user_profile uid None ai = (Ok p0, ai0)
    /\ user_profiles
         (generate_personalized_response now (Raise e) message uid
            session ai).2 !! uid
       = Some (analyze_user_intent_and_personality now message p0).1
    /\ conversation_history
         (analyze_user_intent_and_personality now message p0).1
       = record_user_message now message (conversation_history p0)
    /\ length (conversation_history
                 (analyze_user_intent_and_personality now message p0).1) <= 20
    /\ last_interaction (analyze_user_intent_and_personality now message p0).1
       = last_interaction p0.
Proof.
  destruct (get_or_create_default uid ai) as (p0 & ai0 & Hgoc & Hp0).
  exists p0, ai0. split; [exact Hgoc |].
  destruct (get_destination_intelligence_ok message) as [d Hd].
  pose proof (analyze_history now message p0) as Hhist.
  destruct (analyze_frame_and_precedence now message p0)
    as (_ & _ & _ & _ & _ & _ & _ & Hlast & _).
  destruct (analyze_user_intent_and_personality now message p0)
    as [p1 analysis] eqn:Han.
  cbn [fst] in *.
  split.
  - unfold generate_personalized_response, try_except, store_profile, lift,
      logger, bound_profile, profile_of, raise.
    unfold mbind, M_bind, mret, M_ret.
    rewrite Hgoc, Han, Hd. cbv beta iota.
    destruct (Py.str_in "429" (str_of_exn e)
              || Py.str_in "quota" (Py.lower (str_of_exn e))).
    + cbn [user_profiles]. rewrite lookup_insert_eq.
      destruct (_generate_fallback_response_ok message p1) as [body ->].
      cbn. apply lookup_insert_eq.
    + cbn. apply lookup_insert_eq.
  - split; [exact Hhist |]. split; [| exact Hlast].
    rewrite Hhist. apply record_user_message_length.
Qed.

(** X18: the booking options of a personalized answer do not depend on
    the message; they are a flight, then a hotel, then at most one
    activity: two or three offers, so the cut to five never removes one. *)
Theorem generate_personalized_bookings_shape
    (p : UserProfile) (message : string) :
  (forall message',
      generate_personalized_bookings p message'
      = generate_personalized_bookings p message)
  /\ exists flight hotel rest,
       generate_personalized_bookings p message = flight :: hotel :: rest
       /\ bk_type flight = "flight" /\ bk_type hotel = "hotel"
       /\ (rest = [] \/ exists activity,
                          rest = [activity] /\ bk_type activity = "activity").
Proof.
  split; [reflexivity |].
  unfold generate_personalized_bookings.
  repeat match goal with
         | |- context [if ?b then _ else _] => destruct b
         end; cbn; eexists _, _, _; (split; [reflexivity |]);
    (split; [reflexivity |]); (split; [reflexivity |]);
    first [left; reflexivity | right; eexists; split; reflexivity].
Qed.

Lemma len_times_mono {A B} (xs : list A) (ys : list B) (w : Q) :
  (0 <= w)%Q -> length xs <= length ys -> (len_times xs w <= len_times ys w)%Q.
Proof.
  intros Hw Hlen. unfold len_times. apply Qmult_le_compat_r; [| exact Hw].
  rewrite <- Zle_Qle. lia.
Qed.

(** X19: the personalization score does not go down when profile data
    is added: if every field filled in [p] is filled in [q], no list of
    [q] is shorter and the last interaction is the same, the score of [q]
    is at least the score of [p]. *)
Theorem calculate_personalization_score_monotone
    (now : Z) (p q : UserProfile) (Hmore : at_least_as_complete p q) :
  (calculate_personalization_score now p
   <= calculate_personalization_score now q)%Q.
Proof.
  destruct Hmore as (Hn & Ha & Hb & Hi & Ht & Hc & Hl).
  unfold calculate_personalization_score.
  apply Q.min_le_compat_r.
  pose proof (Q.min_le_compat_r _ _ 0.2
                (len_times_mono (interests p) (interests q) 0.05
                   ltac:(lra) Hi)) as Hmi.
  pose proof (Q.min_le_compat_r _ _ 0.15
                (len_times_mono (travel_history p) (travel_history q) 0.03
                   ltac:(lra) Ht)) as Hmt.
  pose proof (Q.min_le_compat_r _ _ 0.2
                (len_times_mono (conversation_history p)
                   (conversation_history q) 0.01 ltac:(lra) Hc)) as Hmc.
  set (ip := Qmin (len_times (interests p) 0.05) 0.2) in *.
  set (iq := Qmin (len_times (interests q) 0.05) 0.2) in *.
  set (tp := Qmin (len_times (travel_history p) 0.03) 0.15) in *.
  set (tq := Qmin (len_times (travel_history q) 0.03) 0.15) in *.
  set (cp := Qmin (len_times (conversation_history p) 0.01) 0.2) in *.
  set (cq := Qmin (len_times (conversation_history q) 0.01) 0.2) in *.
  clearbody ip iq tp tq cp cq.
  rewrite <- Hl.
  destruct (Py.truthy (name p)), (Py.truthy (name q)),
    (Py.truthy (age_group p)), (Py.truthy (age_group q)),
    (Py.truthy (budget_range p)), (Py.truthy (budget_range q));
    try (specialize (Hn eq_refl)); try (specialize (Ha eq_refl));
    try (specialize (Hb eq_refl)); try discriminate;
    destruct (last_interaction p) as [last |];
    try destruct (days_since now last <? 7)%Z; lra.
Qed.

Lemma calculate_personalization_score_monotone_witness :
  (calculate_personalization_score 0 traveller
   <= calculate_personalization_score 0
        (set_interests ["food"] (set_age_group (Some "26-35") traveller)))%Q.
Proof.
  apply (calculate_personalization_score_monotone 0 traveller
           (set_interests ["food"] (set_age_group (Some "26-35") traveller))).
  unfold at_least_as_complete. cbn. repeat split; auto; lia.
Defined.

(** X20: destination intelligence is found exactly when the lower-cased
    message contains "goa", "kerala" or "chennai"; the first of the three,
    in that order, that occurs is the destination, its record is the one
    returned, and without any the destination is "general" with no
    record. *)
Theorem get_destination_intelligence_detects (message : string) :
  exists d,
    get_destination_intelligence message = Ok d
    /\ has_specific_data d
       = Py.any_in ["goa"; "kerala"; "chennai"] (Py.lower message)
    /\ destination d
       = (if Py.str_in "goa" (Py.lower message) then "goa"
          else if Py.str_in "kerala" (Py.lower message) then "kerala"
          else if Py.str_in "chennai" (Py.lower message) then "chennai"
          else "general")
    /\ intelligence d
       = (if has_specific_data d
          then snd <$> find (fun kv => String.eqb kv.1 (destination d))
                            destination_intelligence
          else None)
    /\ (has_specific_data d = true -> is_Some (intelligence d)).
Proof.
  unfold get_destination_intelligence, Py.any_in.
  change (map fst destination_intelligence) with ["goa"; "kerala"; "chennai"].
  cbn [find existsb].
  destruct (Py.str_in "goa" (Py.lower message));
    [| destruct (Py.str_in "kerala" (Py.lower message));
       [| destruct (Py.str_in "chennai" (Py.lower message))]];
    cbn [orb];
    try (eexists; repeat split; discriminate);
    unfold subscript;
    match goal with
    | |- context [find ?f destination_intelligence] =>
        destruct (find f destination_intelligence) as [kv |] eqn:Hfind;
          [| vm_compute in Hfind; discriminate Hfind]
    end;
    cbn [mbind result_bind mret result_ret];
    eexists; (split; [reflexivity |]);
    cbn [has_specific_data destination intelligence];
    rewrite ?Hfind; repeat split; intros _; eexists; reflexivity.
Qed.

End GenerativePath.

(** ** Feedback learner *)

Section FeedbackLearner.

(** X21: feedback for a user without a profile answers "User not found",
    which the handler turns into HTTP 404; no profile is created and
    nothing is recorded. *)
Theorem process_user_feedback_unknown_user
    (now : Z) (uid feedback_type : string) (feedback_data : FeedbackData)
    (response_id : option string) (ai : AI)
    (Hnew : user_profiles ai !! uid = None) :
  process_user_feedback now uid feedback_type feedback_data response_id ai
  = (Ok (FeedbackError "User not found"), ai)
  /\ api_submit_user_feedback now uid feedback_type feedback_data response_id
       (Some ai)
     = (Raise (HTTPException 404 "User not found"), Some ai).
Proof.
  assert (Hstore :
    process_user_feedback now uid feedback_type feedback_data response_id ai
    = (Ok (FeedbackError "User not found"), ai)).
  { unfold process_user_feedback, profile_of, mbind, M_bind.
    rewrite Hnew. reflexivity. }
  split; [exact Hstore |].
  unfold api_submit_user_feedback, with_personalized_ai.
  unfold mbind at 1. unfold M_bind. rewrite Hstore. reflexivity.
Qed.

Lemma process_user_feedback_unknown_user_witness :
  process_user_feedback 1 "ghost" "rating" (rating_feedback 5 []) None empty_ai
  = (Ok (FeedbackError "User not found"), empty_ai)
  /\ api_submit_user_feedback 1 "ghost" "rating" (rating_feedback 5 []) None
       (Some empty_ai)
     = (Raise (HTTPException 404 "User not found"), Some empty_ai).
Proof.
  apply (process_user_feedback_unknown_user 1 "ghost" "rating"
           (rating_feedback 5 []) None empty_ai).
  reflexivity.
Defined.

Lemma list_remove_app x pre rest :
  x ∉ pre -> list_remove x (pre ++ x :: rest) = Ok (pre ++ rest).
Proof.
  induction pre as [| y pre IH]; intros Hnot; cbn.
  - rewrite String.eqb_refl. reflexivity.
  - destruct (String.eqb_spec y x) as [-> | Hne].
    + exfalso. apply Hnot. left.
    + rewrite IH; [reflexivity |]. intros Hin. apply Hnot. right. exact Hin.
Qed.

(** The removal loop never fails: every entry it removes is still in the
    list, also when the list repeats entries. *)
Lemma remove_boring_filter text copy pre o :
  (forall x, x ∈ pre -> Py.str_in x text = false) ->
  exists o',
    remove_boring text copy (pre ++ copy, o)
    = Ok (pre ++ List.filter (fun i => negb (Py.str_in i text)) copy, o').
Proof.
  revert pre o. induction copy as [| i copy IH]; intros pre o Hpre.
  - exists o. reflexivity.
  - cbn [remove_boring List.filter fst].
    destruct (Py.str_in i text) eqn:Hi; cbn [negb].
    + rewrite list_remove_app.
      * cbn [mbind result_bind]. apply IH, Hpre.
      * intros Hin. apply Hpre in Hin. congruence.
    + replace (pre ++ i :: copy) with ((pre ++ [i]) ++ copy)
        by (rewrite <- app_assoc; reflexivity).
      destruct (IH (pre ++ [i]) o) as [o' Ho'].
      * intros x Hx. apply elem_of_app in Hx as [Hx | Hx]; [auto |].
        apply list_elem_of_singleton in Hx. subst x. exact Hi.
      * exists o'. rewrite Ho', <- app_assoc. reflexivity.
Qed.

Lemma detailed_feedback_run p data :
  exists p',
    _process_detailed_feedback p data = Ok p'
    /\ interests p'
       = (if Py.str_in "boring" (Py.lower (default "" (fd_feedback_text data)))
             || Py.str_in "not interested"
                  (Py.lower (default "" (fd_feedback_text data)))
          then List.filter
                 (fun i => negb (Py.str_in i
                                   (Py.lower (default "" (fd_feedback_text data)))))
                 (interests p)
          else interests p)
    /\ budget_range p'
       = (if Py.any_in ["too expensive"; "costly"; "price"]
               (Py.lower (default "" (fd_feedback_text data)))
          then Some "budget"
          else if Py.any_in ["luxurious"; "premium"; "high-end"]
                    (Py.lower (default "" (fd_feedback_text data)))
          then Some "luxury"
          else budget_range p)
    /\ user_id p' = user_id p /\ name p' = name p
    /\ personality_type p' = personality_type p
    /\ communication_style p' = communication_style p
    /\ feedback_history p' = feedback_history p
    /\ satisfaction_scores p' = satisfaction_scores p
    /\ conversation_history p' = conversation_history p
    /\ milestone (learning_insights p') = milestone (learning_insights p).
Proof.
  unfold _process_detailed_feedback.
  set (text := Py.lower (default "" (fd_feedback_text data))).
  set (budget_step :=
         if Py.any_in ["too expensive"; "costly"; "price"] text then _
         else _).
  assert (Hstep : exists q ib,
            budget_step = (q, ib)
            /\ interests q = interests p
            /\ budget_range q
               = (if Py.any_in ["too expensive"; "costly"; "price"] text
                  then Some "budget"
                  else if Py.any_in ["luxurious"; "premium"; "high-end"] text
                  then Some "luxury"
                  else budget_range p)
            /\ user_id q = user_id p /\ name q = name p
            /\ personality_type q = personality_type p
            /\ communication_style q = communication_style p
            /\ feedback_history q = feedback_history p
            /\ satisfaction_scores q = satisfaction_scores p
            /\ conversation_history q = conversation_history p
            /\ learning_insights q = learning_insights p).
  { subst budget_step.
    destruct (Py.any_in ["too expensive"; "costly"; "price"] text);
      [| destruct (Py.any_in ["luxurious"; "premium"; "high-end"] text)];
      repeat case_bool_decide; cbn [negb]; eexists _, _;
      (split; [reflexivity |]); repeat split; auto. }
  destruct Hstep as (q & ib & -> & Hints & Hbudget & Huid & Hname & Hpt & Hcs
                     & Hfh & Hss & Hch & Hli).
  destruct (Py.str_in "boring" text || Py.str_in "not interested" text).
  - destruct (remove_boring_filter text (interests q) [] None) as [o' Hrun].
    { intros x Hx. apply elem_of_nil in Hx. contradiction. }
    cbn [app] in Hrun. rewrite Hrun.
    cbn [mbind result_bind mret result_ret].
    eexists. split; [reflexivity |]. cbn. rewrite Hints, Hli. repeat split; auto.
  - cbn [mbind result_bind mret result_ret].
    eexists. split; [reflexivity |]. cbn. rewrite Hli. repeat split; auto.
Qed.

(** X22: for a payload whose [feedback_text] is a string or absent, the
    removal loop of detailed feedback never hits the [ValueError] of
    [list.remove], also when the interests repeat an entry.  When the
    lower-cased text holds "boring" or "not interested", every interest
    that occurs in the text is removed, all its copies, and the others
    keep their order; otherwise the interests stay. *)
Theorem detailed_feedback_removes_mentioned_interests
    (p : UserProfile) (data : FeedbackData) :
  exists p',
    _process_detailed_feedback p data = Ok p'
    /\ interests p'
       = (if Py.str_in "boring" (Py.lower (default "" (fd_feedback_text data)))
             || Py.str_in "not interested"
                  (Py.lower (default "" (fd_feedback_text data)))
          then List.filter
                 (fun i => negb (Py.str_in i
                                   (Py.lower (default "" (fd_feedback_text data)))))
                 (interests p)
          else interests p).
Proof.
  destruct (detailed_feedback_run p data) as (p' & Hrun & Hints & _).
  exists p'. auto.
Qed.

(** X23: detailed feedback that mentions "too expensive", "costly" or
    "price" sets the budget range to "budget", also when it mentions
    "luxurious", "premium" or "high-end" as well; with only words of the
    second group the budget range becomes "luxury"; with none it stays. *)
Theorem detailed_feedback_budget_shift (p : UserProfile) (data : FeedbackData) :
  exists p',
    _process_detailed_feedback p data = Ok p'
    /\ budget_range p'
       = (if Py.any_in ["too expensive"; "costly"; "price"]
               (Py.lower (default "" (fd_feedback_text data)))
          then Some "budget"
          else if Py.any_in ["luxurious"; "premium"; "high-end"]
                    (Py.lower (default "" (fd_feedback_text data)))
          then Some "luxury"
          else budget_range p)
    /\ personality_type p' = personality_type p
    /\ communication_style p' = communication_style p.
Proof.
  destruct (detailed_feedback_run p data)
    as (p' & Hrun & _ & Hbudget & _ & _ & Hpt & Hcs & _).
  exists p'. auto.
Qed.

End FeedbackLearner.

Section FeedbackPipeline.






Lemma process_user_feedback_run now uid feedback_type data rid ai p q :
  user_profiles ai !! uid = Some p ->
  process_by_type now feedback_type data
    (set_feedback_history
       (feedback_history p ++
          [ {| fe_timestamp := now; fe_type := feedback_type;
               fe_data := data; fe_response_id := rid |} ]) p) = Ok q ->
  process_user_feedback now uid feedback_type data rid ai
  = (Ok (FeedbackProcessed true true
           (learning_insights (_update_learning_insights now q))
           (if nonempty (satisfaction_scores q)
            then average (Py.last_n 10 (satisfaction_scores q))
            else 3.0%Q)),
     {| user_profiles :=
          <[uid := _update_learning_insights now q]> (user_profiles ai);
        log := log ai |}).
Proof.
  intros Hknown Hrun.
  unfold process_user_feedback, profile_of, store_profile, lift,
    _save_user_profile.
  unfold mbind, M_bind, mret, M_ret. rewrite Hknown, Hrun. cbv beta iota.
  cbn [user_profiles log]. rewrite !insert_insert_eq. reflexivity.
Qed.

(** X25: a thumbs event appends 4 to the satisfaction scores when the
    payload says "up" and 2 in every other case (also when the key is
    missing); it changes neither the interests nor the communication
    style nor the budget range, and records no pattern. *)
Theorem thumbs_feedback_appends_score
    (now : Z) (uid : string) (data : FeedbackData)
    (response_id : option string) (ai : AI) (p : UserProfile)
    (Hknown : user_profiles ai !! uid = Some p) :
  exists (ai' : AI) (p' : UserProfile) (avg : Q),
    process_user_feedback now uid "thumbs" data response_id ai
    = (Ok (FeedbackProcessed true true (learning_insights p') avg), ai')
    /\ user_profiles ai' !! uid = Some p'
    /\ satisfaction_scores p'
       = satisfaction_scores p ++
           [if bool_decide (fd_thumbs data = Some "up") then 4.0%Q else 2.0%Q]
    /\ interests p' = interests p
    /\ communication_style p' = communication_style p
    /\ budget_range p' = budget_range p
    /\ successful_patterns (learning_insights p')
       = successful_patterns (learning_insights p)
    /\ unsuccessful_patterns (learning_insights p')
       = unsuccessful_patterns (learning_insights p).
Proof.
  erewrite process_user_feedback_run; [| exact Hknown | reflexivity].
  eexists _, _, _. split; [reflexivity |]. cbn [user_profiles].
  split; [apply lookup_insert_eq |]. repeat split.
Qed.

Lemma thumbs_feedback_appends_score_witness :
  exists (ai' : AI) (p' : UserProfile) (avg : Q),
    process_user_feedback 2 "u1" "thumbs" no_feedback_data None one_user
    = (Ok (FeedbackProcessed true true (learning_insights p') avg), ai')
    /\ user_profiles ai' !! "u1" = Some p'
    /\ satisfaction_scores p' = [2.0%Q].
Proof.
  destruct (thumbs_feedback_appends_score 2 "u1" no_feedback_data None
              one_user traveller)
    as (ai' & p' & avg & Hrun & Hstored & Hscores & _).
  - reflexivity.
  - exists ai', p', avg. auto.
Defined.




End FeedbackPipeline.

(** ** The personalized chat handler *)

Section PersonalizedChat.

(** X28: [/api/personalized-chat] wraps every exception, its own
    validation error included, so it never answers 400: each error it
    raises has status 500, and a request with an empty message, user id
    or session id is refused with 500 before anything is stored. *)
Theorem personalized_chat_errors_are_500
    (now : Z) (upstream : result string) (voice_system : option VoiceSystem)
    (request : ChatRequest) (app : App) :
  (forall e app',
      personalized_chat now upstream voice_system request app = (Raise e, app') ->
      exists detail, e = HTTPException 500 detail)
  /\ (req_message request = "" \/ req_user_id request = ""
      \/ req_session_id request = "" ->
      exists detail,
        personalized_chat now upstream voice_system request app
        = (Raise (HTTPException 500 detail), app)).
Proof.
  split.
  - intros e app'. unfold personalized_chat.
    match goal with
    | |- context [let (r, app') := ?c in _] => destruct c as [r a]
    end.
    destruct r as [x | e0]; cbn [wrap_http]; intros [= <- <-];
      eexists; reflexivity.
  - intros Hempty. unfold personalized_chat.
    assert (Hcheck : negb (Py.truthy (Some (req_message request)))
                     || negb (Py.truthy (Some (req_user_id request)))
                     || negb (Py.truthy (Some (req_session_id request)))
                     = true).
    { destruct Hempty as [-> | [-> | ->]]; cbn;
        rewrite ?orb_true_r; reflexivity. }
    rewrite Hcheck. eexists. reflexivity.
Qed.

Lemma personalized_chat_errors_are_500_witness :
  exists detail,
    personalized_chat 0 (Ok "hi") None
      {| req_message := ""; req_session_id := "s1"; req_user_id := "u1";
         req_voice_input := None; req_preferred_language := None |}
      (Some one_user)
    = (Raise (HTTPException 500 detail), Some one_user).
Proof.
  apply (proj2 (personalized_chat_errors_are_500 0 (Ok "hi") None
                  {| req_message := ""; req_session_id := "s1";
                     req_user_id := "u1"; req_voice_input := None;
                     req_preferred_language := None |} (Some one_user))).
  left. reflexivity.
Defined.

End PersonalizedChat.

(** ** Text of the fallback answer *)

Section FallbackText.

Lemma prefix_append w t : String.prefix w (w +:+ t) = true.
Proof.
  induction w as [| c w IH]; simpl; [destruct t; reflexivity |].
  destruct (Ascii.ascii_dec c c); [exact IH | contradiction].
Qed.

Lemma prefix_append_l w s t :
  String.prefix w s = true -> String.prefix w (s +:+ t) = true.
Proof.
  revert s. induction w as [| c w IH]; intros s Hpre.
  - destruct (s +:+ t); reflexivity.
  - destruct s as [| d s]; simpl in *; [discriminate |].
    destruct (Ascii.ascii_dec c d); [apply IH, Hpre | discriminate].
Qed.

Lemma str_in_empty t : Py.str_in "" t = true.
Proof. destruct t; reflexivity. Qed.

Lemma str_in_prefix w s : String.prefix w s = true -> Py.str_in w s = true.
Proof.
  intros Hpre. destruct s as [| d s]; [exact Hpre |].
  change (String.prefix w (String d s) || Py.str_in w s = true).
  rewrite Hpre. reflexivity.
Qed.

Lemma str_in_cons w d s : Py.str_in w s = true -> Py.str_in w (String d s) = true.
Proof.
  intros Hin.
  change (String.prefix w (String d s) || Py.str_in w s = true).
  rewrite Hin. apply orb_true_r.
Qed.

Lemma str_in_append_here w t : Py.str_in w (w +:+ t) = true.
Proof. apply str_in_prefix, prefix_append. Qed.

Lemma str_in_append_r w s t :
  Py.str_in w t = true -> Py.str_in w (s +:+ t) = true.
Proof.
  intros Ht. induction s as [| c s IH]; [exact Ht |].
  change (String c s +:+ t) with (String c (s +:+ t)).
  apply str_in_cons, IH.
Qed.

Lemma str_in_append_l w s t :
  Py.str_in w s = true -> Py.str_in w (s +:+ t) = true.
Proof.
  induction s as [| c s IH]; intros Hs.
  - destruct w; [apply str_in_empty | discriminate].
  - change (String.prefix w (String c s) || Py.str_in w s = true) in Hs.
    apply orb_true_iff in Hs as [Hpre | Hin].
    + apply str_in_prefix, prefix_append_l, Hpre.
    + change (String c s +:+ t) with (String c (s +:+ t)).
      apply str_in_cons, IH, Hin.
Qed.

Ltac find_in_append :=
  first [ apply str_in_append_here
        | apply str_in_append_r; find_in_append ].

Lemma persona_opener_mentions persona name destination :
  Py.str_in name (persona_opener persona name destination) = true
  /\ Py.str_in destination (persona_opener persona name destination) = true.
Proof.
  unfold persona_opener.
  repeat match goal with
         | |- context [if ?b then _ else _] => destruct b
         end; split; find_in_append.
Qed.

Lemma fold_append_keeps {A} w (g : A -> string) xs r :
  Py.str_in w r = true ->
  Py.str_in w (fold_left (fun response x => response +:+ g x) xs r) = true.
Proof.
  revert r. induction xs as [| x xs IH]; intros r Hr; cbn [fold_left].
  - exact Hr.
  - apply IH, str_in_append_l, Hr.
Qed.

Lemma add_destination_intelligence_keeps w p dest intel r r' :
  add_destination_intelligence p dest intel r = Ok r' ->
  Py.str_in w r = true -> Py.str_in w r' = true.
Proof.
  unfold add_destination_intelligence. intros Hrun Hr.
  destruct intel as [i |]; cbn [mbind result_bind mret result_ret] in Hrun.
  - destruct (local_tips i) as [| tip0 [| tip1 tips]];
      cbn [nonempty index lookup list_lookup length Nat.ltb Nat.leb
           mbind result_bind mret result_ret] in Hrun;
      destruct (negb (String.eqb (best_time i) "")); injection Hrun as <-;
      repeat first
        [ assumption
        | apply str_in_append_l
        | apply fold_append_keeps
        | match goal with
          | |- context [if ?b then _ else _] => destruct b
          end ].
  - injection Hrun as <-.
    repeat first
      [ assumption
      | apply str_in_append_l
      | apply fold_append_keeps
      | match goal with
        | |- context [if ?b then _ else _] => destruct b
        end ].
Qed.

(** X29: the fallback text addresses the user by the stored name, or as
    "valued traveler" when there is none, and names the destination in
    title case ("General" when none was recognized). *)
Theorem fallback_text_addresses_user (message : string) (p : UserProfile) :
  exists d text,
    get_destination_intelligence message = Ok d
    /\ _generate_fallback_response message p = Ok text
    /\ Py.str_in (if Py.truthy (name p) then default "" (name p)
                  else "valued traveler") text = true
    /\ Py.str_in (Py.title (destination d)) text = true.
Proof.
  destruct (get_destination_intelligence_ok message) as [d Hd].
  exists d. unfold _generate_fallback_response. rewrite Hd.
  cbn [mbind result_bind].
  destruct (persona_opener_mentions
              (_select_travel_agent_persona p (Py.lower message))
              (if Py.truthy (name p) then default "" (name p)
               else "valued traveler")
              (Py.title (destination d))) as [Hname Hdest].
  set (opener := persona_opener _ _ _) in *. clearbody opener.
  assert (Hbody : exists body,
            (if has_specific_data d
             then add_destination_intelligence p (Py.title (destination d))
                    (intelligence d) opener
             else mret opener) = Ok body
            /\ Py.str_in (if Py.truthy (name p) then default "" (name p)
                          else "valued traveler") body = true
            /\ Py.str_in (Py.title (destination d)) body = true).
  { destruct (has_specific_data d).
    - destruct (add_destination_intelligence_ok p (Py.title (destination d))
                  (intelligence d) opener) as [body Hbody].
      exists body. split; [exact Hbody |].
      split; eapply add_destination_intelligence_keeps; eauto.
    - exists opener. auto. }
  destruct Hbody as (body & -> & Hbn & Hbd).
  cbn [mbind result_bind mret result_ret].
  eexists. split; [reflexivity |]. split; [reflexivity |].
  split;
    repeat match goal with
           | |- context [if ?b then _ else _] => destruct b
           end; repeat apply str_in_append_l; assumption.
Qed.

End FallbackText.

Section VoiceLanguage.

(** X30: for a user with voice enabled, a request whose preferred
    language is not one of the six supported codes makes
    [/api/personalized-chat] fail with status 500 although the voice
    system is up and the generative call answered; the exchange has been
    recorded in the profile by then. *)
Theorem personalized_chat_unsupported_language
    (now : Z) (text language : string) (tts : VoiceSystem)
    (request : ChatRequest) (ai : AI) (p : UserProfile)
    (Hmessage : req_message request <> "")
    (Huser : req_user_id request <> "")
    (Hsession : req_session_id request <> "")
    (Hknown : user_profiles ai !! req_user_id request = Some p)
    (Hvoice : voice_enabled p = true)
    (Hlang : req_preferred_language request = Some language)
    (Hnonempty : language <> "")
    (Hunsupported : language ∉ VoiceLanguage_values) :
  exists (detail : string) (ai' : AI) (p' : UserProfile),
    personalized_chat now (Ok text) (Some tts) request (Some ai)
    = (Raise (HTTPException 500 detail), Some ai')
    /\ user_profiles ai' !! req_user_id request = Some p'
    /\ last_interaction p' = Some now.
Proof.
  destruct (generate_response_success now text (req_message request)
              (req_user_id request) (req_session_id request) ai)
    as (r & ai' & p' & older & analysis & Hrun & _ & _ & Hstored & _ & _
        & Hlast & _ & _ & _ & Havail & Hkeep).
  unfold personalized_chat.
  assert (Hcheck : negb (Py.truthy (Some (req_message request)))
                   || negb (Py.truthy (Some (req_user_id request)))
                   || negb (Py.truthy (Some (req_session_id request)))
                   = false).
  { destruct (req_message request); [congruence |].
    destruct (req_user_id request); [congruence |].
    destruct (req_session_id request); [congruence |]. reflexivity. }
  rewrite Hcheck. unfold with_personalized_ai.
  unfold mbind at 1. unfold M_bind at 1. rewrite Hrun.
  rewrite Havail, (Hkeep p Hknown), Hvoice.
  assert (Hcall : VoiceLanguage_call
                    (str_or (req_preferred_language request) "en-US")
                  = Raise (ValueError ("'" +:+ language
                                       +:+ "' is not a valid VoiceLanguage"))).
  { rewrite Hlang. unfold str_or, VoiceLanguage_call, Py.list_in.
    destruct language; [congruence |]. cbn [Py.truthy default].
    rewrite bool_decide_eq_false_2 by exact Hunsupported. reflexivity. }
  unfold lift, mbind, M_bind. rewrite Hcall. cbn [wrap_http].
  eexists _, ai', p'. split; [reflexivity |]. auto.
Qed.

Lemma personalized_chat_unsupported_language_witness :
  exists (detail : string) (ai' : AI) (p' : UserProfile),
    personalized_chat 8 (Ok "Namaste") (Some (fun _ _ => None))
      {| req_message := "hello"; req_session_id := "s1";
         req_user_id := "u1"; req_voice_input := None;
         req_preferred_language := Some "en" |}
      (Some {| user_profiles :=
                 {[ "u1" := set_voice_enabled true traveller ]};
               log := [] |})
    = (Raise (HTTPException 500 detail), Some ai')
    /\ user_profiles ai' !! "u1" = Some p'
    /\ last_interaction p' = Some 8%Z.
Proof.
  apply (personalized_chat_unsupported_language 8 "Namaste" "en"
           (fun _ _ => None)
           {| req_message := "hello"; req_session_id := "s1";
              req_user_id := "u1"; req_voice_input := None;
              req_preferred_language := Some "en" |}
           {| user_profiles := {[ "u1" := set_voice_enabled true traveller ]};
              log := [] |}
           (set_voice_enabled true traveller));
    try discriminate; try reflexivity.
  unfold VoiceLanguage_values. rewrite !elem_of_cons, elem_of_nil.
  intuition discriminate.
Defined.

End VoiceLanguage.
